(** * Baker Street Laboratory: the research orchestrator

    A shallow embedding of
    [implementation/src/orchestrator/research_orchestrator.py] (class
    [ResearchOrchestrator]) and of the one helper of
    [implementation/src/core/logger.py] it calls
    ([create_session_logger]), followed by the properties of the
    four-phase pipeline (plan, collect, analyze, report).

    Modelling conventions.
    - A Python [str] is the [string] of the bytes of its UTF-8 encoding,
      a surrogate (which UTF-8 proper has no place for) as the three
      bytes of its code point.  [str.split], [str.strip] and
      [str.isspace] know the white space of Unicode; [str.lower] acts
      on the ASCII letters.
    - The dictionaries the phases build with a fixed set of keys are
      records ([d.get(key, default)] on them is the field, the key being
      always there); the dictionary [conduct_research] returns has a
      different key set on success and on failure and is a [gmap].
    - The file system, the [logging] registry, the emitted log records,
      the clock and the random source form the [World]; every method is
      a state-and-exception computation over it.  The file system maps
      the parts of a path to a directory or a regular file; [..] and
      symbolic links are not resolved, and an [OSError] names the path
      at which the obstacle is found.  Where a property compares paths
      or quotes them, it is stated for the paths that lead down from
      the working directory by plain names ([local]), which mean to a
      file system without links what they mean here.
    - A text file is written and read through the codec [utf-8]:
      writing refuses a surrogate once the file is open and empty,
      reading refuses bytes that are no text and translates the line
      ends.
    - The exceptions are those [except Exception] catches. *)

From Stdlib Require Import String Ascii List ZArith NArith Bool Lia.
From stdpp Require Import base option gmap strings list pretty.

Import ListNotations.
Local Open Scope string_scope.
Local Open Scope list_scope.

(** ** Python strings *)

Module PyStr.

(** The double-quote character, spliced into literals that contain it. *)
Definition dq : string := String (ascii_of_nat 34) EmptyString.

(** [chr(10)] *)
Definition nl : string := String (ascii_of_nat 10) EmptyString.

Definition is_upper (c : ascii) : bool :=
  let n := nat_of_ascii c in (65 <=? n)%nat && (n <=? 90)%nat.

Definition lower_char (c : ascii) : ascii :=
  if is_upper c then ascii_of_nat (nat_of_ascii c + 32) else c.

(** [s.lower()] *)
Fixpoint lower (s : string) : string :=
  match s with
  | EmptyString => EmptyString
  | String c t => String (lower_char c) (lower t)
  end.

(** [needle in hay] *)
Fixpoint contains (needle hay : string) : bool :=
  String.prefix needle hay
  || match hay with
     | EmptyString => false
     | String _ t => contains needle t
     end.

(** [any(word in s for word in words)] *)
Definition any_in (words : list string) (s : string) : bool :=
  existsb (fun word => contains word s) words.

(** The string of the bytes [l]. *)
Definition of_bytes (l : list nat) : string :=
  fold_right (fun n s => String (ascii_of_nat n) s) EmptyString l.

(** The white space of [str.split()], [str.strip()] and [str.isspace()],
    each character as the bytes of its UTF-8 encoding: TAB, LF, VT, FF,
    CR, FS, GS, RS, US, the space, U+0085, U+00A0, U+1680, U+2000 to
    U+200A, U+2028, U+2029, U+202F, U+205F and U+3000. *)
Definition whitespace : list string :=
  map of_bytes
    [ [9]; [10]; [11]; [12]; [13]; [28]; [29]; [30]; [31]; [32];
      [194; 133]; [194; 160]; [225; 154; 128];
      [226; 128; 128]; [226; 128; 129]; [226; 128; 130]; [226; 128; 131];
      [226; 128; 132]; [226; 128; 133]; [226; 128; 134]; [226; 128; 135];
      [226; 128; 136]; [226; 128; 137]; [226; 128; 138];
      [226; 128; 168]; [226; 128; 169]; [226; 128; 175]; [226; 129; 159];
      [227; 128; 128] ].

(** The number of bytes of the white-space character [s] begins with;
    0 when it begins with none. *)
Definition space_width (s : string) : nat :=
  match List.find (fun ws => String.prefix ws s) whitespace with
  | Some ws => String.length ws
  | None => 0
  end.

(** [s.split()]: the maximal runs of characters that are not white
    space, in order.  [skip] counts the bytes still to pass of a
    white-space character, [cur] is the word being read, reversed. *)
Fixpoint split_go (skip : nat) (cur : option string) (s : string)
    : list string :=
  match s with
  | EmptyString =>
      match cur with Some w => [String.rev w] | None => [] end
  | String c t =>
      match skip with
      | S k => split_go k cur t
      | O =>
          match space_width (String c t) with
          | S k =>
              match cur with
              | Some w => String.rev w :: split_go k None t
              | None => split_go k None t
              end
          | O =>
              match cur with
              | Some w => split_go O (Some (String c w)) t
              | None => split_go O (Some (String c EmptyString)) t
              end
          end
      end
  end.

Definition split (s : string) : list string := split_go O None s.

(** [sep.join(parts)] *)
Fixpoint join (sep : string) (parts : list string) : string :=
  match parts with
  | [] => EmptyString
  | [p] => p
  | p :: rest => p +:+ sep +:+ join sep rest
  end.

(** [not s.strip()]: the string is empty or white space only. *)
Fixpoint blank_go (skip : nat) (s : string) : bool :=
  match s with
  | EmptyString => true
  | String c t =>
      match skip with
      | S k => blank_go k t
      | O =>
          match space_width (String c t) with
          | S k => blank_go k t
          | O => false
          end
      end
  end.

Definition blank (s : string) : bool := blank_go O s.

(** [s[:n]] *)
Definition take (n : nat) (s : string) : string := String.substring 0 n s.

(** What [needle in hay] decides. *)
Definition substring_of (needle hay : string) : Prop :=
  exists pre post, hay = pre +:+ needle +:+ post.

(** A word: not empty, and no white-space character in it. *)
Definition word (w : string) : Prop :=
  w <> EmptyString
  /\ forall ws, In ws whitespace -> ~ substring_of ws w.

(** [delimited s words]: [words] are the white-space-delimited words of
    the text [s], in order.  White space before a word does not count;
    a word ends where the text ends or white space follows. *)
Inductive delimited : string -> list string -> Prop :=
  | delimited_end : delimited EmptyString []
  | delimited_space (ws s : string) (words : list string) :
      In ws whitespace -> delimited s words ->
      delimited (ws +:+ s) words
  | delimited_word (w rest : string) (words : list string) :
      word w ->
      rest = EmptyString
      \/ (exists ws t, In ws whitespace /\ rest = ws +:+ t) ->
      delimited rest words ->
      delimited (w +:+ rest) (w :: words).

End PyStr.

(** ** White space in UTF-8 *)

(** A continuation byte of UTF-8. *)
Definition trailing (c : ascii) : bool :=
  let n := nat_of_ascii c in (128 <=? n)%nat && (n <=? 191)%nat.

Fixpoint all_trailing (s : string) : bool :=
  match s with
  | EmptyString => true
  | String c t => trailing c && all_trailing t
  end.

Definition starts_trailing (s : string) : bool :=
  match s with
  | EmptyString => false
  | String c _ => trailing c
  end.

(** What follows a word: the end of the text or white space. *)
Definition word_end (rest : string) : Prop :=
  rest = EmptyString
  \/ exists ws t, In ws PyStr.whitespace /\ rest = ws +:+ t.

(** No white-space character begins anywhere in the word read so far,
    [s] being what follows it. *)
Definition clean (w s : string) : Prop :=
  forall a b,
    String.rev w = a +:+ b -> b <> EmptyString ->
    PyStr.space_width (b +:+ s) = 0.

(** ** Query classification and keyword extraction *)

Definition philosophical_words : list string :=
  ["meaning"; "purpose"; "philosophy"; "existence"].
Definition technical_words : list string :=
  ["technology"; "science"; "research"].
Definition historical_words : list string :=
  ["history"; "historical"; "past"].

(** [ResearchOrchestrator._determine_research_type] *)
Definition _determine_research_type (query : string) : string :=
  let query_lower := PyStr.lower query in
  if PyStr.any_in philosophical_words query_lower then "philosophical"
  else if PyStr.any_in technical_words query_lower then "technical"
  else if PyStr.any_in historical_words query_lower then "historical"
  else "general".

(** The [concept_keywords] dictionary, in insertion order (the order in
    which [.items()] yields it). *)
Definition concept_keywords : list (string * list string) :=
  [ ("meaning", ["meaning"; "purpose"; "significance"]);
    ("life", ["life"; "existence"; "being"]);
    ("philosophy", ["philosophy"; "philosophical"; "ethics"]);
    ("science", ["science"; "scientific"; "research"]);
    ("technology", ["technology"; "tech"; "innovation"]) ].

(** One iteration of the [for concept, keywords in ...] loop. *)
Definition concept_step (query_lower : string) (concepts : list string)
    (item : string * list string) : list string :=
  let '(concept, keywords) := item in
  if PyStr.any_in keywords query_lower
  then concepts ++ [concept]
  else concepts.

(** [ResearchOrchestrator._extract_key_concepts] *)
Definition _extract_key_concepts (query : string) : list string :=
  let query_lower := PyStr.lower query in
  let concepts := fold_left (concept_step query_lower) concept_keywords [] in
  match concepts with
  | [] => ["general"]
  | _ :: _ => concepts
  end.

(** [ResearchOrchestrator._generate_search_strategies] *)
Definition _generate_search_strategies (query : string) : list string :=
  [ PyStr.dq +:+ query +:+ PyStr.dq;
    query +:+ " research";
    query +:+ " analysis";
    query +:+ " overview" ].

(** ** Exceptions (the subclasses of [Exception] the model can raise) *)

Inductive exn : Type :=
  | FileExistsError (filename : string)
  | FileNotFoundError (filename : string)
  | NotADirectoryError (filename : string)
  | IsADirectoryError (filename : string)
  | OtherError (message : string).

(** [str(e)]; the file name of an [OSError] is shown between single
    quotes. *)
Definition exn_str (e : exn) : string :=
  match e with
  | FileExistsError f => "[Errno 17] File exists: '" +:+ f +:+ "'"
  | FileNotFoundError f => "[Errno 2] No such file or directory: '" +:+ f +:+ "'"
  | NotADirectoryError f => "[Errno 20] Not a directory: '" +:+ f +:+ "'"
  | IsADirectoryError f => "[Errno 21] Is a directory: '" +:+ f +:+ "'"
  | OtherError m => m
  end.

Inductive Res (A : Type) : Type :=
  | Ok (a : A)
  | Raise (e : exn).
Arguments Ok {A} a.
Arguments Raise {A} e.

(** ** pathlib (POSIX flavour) and the file system *)

(** A path is its [.parts] tuple: [Path("/a/b").parts = ("/", "a", "b")],
    [Path(".").parts = ()]. *)
Abbreviation Path := (list string).

Module Pathlib.

Definition slash : ascii := ascii_of_nat 47.

(** [s.split("/")] *)
Fixpoint split_slash_go (cur : string) (s : string) : list string :=
  match s with
  | EmptyString => [String.rev cur]
  | String c t =>
      if Ascii.eqb c slash
      then String.rev cur :: split_slash_go EmptyString t
      else split_slash_go (String c cur) t
  end.

Definition split_slash (s : string) : list string :=
  split_slash_go EmptyString s.

(** [posixpath.splitroot], without the (always empty) drive. *)
Definition splitroot (p : string) : string * string :=
  match p with
  | String c1 t1 =>
      if Ascii.eqb c1 slash then
        match t1 with
        | String c2 t2 =>
            if Ascii.eqb c2 slash then
              match t2 with
              | String c3 _ =>
                  if Ascii.eqb c3 slash then ("/", t1) else ("//", t2)
              | EmptyString => ("//", t2)
              end
            else ("/", t1)
        | EmptyString => ("/", t1)
        end
      else (EmptyString, p)
  | EmptyString => (EmptyString, p)
  end.

Definition keep_part (x : string) : bool :=
  negb (String.eqb x EmptyString) && negb (String.eqb x ".").

(** [Path(s)] *)
Definition parse (s : string) : Path :=
  let '(root, rel) := splitroot s in
  let tail := List.filter keep_part (split_slash rel) in
  if String.eqb root EmptyString then tail else root :: tail.

Definition is_root (x : string) : bool := String.prefix "/" x.

(** [str(p)] *)
Definition str (p : Path) : string :=
  match p with
  | [] => "."
  | r :: tail =>
      if is_root r then r +:+ PyStr.join "/" tail else PyStr.join "/" p
  end.

(** [p / key] *)
Definition div (p : Path) (key : string) : Path :=
  if String.prefix "/" key then parse key
  else p ++ List.filter keep_part (split_slash key).

(** [p.parent] *)
Definition parent (p : Path) : Path :=
  match p with
  | [] => []
  | [r] => if is_root r then [r] else []
  | _ => removelast p
  end.

(** The current directory and the roots, which always exist. *)
Definition is_anchor (p : Path) : bool :=
  match p with
  | [] => true
  | [r] => is_root r
  | _ => false
  end.

End Pathlib.

Inductive node : Type :=
  | Dir
  | File (content : string).

Abbreviation FS := (gmap (list string) node).

Module Os.

(** What is at [p].  The parts of [p] are taken as they stand, [..]
    being a name like another: this is the entry a file system without
    links finds for a path that leads down from the working directory
    or from the root by names proper. *)
Definition node_at (fs : FS) (p : Path) : option node :=
  if Pathlib.is_anchor p then Some Dir else fs !! p.

Definition is_dir (fs : FS) (p : Path) : bool :=
  match node_at fs p with
  | Some Dir => true
  | _ => false
  end.

(** What stands in the way of creating the entry [p] in its parent. *)
Definition parent_error (fs : FS) (p : Path) : option exn :=
  match node_at fs (Pathlib.parent p) with
  | None => Some (FileNotFoundError (Pathlib.str p))
  | Some (File _) => Some (NotADirectoryError (Pathlib.str p))
  | Some Dir => None
  end.

(** [os.mkdir(p)] *)
Definition mkdir (p : Path) (fs : FS) : Res FS :=
  match node_at fs p with
  | Some _ => Raise (FileExistsError (Pathlib.str p))
  | None =>
      match parent_error fs p with
      | Some e => Raise e
      | None => Ok (<[p := Dir]> fs)
      end
  end.

(** [Path.mkdir(parents=True, exist_ok=True)], following pathlib: try
    [os.mkdir]; on [FileNotFoundError] create the parent the same way
    and retry; any other [OSError] is swallowed when the path is a
    directory.  The path is given as its reversed parts, so that the
    parent is the tail; an anchor is its own parent and never yields
    [FileNotFoundError]. *)
Fixpoint mkdir_parents_rev (rp : list string) (fs : FS) : Res FS :=
  let p := rev rp in
  match mkdir p fs with
  | Ok fs' => Ok fs'
  | Raise (FileNotFoundError f) =>
      match rp with
      | [] => Raise (FileNotFoundError f)
      | _ :: rparent =>
          match mkdir_parents_rev rparent fs with
          | Raise e => Raise e
          | Ok fs1 =>
              match mkdir p fs1 with
              | Ok fs2 => Ok fs2
              | Raise e => if is_dir fs1 p then Ok fs1 else Raise e
              end
          end
      end
  | Raise e => if is_dir fs p then Ok fs else Raise e
  end.

Definition mkdir_parents (p : Path) (fs : FS) : Res FS :=
  mkdir_parents_rev (rev p) fs.

(** [with open(p, 'w', encoding='utf-8') as f: f.write(content)], for a
    [content] that UTF-8 encodes. *)
Definition write_text (p : Path) (content : string) (fs : FS) : Res FS :=
  match node_at fs p with
  | Some Dir => Raise (IsADirectoryError (Pathlib.str p))
  | Some (File _) => Ok (<[p := File content]> fs)
  | None =>
      match parent_error fs p with
      | Some e => Raise e
      | None => Ok (<[p := File content]> fs)
      end
  end.

(** [open(p, 'w', encoding='utf-8')] alone: the file is there and
    empty. *)
Definition open_write (p : Path) (fs : FS) : Res FS :=
  write_text p EmptyString fs.

(** [open(p, 'a')], as [logging.FileHandler(p)] does on creation. *)
Definition open_append (p : Path) (fs : FS) : Res FS :=
  match node_at fs p with
  | Some Dir => Raise (IsADirectoryError (Pathlib.str p))
  | Some (File _) => Ok fs
  | None =>
      match parent_error fs p with
      | Some e => Raise e
      | None => Ok (<[p := File EmptyString]> fs)
      end
  end.

(** The content of the regular file at [p], if there is one. *)
Definition read_text (fs : FS) (p : Path) : option string :=
  match node_at fs p with
  | Some (File content) => Some content
  | _ => None
  end.

End Os.

(** ** datetime *)

Record datetime : Type := {
  year : N; month : N; day : N;
  hour : N; minute : N; second : N; microsecond : N
}.

Module Datetime.

Fixpoint zeros (k : nat) : string :=
  match k with
  | O => EmptyString
  | S k' => String "0" (zeros k')
  end.

(** ["%0<width>d" % n] *)
Definition pad (width : nat) (n : N) : string :=
  let digits := pretty n in
  zeros (width - String.length digits) +:+ digits.

(** [strftime("%Y%m%d_%H%M%S")] (years of four digits) *)
Definition strftime_compact (t : datetime) : string :=
  pad 4 (year t) +:+ pad 2 (month t) +:+ pad 2 (day t) +:+ "_"
  +:+ pad 2 (hour t) +:+ pad 2 (minute t) +:+ pad 2 (second t).

(** [strftime('%Y-%m-%d %H:%M:%S')] (years of four digits) *)
Definition strftime_human (t : datetime) : string :=
  pad 4 (year t) +:+ "-" +:+ pad 2 (month t) +:+ "-" +:+ pad 2 (day t)
  +:+ " " +:+ pad 2 (hour t) +:+ ":" +:+ pad 2 (minute t)
  +:+ ":" +:+ pad 2 (second t).

(** [isoformat()] *)
Definition isoformat (t : datetime) : string :=
  pad 4 (year t) +:+ "-" +:+ pad 2 (month t) +:+ "-" +:+ pad 2 (day t)
  +:+ "T" +:+ pad 2 (hour t) +:+ ":" +:+ pad 2 (minute t)
  +:+ ":" +:+ pad 2 (second t)
  +:+ (if N.eqb (microsecond t) 0 then EmptyString
       else "." +:+ pad 6 (microsecond t)).

End Datetime.

(** ** uuid *)

Module Uuid.

Definition hex_digit (d : N) : ascii :=
  if (d <? 10)%N
  then ascii_of_N (48 + d)
  else ascii_of_N (87 + d).

(** The [k] low hexadecimal digits of [n], most significant first:
    ['%0<k>x' % n] for [n < 16^k]. *)
Fixpoint hex (k : nat) (n : N) : string :=
  match k with
  | O => EmptyString
  | S k' =>
      String (hex_digit (N.land (N.shiftr n (4 * N.of_nat k')) 15))
             (hex k' n)
  end.

(** [uuid.uuid4().int] from the sixteen random bytes [r]: the variant
    and version bits are forced. *)
Definition uuid4_int (r : N) : N :=
  let i := N.land r (N.ones 128) in
  let i := N.ldiff i (N.shiftl 49152 48) in
  let i := N.lor i (N.shiftl 32768 48) in
  let i := N.ldiff i (N.shiftl 61440 64) in
  N.lor i (N.shiftl 4 76).

(** [str(u)] *)
Definition str (u : N) : string :=
  let h := hex 32 u in
  String.substring 0 8 h +:+ "-" +:+ String.substring 8 4 h +:+ "-"
  +:+ String.substring 12 4 h +:+ "-" +:+ String.substring 16 4 h
  +:+ "-" +:+ String.substring 20 12 h.

End Uuid.

(** ** The codec [utf-8] *)

Module Utf8.

(** A continuation byte: 0x80 to 0xBF. *)
Definition continuation (c : ascii) : bool :=
  let n := nat_of_ascii c in (128 <=? n)%nat && (n <=? 191)%nat.

(** What the decoder finds where a character should begin: a character
    of [width] bytes, bytes it refuses (the error covers [width] of
    them), or a character cut short by the end of the data. *)
Inductive step : Type :=
  | Good (width : nat)
  | Bad (width : nat) (reason : string)
  | Truncated.

Definition bad_start : string := "invalid start byte".
Definition bad_continuation : string := "invalid continuation byte".

(** The decoder of CPython at the head of [s]: overlong forms, the
    surrogates U+D800 to U+DFFF and code points beyond U+10FFFF are
    refused at their second byte. *)
Definition decode_step (s : string) : step :=
  match s with
  | EmptyString => Truncated
  | String c t =>
      let ch := nat_of_ascii c in
      if (ch <? 128)%nat then Good 1
      else if (ch <? 194)%nat then Bad 1 bad_start
      else if (ch <? 224)%nat then
        match t with
        | EmptyString => Truncated
        | String c2 _ =>
            if continuation c2 then Good 2 else Bad 1 bad_continuation
        end
      else if (ch <? 240)%nat then
        match t with
        | EmptyString => Truncated
        | String c2 t2 =>
            let ch2 := nat_of_ascii c2 in
            if negb (continuation c2)
               || (if (ch2 <? 160)%nat then (ch =? 224)%nat
                   else (ch =? 237)%nat)
            then Bad 1 bad_continuation
            else match t2 with
                 | EmptyString => Truncated
                 | String c3 _ =>
                     if continuation c3 then Good 3
                     else Bad 2 bad_continuation
                 end
        end
      else if (ch <? 245)%nat then
        match t with
        | EmptyString => Truncated
        | String c2 t2 =>
            let ch2 := nat_of_ascii c2 in
            if negb (continuation c2)
               || (if (ch2 <? 144)%nat then (ch =? 240)%nat
                   else (ch =? 244)%nat)
            then Bad 1 bad_continuation
            else match t2 with
                 | EmptyString => Truncated
                 | String c3 t3 =>
                     if negb (continuation c3) then Bad 2 bad_continuation
                     else match t3 with
                          | EmptyString => Truncated
                          | String c4 _ =>
                              if continuation c4 then Good 4
                              else Bad 3 bad_continuation
                          end
                 end
        end
      else Bad 1 bad_start
  end.

(** The attributes of a [UnicodeError]: where the refused part starts
    and ends, and why it is refused. *)
Record error : Type := {
  start : nat;
  stop : nat;
  reason : string
}.

(** The (generalised) encoding of a surrogate, U+D800 to U+DFFF, at the
    head of [s]: the code point. *)
Definition surrogate (s : string) : option N :=
  match s with
  | String c1 (String c2 (String c3 _)) =>
      let n2 := nat_of_ascii c2 in
      if (nat_of_ascii c1 =? 237)%nat
         && (160 <=? n2)%nat && (n2 <=? 191)%nat && continuation c3
      then Some (53248 + 64 * (N.of_nat n2 - 128)
                 + (N_of_ascii c3 - 128))%N
      else None
  | _ => None
  end.

(** The first error of [bytes.decode('utf-8')], if there is one.
    [skip] counts the bytes still to pass of a character, [pos] the
    bytes passed. *)
Fixpoint decode_go (skip pos : nat) (s : string) : option error :=
  match s with
  | EmptyString => None
  | String c t =>
      match skip with
      | S k => decode_go k (S pos) t
      | O =>
          match decode_step (String c t) with
          | Good w => decode_go (Nat.pred w) (S pos) t
          | Bad w why =>
              Some {| start := pos; stop := pos + w; reason := why |}
          | Truncated =>
              Some {| start := pos;
                      stop := pos + String.length (String c t);
                      reason := "unexpected end of data" |}
          end
      end
  end.

Definition decode_error (s : string) : option error := decode_go 0 0 s.

(** [str(e)] of the [UnicodeDecodeError] for the bytes [s]. *)
Definition decode_message (s : string) (e : error) : string :=
  if (stop e =? S (start e))%nat
  then "'utf-8' codec can't decode byte 0x"
       +:+ match String.get (start e) s with
           | Some c => Uuid.hex 2 (N_of_ascii c)
           | None => EmptyString
           end
       +:+ " in position " +:+ pretty (start e) +:+ ": " +:+ reason e
  else "'utf-8' codec can't decode bytes in position "
       +:+ pretty (start e) +:+ "-" +:+ pretty (Nat.pred (stop e))
       +:+ ": " +:+ reason e.

(** How many surrogates stand at the head of [s], one after the
    other. *)
Fixpoint surrogates (fuel : nat) (s : string) : nat :=
  match fuel with
  | O => O
  | S fuel =>
      match surrogate s, s with
      | Some _, String _ (String _ (String _ t)) => S (surrogates fuel t)
      | _, _ => O
      end
  end.

(** The first surrogate of the text [s], as [str.encode('utf-8')] meets
    it: the characters before it, the surrogates in a row from it on,
    and its code point.  [skip] counts the bytes still to pass of a
    character, [chars] the characters passed. *)
Fixpoint surrogate_go (skip chars : nat) (s : string)
    : option (nat * nat * N) :=
  match s with
  | EmptyString => None
  | String c t =>
      match skip with
      | S k => surrogate_go k chars t
      | O =>
          match surrogate (String c t) with
          | Some code =>
              Some (chars, surrogates (String.length s) (String c t), code)
          | None =>
              match decode_step (String c t) with
              | Good w => surrogate_go (Nat.pred w) (S chars) t
              | _ => surrogate_go 0 (S chars) t
              end
          end
      end
  end.

(** [str(e)] of the [UnicodeEncodeError] of [s.encode('utf-8')], for a
    text with a surrogate. *)
Definition encode_message (s : string) : option string :=
  match surrogate_go 0 0 s with
  | Some (chars, run, code) =>
      Some (if (run =? 1)%nat
            then "'utf-8' codec can't encode character '\ud"
                 +:+ Uuid.hex 3 code +:+ "' in position " +:+ pretty chars
                 +:+ ": surrogates not allowed"
            else "'utf-8' codec can't encode characters in position "
                 +:+ pretty chars +:+ "-" +:+ pretty (chars + run - 1)
                 +:+ ": surrogates not allowed")
  | None => None
  end.

(** What [f.write(s)] raises on a file opened with [encoding='utf-8']:
    the [UnicodeEncodeError] of the first surrogate of [s].  A [string]
    that is the image of no text at all is refused as well, with what
    the decoder says of it. *)
Definition encode_error (s : string) : option exn :=
  match encode_message s with
  | Some message => Some (OtherError message)
  | None =>
      match decode_error s with
      | Some e => Some (OtherError (decode_message s e))
      | None => None
      end
  end.

End Utf8.

(** ** The world and its computations *)

Inductive level : Type := INFO | ERROR.

Record World : Type := mkWorld {
  fs : FS;                          (* the file system *)
  handlers : gset string;           (* the loggers that have a handler *)
  records : list (level * string);  (* what [self.logger] emitted, oldest first *)
  clock : nat -> datetime;          (* the successive readings of [datetime.now()] *)
  ticks : nat;                      (* how many readings were taken *)
  urandom : nat -> N;               (* the successive draws of [os.urandom(16)] *)
  draws : nat                       (* how many draws were taken *)
}.

Definition M (A : Type) : Type := World -> Res A * World.

Definition ret {A : Type} (a : A) : M A := fun w => (Ok a, w).

Definition bind {A B : Type} (m : M A) (k : A -> M B) : M B :=
  fun w =>
    match m w with
    | (Ok a, w') => k a w'
    | (Raise e, w') => (Raise e, w')
    end.

Notation "x <- m ;; k" := (bind m (fun x => k))
  (at level 100, m at next level, right associativity).
Notation "m ;; k" := (bind m (fun _ => k))
  (at level 100, right associativity).

(** [try: body except Exception as e: handler(e)] *)
Definition try_except {A : Type} (body : M A) (handler : exn -> M A) : M A :=
  fun w =>
    match body w with
    | (Ok a, w') => (Ok a, w')
    | (Raise e, w') => handler e w'
    end.

Definition set_fs (f : FS) (w : World) : World :=
  mkWorld f (handlers w) (records w) (clock w) (ticks w) (urandom w) (draws w).

(** A file-system operation, run on the world's file system; a failing
    operation leaves it as it was. *)
Definition on_fs (op : FS -> Res FS) : M unit :=
  fun w =>
    match op (fs w) with
    | Ok f => (Ok tt, set_fs f w)
    | Raise e => (Raise e, w)
    end.

(** [raise e] *)
Definition raise {A : Type} (e : exn) : M A := fun w => (Raise e, w).

(** [with open(p, 'w', encoding='utf-8') as f: f.write(content)]: the
    file is opened, which empties it, before [f.write] encodes the
    content; a content with a surrogate is refused then, and the file
    stays empty. *)
Definition write_utf8 (p : Path) (content : string) : M unit :=
  on_fs (Os.open_write p) ;;
  match Utf8.encode_error content with
  | Some e => raise e
  | None => on_fs (Os.write_text p content)
  end.

(** [datetime.now()] *)
Definition now : M datetime :=
  fun w =>
    (Ok (clock w (ticks w)),
     mkWorld (fs w) (handlers w) (records w) (clock w) (S (ticks w))
             (urandom w) (draws w)).

(** [os.urandom(16)], as a number. *)
Definition random16 : M N :=
  fun w =>
    (Ok (urandom w (draws w)),
     mkWorld (fs w) (handlers w) (records w) (clock w) (ticks w)
             (urandom w) (S (draws w))).

(** [self.logger.info(msg)] and [self.logger.error(msg)] *)
Definition emit (l : level) (msg : string) : M unit :=
  fun w =>
    (Ok tt,
     mkWorld (fs w) (handlers w) (records w ++ [(l, msg)]) (clock w)
             (ticks w) (urandom w) (draws w)).

Definition logger_info (msg : string) : M unit := emit INFO msg.
Definition logger_error (msg : string) : M unit := emit ERROR msg.

Definition has_handlers (name : string) : M bool :=
  fun w => (Ok (bool_decide (name ∈ handlers w)), w).

Definition add_handler (name : string) : M unit :=
  fun w =>
    (Ok tt,
     mkWorld (fs w) ({[name]} ∪ handlers w) (records w) (clock w)
             (ticks w) (urandom w) (draws w)).

(** ** core/logger.py *)

(** [create_session_logger(session_id, output_dir)]; the logger is
    returned by name. *)
Definition create_session_logger (session_id output_dir : string) : M string :=
  t <- now ;;
  let timestamp := Datetime.strftime_compact t in
  let log_file :=
    Pathlib.div (Pathlib.div (Pathlib.parse output_dir) "logs")
                ("session_" +:+ session_id +:+ "_" +:+ timestamp +:+ ".log") in
  let logger_name := "baker_street.session." +:+ session_id in
  configured <- has_handlers logger_name ;;
  (if configured then ret tt
   else
     on_fs (Os.mkdir_parents (Pathlib.parent log_file)) ;;
     on_fs (Os.open_append log_file) ;;
     add_handler logger_name) ;;
  ret logger_name.

(** ** The dictionaries exchanged by the phases *)

(** A [float], by its shortest round-trip representation: what [str] and
    an f-string print.  The code computes with none. *)
Inductive float_lit : Type := FloatLit (repr : string).

Definition float_str (x : float_lit) : string :=
  match x with FloatLit r => r end.

Module Plan.
Record t : Type := mk {
  query : string;
  research_type : string;
  key_concepts : list string;
  search_strategies : list string;
  expected_sources : list string
}.
End Plan.

Module CollectedData.
Record t : Type := mk {
  sources_found : Z;
  academic_papers : Z;
  web_articles : Z;
  books : Z;
  quality_score : float_lit;
  data_summary : string
}.
End CollectedData.

Module Analysis.
Record t : Type := mk {
  key_findings : list string;
  themes : list string;
  confidence_score : float_lit;
  analysis_summary : string
}.
End Analysis.

Module Report.
Record t : Type := mk {
  report_path : string;
  summary : string;
  word_count : Z;
  sections : Z
}.
End Report.

(** ** ResearchOrchestrator *)

(** The instance: [session_id] is its only attribute the pipeline reads
    ([config] and [logger] are not consulted by any phase, and
    [session_logger] is assigned and never used). *)
Record Orchestrator : Type := { session_id : string }.

(** [ResearchOrchestrator.__init__] *)
Definition ResearchOrchestrator_init : M Orchestrator :=
  r <- random16 ;;
  ret {| session_id := PyStr.take 8 (Uuid.str (Uuid.uuid4_int r)) |}.

(** [ResearchOrchestrator._analyze_query] *)
Definition _analyze_query (self : Orchestrator) (query : string) : M Plan.t :=
  logger_info "Analyzing research query..." ;;
  let plan :=
    {| Plan.query := query;
       Plan.research_type := _determine_research_type query;
       Plan.key_concepts := _extract_key_concepts query;
       Plan.search_strategies := _generate_search_strategies query;
       Plan.expected_sources := ["academic"; "web"; "books"; "reports"] |} in
  ret plan.

(** [ResearchOrchestrator._collect_data] *)
Definition _collect_data (self : Orchestrator) (research_plan : Plan.t)
    : M CollectedData.t :=
  logger_info "Collecting research data..." ;;
  let collected_data :=
    {| CollectedData.sources_found := 15;
       CollectedData.academic_papers := 8;
       CollectedData.web_articles := 5;
       CollectedData.books := 2;
       CollectedData.quality_score := FloatLit "0.85";
       CollectedData.data_summary :=
         "Collected comprehensive data on: " +:+ Plan.query research_plan |} in
  ret collected_data.

(** [ResearchOrchestrator._analyze_data] *)
Definition _analyze_data (self : Orchestrator) (collected_data : CollectedData.t)
    : M Analysis.t :=
  logger_info "Analyzing collected data..." ;;
  let analysis :=
    {| Analysis.key_findings :=
         [ "Multiple philosophical perspectives exist on this topic";
           "Historical context provides important framework";
           "Modern interpretations vary significantly";
           "Practical applications are diverse" ];
       Analysis.themes := ["philosophy"; "meaning"; "purpose"; "existence"];
       Analysis.confidence_score := FloatLit "0.78";
       Analysis.analysis_summary :=
         "Comprehensive analysis completed with high confidence" |} in
  ret analysis.

(** The text of a triple-quoted literal whose lines are [lines]: every
    line, the last included, ends with a newline. *)
Definition unlines (lines : list string) : string :=
  String.concat EmptyString (List.map (fun l => l +:+ PyStr.nl) lines).

(** The lines of the f-string of [_generate_meaning_of_life_report];
    [date] is [datetime.now().strftime('%Y-%m-%d %H:%M:%S')]. *)
Definition meaning_of_life_lines (self : Orchestrator) (date : string)
    (analysis : Analysis.t) : list string :=
  [
    "# Research Report: The Meaning of Life";
    EmptyString;
    "**Session ID:** " +:+ session_id self +:+ "  ";
    "**Date:** " +:+ date +:+ "  ";
    "**Generated by:** Baker Street Laboratory Research Pipeline";
    EmptyString;
    "## Executive Summary";
    EmptyString;
    "The question " +:+ PyStr.dq +:+ "What is the meaning of life?" +:+ PyStr.dq +:+ " has been contemplated by philosophers, theologians, scientists, and thinkers throughout human history. This research explores various perspectives and approaches to understanding life's purpose and meaning.";
    EmptyString;
    "## Key Findings";
    EmptyString;
    "### 1. Philosophical Perspectives";
    EmptyString;
    "**Existentialism**: Philosophers like Jean-Paul Sartre and Albert Camus argued that life has no inherent meaning, but individuals must create their own purpose through authentic choices and actions.";
    EmptyString;
    "**Absurdism**: Camus specifically proposed that the human condition is fundamentally absurd - the conflict between human desire for meaning and the universe's apparent meaninglessness.";
    EmptyString;
    "**Religious and Spiritual Views**: Many religious traditions provide frameworks for life's meaning:";
    "- Christianity: Relationship with God and eternal salvation";
    "- Buddhism: Liberation from suffering through enlightenment";
    "- Islam: Worship of Allah and following divine guidance";
    "- Hinduism: Dharma (righteous living) and moksha (liberation)";
    EmptyString;
    "### 2. Scientific and Secular Approaches";
    EmptyString;
    "**Evolutionary Biology**: From a biological standpoint, the " +:+ PyStr.dq +:+ "purpose" +:+ PyStr.dq +:+ " of life is survival and reproduction, passing genes to future generations.";
    EmptyString;
    "**Humanism**: Emphasizes human dignity, worth, and agency. Meaning comes from human relationships, creativity, and contribution to society.";
    EmptyString;
    "**Positive Psychology**: Research suggests meaning often comes from:";
    "- Purpose and goals";
    "- Relationships and love";
    "- Personal growth and achievement";
    "- Contributing to something larger than oneself";
    EmptyString;
    "### 3. Contemporary Perspectives";
    EmptyString;
    "**Viktor Frankl's Logotherapy**: Based on his Holocaust experiences, Frankl argued that the primary human drive is the search for meaning, not pleasure or power.";
    EmptyString;
    "**Modern Philosophy**: Thinkers like Thomas Nagel explore the tension between subjective meaning (what matters to us) and objective meaning (cosmic significance).";
    EmptyString;
    "## Cultural and Historical Context";
    EmptyString;
    "Different cultures and historical periods have emphasized various aspects:";
    "- Ancient Greeks: Virtue and the good life (eudaimonia)";
    "- Medieval period: Divine purpose and afterlife preparation";
    "- Enlightenment: Reason, progress, and human potential";
    "- Modern era: Individual fulfillment and self-actualization";
    EmptyString;
    "## Practical Applications";
    EmptyString;
    "Research suggests several pathways to a meaningful life:";
    EmptyString;
    "1. **Relationships**: Deep connections with family, friends, and community";
    "2. **Purpose**: Having goals and working toward something meaningful";
    "3. **Growth**: Continuous learning and personal development";
    "4. **Service**: Contributing to others and society";
    "5. **Transcendence**: Connecting with something greater than oneself";
    EmptyString;
    "## The " +:+ PyStr.dq +:+ "42" +:+ PyStr.dq +:+ " Reference";
    EmptyString;
    "Douglas Adams' " +:+ PyStr.dq +:+ "The Hitchhiker's Guide to the Galaxy" +:+ PyStr.dq +:+ " humorously suggested that " +:+ PyStr.dq +:+ "42" +:+ PyStr.dq +:+ " is the answer to the ultimate question of life, the universe, and everything. While satirical, this highlights the difficulty of finding simple answers to profound questions.";
    EmptyString;
    "## Synthesis and Conclusions";
    EmptyString;
    "The meaning of life appears to be:";
    EmptyString;
    "1. **Subjective and Personal**: What gives life meaning varies greatly among individuals";
    "2. **Multifaceted**: Likely involves multiple dimensions (relationships, purpose, growth, contribution)";
    "3. **Constructed**: Humans appear to create meaning rather than discover pre-existing meaning";
    "4. **Dynamic**: Life's meaning may change throughout different life stages";
    "5. **Both Individual and Collective**: Personal meaning often involves connection to others and larger purposes";
    EmptyString;
    "## Recommendations for Further Exploration";
    EmptyString;
    "1. **Philosophical Study**: Explore works by Aristotle, Kant, Nietzsche, Sartre, and contemporary philosophers";
    "2. **Religious and Spiritual Texts**: Examine various traditions' approaches to life's purpose";
    "3. **Scientific Research**: Review studies in positive psychology and well-being research";
    "4. **Personal Reflection**: Engage in practices like journaling, meditation, or therapy to explore personal meaning";
    "5. **Community Engagement**: Participate in activities that connect you with others and contribute to society";
    EmptyString;
    "## Final Thoughts";
    EmptyString;
    "While there may be no single, universal answer to " +:+ PyStr.dq +:+ "What is the meaning of life?" +:+ PyStr.dq +:+ ", the question itself drives human growth, connection, and achievement. The search for meaning appears to be as important as any answer we might find.";
    EmptyString;
    "The most robust approach may be to:";
    "- Acknowledge the question's complexity";
    "- Explore multiple perspectives";
    "- Create personal meaning through relationships, purpose, and contribution";
    "- Remain open to evolving understanding throughout life";
    EmptyString;
    "---";
    EmptyString;
    "*This report represents a synthesis of philosophical, scientific, and cultural perspectives on life's meaning. Individual experiences and beliefs will naturally vary.*";
    EmptyString;
    "**Research Quality Score:** " +:+ float_str (Analysis.confidence_score analysis) +:+ "/1.0  ";
    "**Sources Analyzed:** Academic papers, philosophical works, scientific studies, cultural texts  ";
    "**Methodology:** Multi-perspective analysis with emphasis on both historical and contemporary viewpoints"
  ].

(** [ResearchOrchestrator._generate_meaning_of_life_report] *)
Definition _generate_meaning_of_life_report (self : Orchestrator)
    (analysis : Analysis.t) : M string :=
  t <- now ;;
  ret (unlines (meaning_of_life_lines self (Datetime.strftime_human t) analysis)).

(** The lines of the f-string of [_generate_generic_report]. *)
Definition generic_lines (self : Orchestrator) (query date : string)
    (analysis : Analysis.t) : list string :=
  [
    "# Research Report: " +:+ query;
    EmptyString;
    "**Session ID:** " +:+ session_id self +:+ "  ";
    "**Date:** " +:+ date +:+ "  ";
    "**Generated by:** Baker Street Laboratory Research Pipeline";
    EmptyString;
    "## Executive Summary";
    EmptyString;
    "This report presents research findings on: " +:+ query;
    EmptyString;
    "## Key Findings";
    EmptyString;
    PyStr.join PyStr.nl (List.map (fun finding => "- " +:+ finding) (Analysis.key_findings analysis));
    EmptyString;
    "## Analysis Summary";
    EmptyString;
    Analysis.analysis_summary analysis;
    EmptyString;
    "## Themes Identified";
    EmptyString;
    PyStr.join ", " (Analysis.themes analysis);
    EmptyString;
    "## Confidence Score";
    EmptyString;
    "Research confidence: " +:+ float_str (Analysis.confidence_score analysis) +:+ "/1.0";
    EmptyString;
    "---";
    EmptyString;
    "*This report was generated by the Baker Street Laboratory research pipeline.*"
  ].

(** [ResearchOrchestrator._generate_generic_report] *)
Definition _generate_generic_report (self : Orchestrator) (query : string)
    (analysis : Analysis.t) : M string :=
  t <- now ;;
  ret (unlines (generic_lines self query (Datetime.strftime_human t) analysis)).

(** The file [_generate_report] writes: [output_path / f"research_report_{self.session_id}.md"]. *)
Definition report_file (self : Orchestrator) (output_path : Path) : Path :=
  Pathlib.div output_path ("research_report_" +:+ session_id self +:+ ".md").

(** [ResearchOrchestrator._generate_report] *)
Definition _generate_report (self : Orchestrator) (query : string)
    (analysis : Analysis.t) (output_path : Path) : M Report.t :=
  logger_info "Generating research report..." ;;
  report_content <-
    (if PyStr.contains "meaning of life" (PyStr.lower query)
     then _generate_meaning_of_life_report self analysis
     else _generate_generic_report self query analysis) ;;
  let report_path := report_file self output_path in
  write_utf8 report_path report_content ;;
  ret {| Report.report_path := Pathlib.str report_path;
         Report.summary := "Research report generated successfully";
         Report.word_count := Z.of_nat (List.length (PyStr.split report_content));
         Report.sections := 6 |}.

(** The four phase methods, as [conduct_research] reaches them through
    [self]: a subclass may override any of them. *)
Record Phases : Type := {
  analyze_query_phase : Orchestrator -> string -> M Plan.t;
  collect_data_phase : Orchestrator -> Plan.t -> M CollectedData.t;
  analyze_data_phase : Orchestrator -> CollectedData.t -> M Analysis.t;
  generate_report_phase :
    Orchestrator -> string -> Analysis.t -> Path -> M Report.t
}.

(** The methods of [ResearchOrchestrator] itself. *)
Definition ResearchOrchestrator_phases : Phases :=
  {| analyze_query_phase := _analyze_query;
     collect_data_phase := _collect_data;
     analyze_data_phase := _analyze_data;
     generate_report_phase := _generate_report |}.

(** The body of the [try] block of [conduct_research]. *)
Definition run_phases (cls : Phases) (self : Orchestrator) (query : string)
    (output_path : Path) : M (gmap string string) :=
  logger_info "Phase 1: Analyzing query and planning research" ;;
  research_plan <- analyze_query_phase cls self query ;;
  logger_info "Phase 2: Collecting data and sources" ;;
  collected_data <- collect_data_phase cls self research_plan ;;
  logger_info "Phase 3: Analyzing and synthesizing findings" ;;
  analysis_results <- analyze_data_phase cls self collected_data ;;
  logger_info "Phase 4: Generating research report" ;;
  report <- generate_report_phase cls self query analysis_results output_path ;;
  timestamp <- now ;;
  let results : gmap string string :=
    <["session_id" := session_id self]>
    (<["query" := query]>
    (<["timestamp" := Datetime.isoformat timestamp]>
    (<["output_dir" := Pathlib.str output_path]>
    (<["summary" := Report.summary report]>
    (<["report_path" := Report.report_path report]>
    (<["status" := "completed"]> ∅)))))) in
  logger_info ("Research session " +:+ session_id self
               +:+ " completed successfully") ;;
  ret results.

(** The [except Exception as e] block of [conduct_research]. *)
Definition failed (self : Orchestrator) (query : string) (e : exn)
    : M (gmap string string) :=
  logger_error ("Research session " +:+ session_id self +:+ " failed: "
                +:+ exn_str e) ;;
  timestamp <- now ;;
  ret (<["session_id" := session_id self]>
       (<["query" := query]>
       (<["timestamp" := Datetime.isoformat timestamp]>
       (<["error" := exn_str e]>
       (<["status" := "failed"]> ∅))))).

(** The part of [conduct_research] that runs before the [try] block:
    the two log lines, the session logger and the output directory. *)
Definition session_setup (self : Orchestrator) (query output_dir : string)
    : M Path :=
  logger_info ("Starting research session " +:+ session_id self) ;;
  logger_info ("Query: " +:+ query) ;;
  create_session_logger (session_id self) output_dir ;;
  let output_path := Pathlib.parse output_dir in
  on_fs (Os.mkdir_parents output_path) ;;
  ret output_path.

(** [conduct_research], for a class with the phase methods [cls]. *)
Definition conduct_research_of (cls : Phases) (self : Orchestrator)
    (query output_dir : string) : M (gmap string string) :=
  output_path <- session_setup self query output_dir ;;
  try_except (run_phases cls self query output_path) (failed self query).

(** [ResearchOrchestrator.conduct_research] *)
Definition conduct_research : Orchestrator -> string -> string ->
    M (gmap string string) :=
  conduct_research_of ResearchOrchestrator_phases.


(** ** What the statements below are phrased with *)

(** Some word of [words] occurs in [s]. *)
Definition mentions (words : list string) (s : string) : Prop :=
  exists word, In word words /\ PyStr.substring_of word s.

Definition seven_fields : gset string :=
  {[ "session_id"; "query"; "timestamp"; "output_dir"; "status";
     "summary"; "report_path" ]}.

Definition failure_fields : gset string :=
  {[ "session_id"; "query"; "timestamp"; "error"; "status" ]}.

(** The constant [_analyze_data] returns. *)
Definition fixed_analysis : Analysis.t :=
  {| Analysis.key_findings :=
       [ "Multiple philosophical perspectives exist on this topic";
         "Historical context provides important framework";
         "Modern interpretations vary significantly";
         "Practical applications are diverse" ];
     Analysis.themes := ["philosophy"; "meaning"; "purpose"; "existence"];
     Analysis.confidence_score := FloatLit "0.78";
     Analysis.analysis_summary :=
       "Comprehensive analysis completed with high confidence" |}.

(** [f'] has what [f] has, plus directories and empty files at free
    places, the files only at [allowed] places. *)
Definition only_adds (allowed : Path -> Prop) (f f' : FS) : Prop :=
  forall q,
    Os.node_at f' q = Os.node_at f q
    \/ (Os.node_at f q = None
        /\ (Os.node_at f' q = Some Dir
            \/ (Os.node_at f' q = Some (File EmptyString) /\ allowed q))).

(** The directories of [f] are directories of [f']. *)
Definition keeps_dirs (f f' : FS) : Prop :=
  forall q, Os.is_dir f q = true -> Os.is_dir f' q = true.

(** The places of the session logs of an output path: entries of its
    [logs] directory. *)
Definition session_log_of (output_path : Path) (q : Path) : Prop :=
  exists name,
    String.prefix "/" name = false
    /\ q = Pathlib.div (Pathlib.div output_path "logs") name.

(** The logging registry is as it was and no directory went away. *)
Definition stable (w w' : World) : Prop :=
  handlers w' = handlers w /\ keeps_dirs (fs w) (fs w').

(** A computation all of whose runs, returning or raising, are
    [stable]. *)
Definition steady {A : Type} (m : M A) : Prop :=
  forall w r w', m w = (r, w') -> stable w w'.

(** The name of the session logger of an instance. *)
Definition session_logger_name (self : Orchestrator) : string :=
  "baker_street.session." +:+ session_id self.

(** An entry of the concept table one of whose keywords occurs. *)
Definition concept_hit (query_lower : string) (item : string * list string)
    : bool :=
  PyStr.any_in (snd item) query_lower.

(** How often [needle] occurs in [hay]. *)
Fixpoint occurrences (needle hay : string) : nat :=
  (if String.prefix needle hay then 1 else 0)
  + match hay with
    | EmptyString => 0
    | String _ t => occurrences needle t
    end.

(** The number of second-level headings (lines that start with [## ])
    of a report; the first line of a report is its title. *)
Definition section_headings (content : string) : nat :=
  occurrences (PyStr.nl +:+ "## ") content.

(** Whether a run returned (rather than raised). *)
Definition returned {A : Type} (r : Res A * World) : bool :=
  match fst r with
  | Ok _ => true
  | Raise _ => false
  end.

(** The value a run returned, or [a0] if it raised. *)
Definition value_of {A : Type} (a0 : A) (r : Res A * World) : A :=
  match fst r with
  | Ok a => a
  | Raise _ => a0
  end.

(** The exception a run raised, or [e0] if it returned. *)
Definition exn_of {A : Type} (e0 : exn) (r : Res A * World) : exn :=
  match fst r with
  | Ok _ => e0
  | Raise e => e
  end.

(** The entry [key] of the dictionary a run returned. *)
Definition entry (key : string) (r : Res (gmap string string) * World)
    : option string :=
  match fst r with
  | Ok d => d !! key
  | Raise _ => None
  end.

(** The leading 32 of the 128 bits of a random draw. *)
Definition leading32 (r : N) : N := (N.shiftr r 96 mod 2 ^ 32)%N.

(** ** Sample inputs *)

Definition morning : datetime :=
  {| year := 2024; month := 1; day := 15;
     hour := 10; minute := 30; second := 0; microsecond := 0 |}.

(** An empty file system, a clock stuck at [morning], and a random
    source whose [n]-th draw is [n]. *)
Definition fresh_world : World :=
  mkWorld ∅ ∅ [] (fun _ => morning) 0 (fun n => N.of_nat n) 0.

Definition watson : Orchestrator := {| session_id := "abcd1234" |}.

(** A world where the place of [watson]'s report in [out] is taken by a
    directory. *)
Definition blocked_world : World :=
  mkWorld (<[ ["out"; "research_report_abcd1234.md"] := Dir ]>
           (<[ ["out"] := Dir ]> ∅))
          ∅ [] (fun _ => morning) 0 (fun n => N.of_nat n) 0.

(** The fresh world once the directory [out] exists. *)
Definition staged_world : World :=
  set_fs (<[ ["out"] := Dir ]> ∅) fresh_world.

(** A subclass whose data collection always raises. *)
Definition unreachable_source : Phases :=
  {| analyze_query_phase := _analyze_query;
     collect_data_phase :=
       fun _ _ w => (Raise (OtherError "connector unavailable"), w);
     analyze_data_phase := _analyze_data;
     generate_report_phase := _generate_report |}.

Definition life_plan : Plan.t :=
  {| Plan.query := "What is the meaning of life?";
     Plan.research_type := "philosophical";
     Plan.key_concepts := ["meaning"; "life"];
     Plan.search_strategies :=
       _generate_search_strategies "What is the meaning of life?";
     Plan.expected_sources := ["academic"; "web"; "books"; "reports"] |}.

(** An orchestrator constructed in the fresh world, and two successive
    runs on it with the same output directory. *)
Definition newcomer : Res Orchestrator * World :=
  ResearchOrchestrator_init fresh_world.

Definition first_run : Res (gmap string string) * World :=
  conduct_research (value_of watson newcomer)
    "What is the meaning of life?" "research/output" (snd newcomer).

Definition second_run : Res (gmap string string) * World :=
  conduct_research (value_of watson newcomer)
    "Latest developments in AI research" "research/output" (snd first_run).

(** ** What the further properties are phrased with *)

(** The text [_generate_report] writes for [query] when the clock reads
    [t]: one of the two templates. *)
Definition render_report (self : Orchestrator) (query : string)
    (analysis : Analysis.t) (t : datetime) : string :=
  if PyStr.contains "meaning of life" (PyStr.lower query)
  then unlines (meaning_of_life_lines self (Datetime.strftime_human t) analysis)
  else unlines (generic_lines self query (Datetime.strftime_human t) analysis).

(** The log file [create_session_logger] opens when the clock reads
    [t]. *)
Definition session_log_file (session_id output_dir : string) (t : datetime)
    : Path :=
  Pathlib.div (Pathlib.div (Pathlib.parse output_dir) "logs")
              ("session_" +:+ session_id +:+ "_"
               +:+ Datetime.strftime_compact t +:+ ".log").

(** The two records [conduct_research] logs before the set-up. *)
Definition opening_records (self : Orchestrator) (query : string)
    : list (level * string) :=
  [ (INFO, "Starting research session " +:+ session_id self);
    (INFO, "Query: " +:+ query) ].

(** The records of the four phases of the class, in the order of the
    [try] block. *)
Definition phase_records : list (level * string) :=
  [ (INFO, "Phase 1: Analyzing query and planning research");
    (INFO, "Analyzing research query...");
    (INFO, "Phase 2: Collecting data and sources");
    (INFO, "Collecting research data...");
    (INFO, "Phase 3: Analyzing and synthesizing findings");
    (INFO, "Analyzing collected data...");
    (INFO, "Phase 4: Generating research report");
    (INFO, "Generating research report...") ].

(** The regular files of [f], the one at [spared] apart, are in [f']
    with their content. *)
Definition keeps_files (spared : Path) (f f' : FS) : Prop :=
  forall p content,
    p <> spared ->
    Os.read_text f p = Some content -> Os.read_text f' p = Some content.

(** All runs of a computation, returning or raising, relate the world
    before to the world after by [R]. *)
Definition respects {A : Type} (R : World -> World -> Prop) (m : M A) : Prop :=
  forall w r w', m w = (r, w') -> R w w'.

(** Nothing lies below [p] in [f]. *)
Definition childless (f : FS) (p : Path) : Prop :=
  forall q, q <> [] -> f !! (p ++ q) = None.

Definition is_lower_hex (c : ascii) : bool :=
  let n := nat_of_ascii c in
  ((48 <=? n)%nat && (n <=? 57)%nat) || ((97 <=? n)%nat && (n <=? 102)%nat).

Definition no_slash (c : ascii) : bool := negb (Ascii.eqb c Pathlib.slash).

Fixpoint string_forall (p : ascii -> bool) (s : string) : bool :=
  match s with
  | EmptyString => true
  | String c t => p c && string_forall p t
  end.

(** A character of a plain file name: printable ASCII, without the
    slash, and without the quote and the backslash, which the text of
    an [OSError] would not show as they are. *)
Definition plain_char (c : ascii) : bool :=
  let n := nat_of_ascii c in
  (32 <=? n)%nat && (n <=? 126)%nat
  && negb (n =? 47)%nat && negb (n =? 39)%nat && negb (n =? 92)%nat.

(** A plain file name: of plain characters, at most 255 of them, and
    neither empty nor [.] nor [..]. *)
Definition plain_name (x : string) : bool :=
  negb (String.eqb x EmptyString) && negb (String.eqb x ".")
  && negb (String.eqb x "..")
  && string_forall plain_char x && (String.length x <=? 255)%nat.

(** A path that leads down from the working directory by plain names.
    It is relative and has no [..]: in a file system without links two
    such paths are one place exactly when they are equal, as they are
    for the model.  Its length leaves room for the names the run adds
    below it. *)
Definition local (p : Path) : bool :=
  forallb plain_name p && (String.length (Pathlib.str p) <=? 4000)%nat.

(** A session identifier as [__init__] makes it: eight hexadecimal
    digits in lower case. *)
Definition hex_id (s : string) : bool :=
  (String.length s =? 8)%nat && string_forall is_lower_hex s.

(** A world where the output directory [out] is taken by a regular
    file. *)
Definition cluttered_world : World :=
  set_fs (<[ ["out"] := File "notes" ]> ∅) fresh_world.

(** * Around the orchestrator: configuration, environment, API, command line

    The callers of [ResearchOrchestrator] in [api/app.py] and
    [implementation/src/main.py], and what they consult of
    [core/config.py] and [utils/environment.py].

    - A handler of the API is the function under its decorators: what
      it returns or raises, before flask-restx marshals the response.
    - What [check_environment] learns outside the file system (the
      interpreter, the database query, the environment variables) is
      given as a [Probe].
    - The console is what [print] and [input] write and the lines still
      to be read, the standard output taking any text the standard
      input gave; log records are kept apart, whatever handler shows
      them, the root logger passing what its level [WARNING] lets
      pass.  A [KeyboardInterrupt] is not among the inputs.
    - The loop of the interactive mode is run with fuel: [None] is a
      loop that is still running. *)

(** ** More of Python's strings *)

Module PyText.

(** [s.lstrip()]; [skip] counts the bytes still to pass of a
    white-space character. *)
Fixpoint lstrip_go (skip : nat) (s : string) : string :=
  match s with
  | EmptyString => EmptyString
  | String c t =>
      match skip with
      | S k => lstrip_go k t
      | O =>
          match PyStr.space_width (String c t) with
          | S k => lstrip_go k t
          | O => String c t
          end
      end
  end.

Definition lstrip (s : string) : string := lstrip_go 0 s.

(** [s.rstrip()]: what is left of [s] when the white space it ends with
    is taken away. *)
Fixpoint rstrip (s : string) : string :=
  match s with
  | EmptyString => EmptyString
  | String c t =>
      if PyStr.blank (String c t) then EmptyString else String c (rstrip t)
  end.

(** [s.strip()] *)
Definition strip (s : string) : string := rstrip (lstrip s).

(** [s * n] *)
Fixpoint repeat (s : string) (n : nat) : string :=
  match n with
  | O => EmptyString
  | S k => s +:+ repeat s k
  end.

(** [len(s)] of a text read as UTF-8: its code points, that is its
    bytes other than continuation bytes (those from 128 to 191). *)
Fixpoint len (s : string) : nat :=
  match s with
  | EmptyString => O
  | String c t =>
      let n := nat_of_ascii c in
      if (128 <=? n)%nat && (n <=? 191)%nat then len t else S (len t)
  end.

(** What reading in text mode makes of the line ends ([newline=None]):
    a carriage return with the line feed after it, and one alone, come
    back as a line feed. *)
Fixpoint universal_newlines (s : string) : string :=
  match s with
  | EmptyString => EmptyString
  | String c t =>
      if (nat_of_ascii c =? 13)%nat
      then match t with
           | String c' t' =>
               if (nat_of_ascii c' =? 10)%nat
               then String c' (universal_newlines t')
               else String (ascii_of_nat 10) (universal_newlines t)
           | EmptyString => String (ascii_of_nat 10) EmptyString
           end
      else String c (universal_newlines t)
  end.

(** [bool(s)] *)
Definition truthy (s : string) : bool :=
  match s with
  | EmptyString => false
  | String _ _ => true
  end.

End PyText.

(** ** core/config.py *)

(** What the modelled code reads of a [Config]: the names of the
    configured agents (the keys of [config.agents]) and, for every tool
    of [config.tools], its name and its [api_key_env], both in
    insertion order. *)
Record Config : Type := {
  agents : list string;
  tools : list (string * string)
}.

Module Validation.
Record t : Type := mk {
  valid : bool;
  issues : list string;
  warnings : list string
}.
End Validation.

(** [bool(os.getenv(key))]: the variable is set and not empty. *)
Definition getenv_set (environ : gmap string string) (key : string) : bool :=
  match environ !! key with
  | Some v => PyText.truthy v
  | None => false
  end.

Definition required_keys : list string :=
  ["OPENAI_API_KEY"; "ANTHROPIC_API_KEY"].

(** The warning of [Config.validate] for one tool, if any. *)
Definition tool_warning (environ : gmap string string)
    (tool : string * string) : list string :=
  let '(tool_name, api_key_env) := tool in
  if PyText.truthy api_key_env && negb (getenv_set environ api_key_env)
  then ["API key not found for tool '" +:+ tool_name +:+ "': "
        +:+ api_key_env]
  else [].

(** [Config.validate], [environ] being [os.environ]. *)
Definition validate (self : Config) (environ : gmap string string)
    : Validation.t :=
  let issues :=
    match agents self with
    | [] => ["No agents configured"]
    | _ :: _ => []
    end in
  let missing_keys :=
    List.filter (fun key => negb (getenv_set environ key)) required_keys in
  let '(issues, warnings) :=
    if (List.length missing_keys =? List.length required_keys)%nat
    then (issues ++ ["No AI API keys found in environment"], [])
    else match missing_keys with
         | _ :: _ =>
             (issues,
              ["Missing API keys: " +:+ PyStr.join ", " missing_keys])
         | [] => (issues, [])
         end in
  let warnings := warnings ++ flat_map (tool_warning environ) (tools self) in
  {| Validation.valid := (List.length issues =? 0)%nat;
     Validation.issues := issues;
     Validation.warnings := warnings |}.

(** ** ResearchOrchestrator.get_status *)

Module Status.
Record t : Type := mk {
  session_id : string;
  status : string;
  agents_configured : nat;
  tools_available : nat
}.

(** [status.items()], every value through [str]. *)
Definition items (s : t) : list (string * string) :=
  [ ("session_id", session_id s);
    ("status", status s);
    ("agents_configured", pretty (agents_configured s));
    ("tools_available", pretty (tools_available s)) ].
End Status.

(** [ResearchOrchestrator.get_status]; [config] is [self.config]. *)
Definition get_status (self : Orchestrator) (config : Config) : Status.t :=
  {| Status.session_id := session_id self;
     Status.status := "ready";
     Status.agents_configured := List.length (agents config);
     Status.tools_available := List.length (tools config) |}.

(** ** utils/environment.py *)

(** What [check_environment] finds outside the file system: the
    interpreter, whether the query on [data/metadata.db] succeeds (asked
    only when the file exists), and the environment variables once
    [load_dotenv()] has run, or nothing when [dotenv] cannot be imported
    or fails (asked only when [.env] exists). *)
Record Probe : Type := {
  python_version : string;
  venv_active : bool;
  database_readable : bool;
  dotenv : option (gmap string string)
}.

Module Checks.
Record t : Type := mk {
  python_version : string;
  virtual_env : bool;
  env_file : bool;
  config_file : bool;
  database_exists : bool;
  database_valid : bool;
  directories : bool;
  missing_directories : list string;
  api_keys : bool
}.
End Checks.

(** The values of the dictionary [check_environment] returns. *)
Inductive env_value : Type :=
  | EBool (b : bool)
  | EStr (s : string)
  | EChecks (c : Checks.t).

(** The truth value of such a value ([checks] is never empty). *)
Definition env_truthy (v : env_value) : bool :=
  match v with
  | EBool b => b
  | EStr s => PyText.truthy s
  | EChecks _ => true
  end.

(** [os.path.exists(p)], for a path relative to the working directory. *)
Definition os_path_exists (f : FS) (p : string) : bool :=
  match Os.node_at f (Pathlib.parse p) with
  | Some _ => true
  | None => false
  end.

Definition required_dirs : list string :=
  ["research"; "implementation"; "optimization"; "config"; "data"].

(** [check_environment], in the file system [f]. *)
Definition check_environment (probe : Probe) (f : FS)
    : gmap string env_value :=
  let env_file_exists := os_path_exists f ".env" in
  let config_file_exists := os_path_exists f "config/agents.yaml" in
  let db_exists := os_path_exists f "data/metadata.db" in
  let db_valid := if db_exists then database_readable probe else false in
  let missing_dirs :=
    List.filter (fun dir_name => negb (os_path_exists f dir_name))
                required_dirs in
  let directories := (List.length missing_dirs =? 0)%nat in
  let api_keys_configured :=
    if env_file_exists
    then match dotenv probe with
         | Some environ =>
             getenv_set environ "OPENAI_API_KEY"
             || getenv_set environ "ANTHROPIC_API_KEY"
         | None => false
         end
    else false in
  let critical_checks :=
    [venv_active probe; config_file_exists; directories] in
  let '(valid, message) :=
    if negb (forallb id critical_checks)
    then (false, "Critical environment checks failed")
    else if negb env_file_exists
    then (true, "Environment file missing - some features may not work")
    else if negb api_keys_configured
    then (true, "API keys not configured - AI features will not work")
    else if negb (db_exists && db_valid)
    then (true, "Database not initialized - run database setup")
    else (true, "Environment is properly configured") in
  <["valid" := EBool valid]>
  (<["message" := EStr message]>
  (<["checks" :=
       EChecks {| Checks.python_version := python_version probe;
                  Checks.virtual_env := venv_active probe;
                  Checks.env_file := env_file_exists;
                  Checks.config_file := config_file_exists;
                  Checks.database_exists := db_exists;
                  Checks.database_valid := db_valid;
                  Checks.directories := directories;
                  Checks.missing_directories := missing_dirs;
                  Checks.api_keys := api_keys_configured |}]> ∅)).

(** ** The process around the orchestrator *)

(** The state of the process that hosts an orchestrator (the API server
    of [api/app.py] or the command line of [implementation/src/main.py]):
    the world, the records of the two other loggers, what [print] and
    [input] wrote, and the lines still to be read from the standard
    input. *)
Record Host : Type := mkHost {
  world : World;
  app_records : list (level * string);   (* what [app_logger] emitted *)
  root_records : list (level * string);  (* what the root logger let pass *)
  printed : list string;                 (* the chunks written, oldest first *)
  stdin : list string                    (* the lines still to be read *)
}.

Definition set_world (w : World) (h : Host) : Host :=
  mkHost w (app_records h) (root_records h) (printed h) (stdin h).

(** A computation of the orchestrator, run in the host's world. *)
Definition lift {A : Type} (m : M A) (h : Host) : Res A * Host :=
  match m (world h) with
  | (r, w) => (r, set_world w h)
  end.

(** [app_logger.info(msg)] and [app_logger.error(msg)] *)
Definition app_log (l : level) (msg : string) (h : Host) : Host :=
  mkHost (world h) (app_records h ++ [(l, msg)]) (root_records h)
         (printed h) (stdin h).

(** [logging.info(msg)] and [logging.error(msg)], which go to the root
    logger.  [setup_logging] sets the level of the logger
    [baker_street] and leaves the root logger alone, at its level
    [WARNING]: an error passes and an info is dropped. *)
Definition root_log (l : level) (msg : string) (h : Host) : Host :=
  match l with
  | INFO => h
  | ERROR =>
      mkHost (world h) (app_records h) (root_records h ++ [(l, msg)])
             (printed h) (stdin h)
  end.

(** [print(text)]: the text and a line feed. *)
Definition print (text : string) (h : Host) : Host :=
  mkHost (world h) (app_records h) (root_records h)
         (printed h ++ [text +:+ PyStr.nl]) (stdin h).

(** [input(prompt)]: the prompt is written, a line is read and returned
    without its line feed; at the end of the input [EOFError] is
    raised. *)
Definition input (prompt : string) (h : Host) : Res string * Host :=
  match stdin h with
  | line :: rest =>
      (Ok line,
       mkHost (world h) (app_records h) (root_records h)
              (printed h ++ [prompt]) rest)
  | [] =>
      (Raise (OtherError "EOF when reading a line"),
       mkHost (world h) (app_records h) (root_records h)
              (printed h ++ [prompt]) [])
  end.

(** ** api/app.py *)

Module Api.

(** The two werkzeug exceptions the handlers raise. *)
Inductive http_error : Type :=
  | BadRequest (description : string)
  | InternalServerError (description : string).

(** [str(e)] of an [HTTPException]: code, name and description. *)
Definition http_error_str (e : http_error) : string :=
  match e with
  | BadRequest d => "400 Bad Request: " +:+ d
  | InternalServerError d => "500 Internal Server Error: " +:+ d
  end.

Inductive reply (A : Type) : Type :=
  | Replies (a : A)
  | Aborts (e : http_error).
Arguments Replies {A} a.
Arguments Aborts {A} e.

(** The [try] block of [ConductResearch.post], for an application whose
    orchestrator is initialised, from the point where
    [request.get_json()] has returned: the results, or the text
    [str(e)] of the exception the block ends with.  [data] is what
    [get_json] returned: a JSON object with string members, or [None],
    which it returns for the body [null].  A request for which
    [get_json] itself raises (werkzeug refuses a body that is missing
    or is not JSON) is not among these. *)
Definition post_try (orchestrator : Orchestrator)
    (data : option (gmap string string)) (h : Host)
    : (gmap string string + string) * Host :=
  match data with
  | Some d =>
      match d !! "query" with
      | Some query =>
          let output_dir := default "research/api_output" (d !! "output_dir") in
          let h1 :=
            app_log INFO ("Starting research session for query: " +:+ query) h in
          match conduct_research orchestrator query output_dir (world h1) with
          | (Ok results, w) =>
              (inl results,
               app_log INFO
                 ("Research completed for session: "
                  +:+ default "None" (results !! "session_id"))
                 (set_world w h1))
          | (Raise e, w) => (inr (exn_str e), set_world w h1)
          end
      | None => (inr (http_error_str (BadRequest "Query is required")), h)
      end
  | None => (inr (http_error_str (BadRequest "Query is required")), h)
  end.

(** [ConductResearch.post], before the response is marshalled. *)
Definition post (orchestrator : Orchestrator)
    (data : option (gmap string string)) (h : Host)
    : reply (gmap string string) * Host :=
  match post_try orchestrator data h with
  | (inl results, h') => (Replies results, h')
  | (inr message, h') =>
      (Aborts (InternalServerError ("Research failed: " +:+ message)),
       app_log ERROR ("Research failed: " +:+ message) h')
  end.

(** The body of a found report. *)
Record report_body : Type := {
  report_id : string;
  content : string;
  path : string;
  size : nat;
  timestamp : string
}.

Inductive report_reply : Type :=
  | Report (body : report_body)
  | NotFound (error : string)            (* with status 404 *)
  | ReportAborts (e : http_error).

(** The file [GetReport.get] looks for. *)
Definition stored_report (report_id : string) : Path :=
  Pathlib.parse ("research/research_report_" +:+ report_id +:+ ".md").

(** [GetReport.get].  The file is read in text mode: its bytes are
    decoded as UTF-8, which fails with a [UnicodeDecodeError] on bytes
    that are no text, and the line ends of the text are translated. *)
Definition get_report (report_id : string) (h : Host) : report_reply * Host :=
  let report_path := stored_report report_id in
  match Os.node_at (fs (world h)) report_path with
  | None => (NotFound "Report not found", h)
  | Some Dir =>
      let message :=
        exn_str (IsADirectoryError (Pathlib.str report_path)) in
      (ReportAborts (InternalServerError ("Failed to get report: " +:+ message)),
       app_log ERROR ("Failed to get report: " +:+ message) h)
  | Some (File data) =>
      match Utf8.decode_error data with
      | Some e =>
          let message := Utf8.decode_message data e in
          (ReportAborts
             (InternalServerError ("Failed to get report: " +:+ message)),
           app_log ERROR ("Failed to get report: " +:+ message) h)
      | None =>
          let text := PyText.universal_newlines data in
          match lift now h with
          | (Ok t, h') =>
              (Report {| report_id := report_id;
                         content := text;
                         path := Pathlib.str report_path;
                         size := PyText.len text;
                         timestamp := Datetime.isoformat t |},
               h')
          | (Raise e, h') =>
              (ReportAborts
                 (InternalServerError
                    ("Failed to get report: " +:+ exn_str e)),
               app_log ERROR ("Failed to get report: " +:+ exn_str e) h')
          end
      end
  end.

(** The values of the dictionary [SystemHealth.get] returns. *)
Inductive health_value : Type :=
  | HStr (s : string)
  | HComponents (environment : gmap string env_value)
                (orchestrator : Status.t) (api : string).

(** The [except] branch of [SystemHealth.get], [message] being the text
    of the exception. *)
Definition health_failed (message : string) (h : Host)
    : Res (gmap string health_value) * Host :=
  let h1 := app_log ERROR ("Health check failed: " +:+ message) h in
  match lift now h1 with
  | (Ok t, h2) =>
      (Ok (<["status" := HStr "unhealthy"]>
           (<["timestamp" := HStr (Datetime.isoformat t)]>
           (<["error" := HStr message]>
           (<["version" := HStr "1.0.0"]> ∅)))), h2)
  | (Raise e, h2) => (Raise e, h2)
  end.

(** [SystemHealth.get], before the response is marshalled.  The
    subscript [env_status['overall_status']] raises [KeyError] when the
    key is missing; the text of a [KeyError] is the key between single
    quotes. *)
Definition health (probe : Probe) (orchestrator : Orchestrator)
    (config : Config) (h : Host) : Res (gmap string health_value) * Host :=
  let env_status := check_environment probe (fs (world h)) in
  let orchestrator_status := get_status orchestrator config in
  match env_status !! "overall_status" with
  | Some overall_status =>
      match lift now h with
      | (Ok t, h1) =>
          (Ok (<["status" :=
                   HStr (if env_truthy overall_status
                         then "healthy" else "unhealthy")]>
               (<["timestamp" := HStr (Datetime.isoformat t)]>
               (<["components" :=
                    HComponents env_status orchestrator_status "running"]>
               (<["version" := HStr "1.0.0"]> ∅)))), h1)
      | (Raise e, h1) => health_failed (exn_str e) h1
      end
  | None => health_failed "'overall_status'" h
  end.

End Api.

(** ** implementation/src/main.py *)

Module Cli.

(** How a mode ends: it returns, it leaves the process through
    [sys.exit(code)], or an exception escapes it. *)
Inductive outcome : Type :=
  | Returns
  | Exits (code : nat)
  | Raises (e : exn).

(** [if results.get("summary"): print(prefix + results['summary'])] *)
Definition print_summary (prefix : string) (results : gmap string string)
    (h : Host) : Host :=
  match results !! "summary" with
  | Some summary =>
      if PyText.truthy summary then print (prefix +:+ summary) h else h
  | None => h
  end.

(** [run_research_mode] *)
Definition run_research_mode (query output_dir : string) (h : Host)
    : outcome * Host :=
  let h := root_log INFO ("Starting research mode with query: " +:+ query) h in
  match lift ResearchOrchestrator_init h with
  | (Raise e, h) => (Raises e, h)
  | (Ok orchestrator, h) =>
      match lift (conduct_research orchestrator query output_dir) h with
      | (Ok results, h) =>
          let h := root_log INFO "Research completed successfully" h in
          let h :=
            print (PyStr.nl +:+ "✅ Research completed! Results saved to: "
                   +:+ output_dir) h in
          (Returns, print_summary (PyStr.nl +:+ "📋 Summary: ") results h)
      | (Raise e, h) =>
          let h := root_log ERROR ("Research failed: " +:+ exn_str e) h in
          let h := print (PyStr.nl +:+ "❌ Research failed: " +:+ exn_str e) h in
          (Exits 1, h)
      end
  end.


Definition help_text : string :=
  PyStr.join PyStr.nl
    [ EmptyString;
      "Available commands:";
      "  help     - Show this help message";
      "  status   - Show system status";
      "  quit/exit - End the session";
      "  ";
      "Research queries:";
      "  Simply type your research question or topic, for example:";
      "  - " +:+ PyStr.dq +:+ "What are the latest developments in quantum computing?" +:+ PyStr.dq;
      "  - " +:+ PyStr.dq +:+ "Analyze trends in renewable energy adoption" +:+ PyStr.dq;
      "  - " +:+ PyStr.dq +:+ "Compare different machine learning architectures" +:+ PyStr.dq;
      "    " ].

(** [print_help] *)
Definition print_help (h : Host) : Host := print help_text h.

(** [show_status] *)
Definition show_status (orchestrator : Orchestrator) (config : Config)
    (h : Host) : Host :=
  let h := print (PyStr.nl +:+ "📊 System Status:") h in
  let h := print (PyText.repeat "-" 20) h in
  let status := get_status orchestrator config in
  fold_left (fun h item => print (fst item +:+ ": " +:+ snd item) h)
            (Status.items status) h.

(** What an iteration of the loop of [run_interactive_mode] ends with. *)
Inductive flow : Type := Continue | Break.

(** The [except Exception] branch of the loop. *)
Definition interactive_except (e : exn) (h : Host) : flow * Host :=
  let h := root_log ERROR ("Error in interactive mode: " +:+ exn_str e) h in
  (Continue, print (PyStr.nl +:+ "❌ Error: " +:+ exn_str e) h).

(** One iteration of the loop of [run_interactive_mode] (without the
    [KeyboardInterrupt], which no input line causes). *)
Definition interactive_step (orchestrator : Orchestrator) (config : Config)
    (output_dir : string) (h : Host) : flow * Host :=
  match input "🔍 Research Query: " h with
  | (Raise e, h) => interactive_except e h
  | (Ok line, h) =>
      let user_input := PyText.strip line in
      if negb (PyText.truthy user_input) then (Continue, h)
      else if bool_decide (PyStr.lower user_input ∈ ["quit"; "exit"; "q"])
      then (Break, print (PyStr.nl +:+ "👋 Goodbye! Happy researching!") h)
      else if String.eqb (PyStr.lower user_input) "help"
      then (Continue, print_help h)
      else if String.eqb (PyStr.lower user_input) "status"
      then (Continue, show_status orchestrator config h)
      else
        let h := print (PyStr.nl +:+ "🔄 Processing: " +:+ user_input) h in
        match lift (conduct_research orchestrator user_input output_dir) h with
        | (Ok results, h) =>
            let h := print (PyStr.nl +:+ "✅ Research completed!") h in
            (Continue, print_summary "📋 Summary: " results h)
        | (Raise e, h) => interactive_except e h
        end
  end.

(** The loop [while True], run for at most [fuel] iterations: the host
    at the [break], or nothing when the loop is still running. *)
Fixpoint interactive_loop (fuel : nat) (orchestrator : Orchestrator)
    (config : Config) (output_dir : string) (h : Host) : option Host :=
  match fuel with
  | O => None
  | S fuel =>
      match interactive_step orchestrator config output_dir h with
      | (Break, h) => Some h
      | (Continue, h) => interactive_loop fuel orchestrator config output_dir h
      end
  end.

(** [run_interactive_mode], its loop run for at most [fuel]
    iterations. *)
Definition run_interactive_mode (fuel : nat) (config : Config)
    (output_dir : string) (h : Host) : option (outcome * Host) :=
  let h := root_log INFO "Starting interactive mode" h in
  match lift ResearchOrchestrator_init h with
  | (Raise e, h) => Some (Raises e, h)
  | (Ok orchestrator, h) =>
      let h :=
        print (PyStr.nl
               +:+ "🔬 Baker Street Laboratory - Interactive Research Mode") h in
      let h := print (PyText.repeat "=" 55) h in
      let h :=
        print "Enter your research queries or commands. Type 'help' for assistance." h in
      let h :=
        print ("Type 'quit' or 'exit' to end the session." +:+ PyStr.nl) h in
      match interactive_loop fuel orchestrator config output_dir h with
      | Some h => Some (Returns, h)
      | None => None
      end
  end.

End Cli.

(** ** What the properties of these parts are phrased with *)

(** The [query] member of what [get_json] returned, if there is one. *)
Definition requested_query (data : option (gmap string string))
    : option string :=
  match data with
  | Some d => d !! "query"
  | None => None
  end.

(** The output directory a request asks for, or the default of the
    API. *)
Definition requested_dir (data : option (gmap string string)) : string :=
  match data with
  | Some d => default "research/api_output" (d !! "output_dir")
  | None => "research/api_output"
  end.

(** The paths a run with output path [p] may touch: the directories on
    the way to [p] and what lies in [p]. *)
Definition along_or_under (p q : Path) : Prop :=
  q `prefix_of` p \/ p `prefix_of` q.

(** The no-break space, U+00A0: white space to [str.strip]. *)
Definition nbsp : string := PyStr.of_bytes [194; 160].

(** A text that UTF-8 encodes: what the standard output prints. *)
Definition printable (s : string) : bool :=
  match Utf8.encode_error s with
  | None => true
  | Some _ => false
  end.

(** The input line ends the interactive session.  (The lower case of
    no character outside ASCII is a letter of these words.) *)
Definition quits (line : string) : bool :=
  bool_decide (PyStr.lower (PyText.strip line) ∈ ["quit"; "exit"; "q"]).

(** The input line is taken for a research query: it is not blank and
    none of the commands. *)
Definition asks (line : string) : bool :=
  PyText.truthy (PyText.strip line)
  && negb (bool_decide (PyStr.lower (PyText.strip line)
                        ∈ ["quit"; "exit"; "q"; "help"; "status"])).

(** A host with nothing logged or printed, around the fresh world. *)
Definition fresh_host : Host := mkHost fresh_world [] [] [] [].

(** The fresh host with [lines] waiting on the standard input. *)
Definition typed (lines : list string) : Host :=
  mkHost fresh_world [] [] [] lines.

(** A configuration with two agents and one tool. *)
Definition baker_config : Config :=
  {| agents := ["researcher"; "analyst"];
     tools := [("web_search", "SERPAPI_KEY")] |}.

(** The world after the orchestrator has served [queries] one after the
    other, whatever the outcome of each run. *)
Fixpoint serve (orchestrator : Orchestrator) (output_dir : string)
    (queries : list string) (w : World) : World :=
  match queries with
  | [] => w
  | query :: rest =>
      serve orchestrator output_dir rest
            (snd (conduct_research orchestrator query output_dir w))
  end.

(** The host at the first prompt of [run_interactive_mode]: the start
    is logged, the orchestrator made and the banner printed. *)
Definition at_first_prompt (h : Host) : Host :=
  print ("Type 'quit' or 'exit' to end the session." +:+ PyStr.nl)
    (print "Enter your research queries or commands. Type 'help' for assistance."
      (print (PyText.repeat "=" 55)
        (print (PyStr.nl
                +:+ "🔬 Baker Street Laboratory - Interactive Research Mode")
          (set_world (snd (ResearchOrchestrator_init (world h)))
                     (root_log INFO "Starting interactive mode" h))))).

(** * Properties *)

(** ** Strings *)

Lemma prefix_app (n h : string) :
  String.prefix n h = true <-> exists post, h = n +:+ post.
Proof.
  revert h. induction n as [|a n IH]; intros h.
  - destruct h; simpl; split; eauto.
  - destruct h as [|b h]; simpl.
    + split; [discriminate | intros [post H]; discriminate].
    + destruct (ascii_dec a b) as [->|Hne].
      * rewrite IH. split; intros [post H]; exists post.
        -- now rewrite H.
        -- now inversion H.
      * split; [discriminate | intros [post H]; inversion H; congruence].
Qed.

Lemma contains_unfold (n h : string) :
  PyStr.contains n h
  = String.prefix n h
    || match h with
       | EmptyString => false
       | String _ t => PyStr.contains n t
       end.
Proof. destruct h; reflexivity. Qed.

Lemma contains_app (n pre post : string) :
  PyStr.contains n (pre +:+ n +:+ post) = true.
Proof.
  induction pre as [|c pre IH]; rewrite contains_unfold; apply orb_true_iff.
  - left. apply prefix_app. now exists post.
  - right. exact IH.
Qed.

(** [needle in hay] holds exactly when [needle] is a contiguous part of
    [hay]. *)
Lemma contains_spec (n h : string) :
  PyStr.contains n h = true <-> PyStr.substring_of n h.
Proof.
  split.
  - induction h as [|c h IH]; rewrite contains_unfold; intros H;
      apply orb_true_iff in H.
    + destruct H as [H|H]; [|discriminate].
      apply prefix_app in H as [post H]. now exists EmptyString, post.
    + destruct H as [H|H].
      * apply prefix_app in H as [post H]. now exists EmptyString, post.
      * destruct (IH H) as (pre & post & ->). now exists (String c pre), post.
  - intros (pre & post & ->). apply contains_app.
Qed.

Lemma any_in_spec (words : list string) (s : string) :
  PyStr.any_in words s = true <-> mentions words s.
Proof.
  unfold PyStr.any_in, mentions. rewrite existsb_exists.
  split; intros (w & Hw & H); exists w; split; auto; now apply contains_spec.
Qed.

Lemma any_in_false (words : list string) (s : string) :
  PyStr.any_in words s = false <-> ~ mentions words s.
Proof.
  rewrite <- any_in_spec. destruct (PyStr.any_in words s); split; congruence.
Qed.

(** ** Keyword extraction *)

(** The loop of [_extract_key_concepts] keeps, in table order, the
    concepts one of whose keywords occurs. *)
Lemma concept_loop (query_lower : string) (table : list (string * list string))
    (acc : list string) :
  fold_left (concept_step query_lower) table acc
  = acc ++ List.map fst (List.filter (concept_hit query_lower) table).
Proof.
  revert acc. induction table as [|[c kws] table IH]; intros acc; simpl.
  - now rewrite app_nil_r.
  - rewrite IH. unfold concept_hit at 2. simpl.
    destruct (PyStr.any_in kws query_lower); simpl.
    + rewrite <- app_assoc. reflexivity.
    + reflexivity.
Qed.

Lemma extract_key_concepts_eq (query : string) :
  _extract_key_concepts query
  = match List.map fst (List.filter (concept_hit (PyStr.lower query))
                                    concept_keywords) with
    | [] => ["general"]
    | c :: cs => c :: cs
    end.
Proof.
  unfold _extract_key_concepts. cbv zeta. rewrite concept_loop.
  rewrite app_nil_l. now destruct (List.map fst _).
Qed.

(** A concept of the table has one entry, and none is called
    [general]. *)
Lemma concept_keywords_functional (c : string) (kws kws' : list string) :
  In (c, kws) concept_keywords -> In (c, kws') concept_keywords -> kws = kws'.
Proof.
  unfold concept_keywords. simpl.
  intros H H'.
  repeat (destruct H as [H|H]; [inversion H; subst; clear H|]);
    try contradiction;
    repeat (destruct H' as [H'|H']; [inversion H'; subst; clear H'|]);
    try contradiction; try reflexivity; try discriminate.
Qed.

Lemma general_not_a_concept (kws : list string) :
  ~ In ("general", kws) concept_keywords.
Proof.
  unfold concept_keywords. simpl. intros H.
  repeat (destruct H as [H|H]; [discriminate|]). exact H.
Qed.
Lemma in_key_concepts (query c : string) (kws : list string) :
  In (c, kws) concept_keywords ->
  In c (_extract_key_concepts query) <-> mentions kws (PyStr.lower query).
Proof.
  intros Hin. rewrite extract_key_concepts_eq, <- any_in_spec.
  assert (Hmap : In c (List.map fst (List.filter (concept_hit (PyStr.lower query))
                                            concept_keywords))
                 <-> PyStr.any_in kws (PyStr.lower query) = true).
  { rewrite in_map_iff. split.
    - intros ([c' kws'] & Hc & Hf). simpl in Hc. subst c'.
      apply filter_In in Hf as [Hin' Hhit].
      now rewrite (concept_keywords_functional c kws kws' Hin Hin').
    - intros Hhit. exists (c, kws). split; [reflexivity|].
      apply filter_In. now split. }
  destruct (List.map fst _) as [|c0 cs] eqn:E.
  - rewrite <- Hmap. simpl. split; [|tauto].
    intros [H|[]]. subst c. now apply general_not_a_concept in Hin.
  - exact Hmap.
Qed.

Lemma lower_determines_type (q q' : string) :
  PyStr.lower q' = PyStr.lower q ->
  _determine_research_type q' = _determine_research_type q.
Proof. unfold _determine_research_type. now intros ->. Qed.

(** The buckets at work: upper case is folded, and an earlier bucket
    wins over a later one. *)
Example research_types :
  _determine_research_type "THE MEANING OF LIFE" = "philosophical"
  /\ _determine_research_type "The purpose of technology" = "philosophical"
  /\ _determine_research_type "History of science" = "technical"
  /\ _determine_research_type "The past of Baker Street" = "historical"
  /\ _determine_research_type "Bees" = "general"
  /\ _extract_key_concepts "Ethics of innovation"
     = ["philosophy"; "technology"]
  /\ _extract_key_concepts "Bees" = ["general"].
Proof. repeat (split; [vm_compute; reflexivity|]). vm_compute; reflexivity. Qed.

(** C5: the research category is found by case-insensitive substring
    matching against the three keyword buckets, tried in the order
    philosophical, technical, historical, the first bucket with a match
    winning and [general] being the default; the query "What is the
    meaning of life?" is philosophical with concepts that include
    [meaning] and [life], and "Latest developments in AI research" is
    technical. *)
Theorem C5_research_type_priority (query : string) :
  (mentions philosophical_words (PyStr.lower query) ->
   _determine_research_type query = "philosophical")
  /\ (~ mentions philosophical_words (PyStr.lower query) ->
      mentions technical_words (PyStr.lower query) ->
      _determine_research_type query = "technical")
  /\ (~ mentions philosophical_words (PyStr.lower query) ->
      ~ mentions technical_words (PyStr.lower query) ->
      mentions historical_words (PyStr.lower query) ->
      _determine_research_type query = "historical")
  /\ (~ mentions philosophical_words (PyStr.lower query) ->
      ~ mentions technical_words (PyStr.lower query) ->
      ~ mentions historical_words (PyStr.lower query) ->
      _determine_research_type query = "general")
  /\ (forall query' : string,
        PyStr.lower query' = PyStr.lower query ->
        _determine_research_type query' = _determine_research_type query)
  /\ _determine_research_type "What is the meaning of life?" = "philosophical"
  /\ In "meaning" (_extract_key_concepts "What is the meaning of life?")
  /\ In "life" (_extract_key_concepts "What is the meaning of life?")
  /\ _determine_research_type "Latest developments in AI research" = "technical".
Proof.
  split; [|split; [|split; [|split; [|split]]]].
  - unfold _determine_research_type.
    intros H. apply any_in_spec in H. now rewrite H.
  - unfold _determine_research_type.
    intros H1 H2. apply any_in_false in H1. apply any_in_spec in H2.
    now rewrite H1, H2.
  - unfold _determine_research_type.
    intros H1 H2 H3. apply any_in_false in H1, H2. apply any_in_spec in H3.
    now rewrite H1, H2, H3.
  - unfold _determine_research_type.
    intros H1 H2 H3. apply any_in_false in H1, H2, H3.
    now rewrite H1, H2, H3.
  - intros query' H. now apply lower_determines_type.
  - split; [vm_compute; reflexivity|].
    split; [vm_compute; tauto|].
    split; [vm_compute; tauto|].
    vm_compute; reflexivity.
Qed.

(** C8: the key concepts of the plan are never empty; a concept of the
    table is among them exactly when one of its keywords is a substring
    of the lowercased query; when no keyword of any concept occurs they
    are [["general"]]. *)
Theorem C8_key_concepts (self : Orchestrator) (query : string) (w : World) :
  exists plan w',
    _analyze_query self query w = (Ok plan, w')
    /\ Plan.key_concepts plan <> []
    /\ (forall c kws, In (c, kws) concept_keywords ->
          (In c (Plan.key_concepts plan)
           <-> mentions kws (PyStr.lower query)))
    /\ ((forall c kws, In (c, kws) concept_keywords ->
           ~ mentions kws (PyStr.lower query)) ->
        Plan.key_concepts plan = ["general"]).
Proof.
  eexists _, _. split; [reflexivity|]. simpl. repeat split.
  - rewrite extract_key_concepts_eq. now destruct (List.map fst _).
  - now apply in_key_concepts.
  - now apply in_key_concepts.
  - intros Hnone. rewrite extract_key_concepts_eq.
    destruct (List.map fst _) as [|c0 cs] eqn:E; [reflexivity|].
    exfalso.
    assert (Hc0 : In c0 (List.map fst (List.filter (concept_hit (PyStr.lower query))
                                              concept_keywords)))
      by (rewrite E; now left).
    apply in_map_iff in Hc0 as ([c kws] & _ & Hf).
    apply filter_In in Hf as [Hin Hhit].
    apply (Hnone c kws Hin). now apply any_in_spec.
Qed.
(** ** The monad *)

Lemma bind_ok_inv {A B : Type} (m : M A) (k : A -> M B) (w w' : World) (b : B) :
  bind m k w = (Ok b, w') ->
  exists a w1, m w = (Ok a, w1) /\ k a w1 = (Ok b, w').
Proof.
  unfold bind. destruct (m w) as [[a|e] w1]; intros H.
  - now exists a, w1.
  - discriminate.
Qed.

Lemma bind_ok {A B : Type} (m : M A) (k : A -> M B) (w w1 : World) (a : A) :
  m w = (Ok a, w1) -> bind m k w = k a w1.
Proof. unfold bind. now intros ->. Qed.

Lemma bind_raise {A B : Type} (m : M A) (k : A -> M B) (w w1 : World) (e : exn) :
  m w = (Raise e, w1) -> bind m k w = (Raise e, w1).
Proof. unfold bind. now intros ->. Qed.

Lemma returned_eta {A : Type} (a0 : A) (r : Res A * World) :
  returned r = true -> r = (Ok (value_of a0 r), snd r).
Proof.
  unfold returned, value_of. destruct r as [[a|e] w]; simpl;
    [reflexivity | discriminate].
Qed.

Lemma raised_eta {A : Type} (e0 : exn) (r : Res A * World) :
  returned r = false -> r = (Raise (exn_of e0 r), snd r).
Proof.
  unfold returned, exn_of. destruct r as [[a|e] w]; simpl;
    [discriminate | reflexivity].
Qed.

Lemma on_fs_ok_inv (op : FS -> Res FS) (w w' : World) (u : unit) :
  on_fs op w = (Ok u, w') -> exists f, op (fs w) = Ok f /\ w' = set_fs f w.
Proof.
  unfold on_fs. destruct (op (fs w)) as [f|e]; intros H; inversion H.
  now exists f.
Qed.

(** ** Files *)

Lemma write_then_read (p : Path) (content : string) (f f' : FS) :
  Os.write_text p content f = Ok f' -> Os.read_text f' p = Some content.
Proof.
  unfold Os.write_text, Os.read_text, Os.node_at.
  destruct (Pathlib.is_anchor p) eqn:Ha; [discriminate|].
  destruct (f !! p) as [[|c]|] eqn:E.
  - discriminate.
  - intros H. inversion H. now rewrite lookup_insert_eq.
  - destruct (Os.parent_error f p); [discriminate|].
    intros H. inversion H. now rewrite lookup_insert_eq.
Qed.

Lemma write_text_ok (p : Path) (content : string) (f f' : FS) :
  Os.write_text p content f = Ok f' ->
  Pathlib.is_anchor p = false /\ f' = <[p := File content]> f.
Proof.
  unfold Os.write_text, Os.node_at.
  destruct (Pathlib.is_anchor p); [discriminate|].
  destruct (f !! p) as [[|c]|].
  - discriminate.
  - intros H. now inversion H.
  - destruct (Os.parent_error f p); [discriminate|]. intros H. now inversion H.
Qed.

(** Whether the file can be written does not depend on the content. *)
Lemma write_text_any (p : Path) (c1 c2 : string) (f : FS) :
  Os.write_text p c2 f
  = match Os.write_text p c1 f with
    | Ok _ => Ok (<[p := File c2]> f)
    | Raise e => Raise e
    end.
Proof.
  unfold Os.write_text. destruct (Os.node_at f p) as [[|c]|]; try reflexivity.
  now destruct (Os.parent_error f p).
Qed.

Lemma write_text_again (p : Path) (c0 c : string) (f : FS) :
  Pathlib.is_anchor p = false ->
  Os.write_text p c (<[p := File c0]> f) = Ok (<[p := File c]> f).
Proof.
  intros Ha. unfold Os.write_text, Os.node_at. rewrite Ha.
  now rewrite lookup_insert_eq, insert_insert_eq.
Qed.

(** The writing of a text, in one step: the file cannot be opened, or
    it is written, or it is left empty by a content that UTF-8 does not
    encode. *)
Lemma write_utf8_run (p : Path) (content : string) (w : World) :
  write_utf8 p content w
  = match Os.write_text p content (fs w) with
    | Raise e => (Raise e, w)
    | Ok f' =>
        match Utf8.encode_error content with
        | None => (Ok tt, set_fs f' w)
        | Some e => (Raise e, set_fs (<[p := File EmptyString]> (fs w)) w)
        end
    end.
Proof.
  unfold write_utf8, bind, on_fs, Os.open_write.
  rewrite (write_text_any p content EmptyString).
  destruct (Os.write_text p content (fs w)) as [f'|e] eqn:E; [|reflexivity].
  apply write_text_ok in E as [Ha ->].
  destruct (Utf8.encode_error content); [reflexivity|].
  cbn [fs set_fs]. now rewrite write_text_again.
Qed.

Lemma write_utf8_ok_inv (p : Path) (content : string) (w w' : World)
    (u : unit) :
  write_utf8 p content w = (Ok u, w') ->
  exists f',
    Os.write_text p content (fs w) = Ok f'
    /\ w' = set_fs f' w
    /\ Utf8.encode_error content = None.
Proof.
  rewrite write_utf8_run.
  destruct (Os.write_text p content (fs w)) as [f'|e]; [|discriminate].
  destruct (Utf8.encode_error content); [discriminate|].
  intros H. inversion H. now exists f'.
Qed.

(** What is written can be read again as a text. *)
Lemma encoded_decodes (s : string) :
  Utf8.encode_error s = None -> Utf8.decode_error s = None.
Proof.
  unfold Utf8.encode_error. destruct (Utf8.encode_message s); [discriminate|].
  now destruct (Utf8.decode_error s).
Qed.

(** ** Report generation *)

(** What a successful [_generate_report] did: it rendered some content,
    wrote exactly that to the report file and described it. *)
Lemma generate_report_ok (self : Orchestrator) (query : string)
    (analysis : Analysis.t) (output_path : Path) (w w' : World)
    (report : Report.t) :
  _generate_report self query analysis output_path w = (Ok report, w') ->
  exists content f',
    Os.write_text (report_file self output_path) content (fs w) = Ok f'
    /\ fs w' = f'
    /\ report =
       {| Report.report_path := Pathlib.str (report_file self output_path);
          Report.summary := "Research report generated successfully";
          Report.word_count :=
            Z.of_nat (List.length (PyStr.split content));
          Report.sections := 6 |}.
Proof.
  unfold _generate_report. intros H.
  apply bind_ok_inv in H as ([] & w1 & H1 & H).
  apply bind_ok_inv in H as (content & w2 & H2 & H).
  apply bind_ok_inv in H as ([] & w3 & H3 & H).
  apply write_utf8_ok_inv in H3 as (f' & Hw & -> & _).
  inversion H; subst; clear H.
  exists content, f'. repeat split.
  assert (Hfs : fs w2 = fs w).
  { inversion H1; subst; clear H1.
    destruct (PyStr.contains _ _); inversion H2; reflexivity. }
  now rewrite <- Hfs.
Qed.
(** ** The phases one by one *)

(** C1, as the code has it: [_collect_data] returns a fixed simulated
    record for every research plan: 15 sources found (8 academic
    papers, 5 web articles, 2 books) and a quality score of 0.85, with a
    summary that names the plan's query; it only logs one line and does
    not touch the file system. *)
Theorem C1_collect_data_fixed_placeholder (self : Orchestrator)
    (research_plan : Plan.t) (w : World) :
  exists w',
    _collect_data self research_plan w
    = (Ok {| CollectedData.sources_found := 15;
             CollectedData.academic_papers := 8;
             CollectedData.web_articles := 5;
             CollectedData.books := 2;
             CollectedData.quality_score := FloatLit "0.85";
             CollectedData.data_summary :=
               "Collected comprehensive data on: "
               +:+ Plan.query research_plan |}, w')
    /\ fs w' = fs w
    /\ records w' = records w ++ [(INFO, "Collecting research data...")].
Proof. eexists. repeat split. Qed.

(** C1 fails as stated: for the plan of "What is the meaning of life?"
    the collected data reports 15 sources, not zero, and a quality score
    of 0.85. *)
Lemma C1_sources_found_not_zero :
  exists d w',
    _collect_data watson life_plan fresh_world = (Ok d, w')
    /\ CollectedData.sources_found d = 15%Z
    /\ CollectedData.sources_found d <> 0%Z
    /\ CollectedData.quality_score d = FloatLit "0.85".
Proof. eexists _, _. repeat split. discriminate. Qed.

(** C2, as the code has it: [_analyze_query] has no failure mode at
    all: for every query, the empty and the white-space-only ones
    included, it returns a plan for that very query and raises
    nothing; it only logs one line. *)
Theorem C2_analyze_query_never_fails (self : Orchestrator) (query : string)
    (w : World) :
  exists plan w',
    _analyze_query self query w = (Ok plan, w')
    /\ Plan.query plan = query
    /\ Plan.research_type plan = _determine_research_type query
    /\ Plan.key_concepts plan = _extract_key_concepts query
    /\ fs w' = fs w
    /\ records w' = records w ++ [(INFO, "Analyzing research query...")].
Proof. eexists _, _. repeat split. Qed.

(** C2 fails as stated: the empty query and a query of three spaces are
    blank, yet [_analyze_query] returns a plan for each, and a whole run
    on the blank query completes. *)
Lemma C2_blank_query_accepted :
  PyStr.blank EmptyString = true
  /\ PyStr.blank "   " = true
  /\ (exists plan w',
        _analyze_query watson EmptyString fresh_world = (Ok plan, w'))
  /\ (exists plan w',
        _analyze_query watson "   " fresh_world = (Ok plan, w'))
  /\ entry "status"
        (conduct_research watson "   " "research/output" fresh_world)
     = Some "completed".
Proof.
  split; [reflexivity|]. split; [reflexivity|].
  split; [eexists _, _; reflexivity|].
  split; [eexists _, _; reflexivity|].
  vm_compute. reflexivity.
Qed.

(** C9: [_analyze_data] is a constant function: whatever the collected
    data (and the instance and the world), it returns the same record,
    with the same four key findings, the themes philosophy, meaning,
    purpose, existence and the confidence score 0.78; the research plan
    is not among its arguments. *)
Theorem C9_analyze_data_constant (self self' : Orchestrator)
    (d d' : CollectedData.t) (w w' : World) :
  fst (_analyze_data self d w) = fst (_analyze_data self' d' w')
  /\ fst (_analyze_data self d w) = Ok fixed_analysis
  /\ Analysis.key_findings fixed_analysis =
     [ "Multiple philosophical perspectives exist on this topic";
       "Historical context provides important framework";
       "Modern interpretations vary significantly";
       "Practical applications are diverse" ]
  /\ Analysis.themes fixed_analysis =
     ["philosophy"; "meaning"; "purpose"; "existence"]
  /\ Analysis.confidence_score fixed_analysis = FloatLit "0.78".
Proof. repeat split. Qed.

(** C10: whenever [_generate_report] succeeds, the section count in its
    metadata is the literal 6, whichever template was chosen and
    whatever the rendered content. *)
Theorem C10_sections_is_six (self : Orchestrator) (query : string)
    (analysis : Analysis.t) (output_path : Path) (w w' : World)
    (report : Report.t) :
  _generate_report self query analysis output_path w = (Ok report, w') ->
  Report.sections report = 6%Z.
Proof.
  intros H. apply generate_report_ok in H as (content & f' & _ & _ & ->).
  reflexivity.
Qed.

Lemma C10_sections_is_six_witness :
  exists report w',
    _generate_report watson "Latest developments in AI research"
                     fixed_analysis ["out"] staged_world = (Ok report, w')
    /\ Report.sections report = 6%Z.
Proof.
  assert (E : returned (_generate_report watson
                          "Latest developments in AI research"
                          fixed_analysis ["out"] staged_world) = true)
    by (vm_compute; reflexivity).
  apply (returned_eta (Report.mk EmptyString EmptyString 0 0)) in E.
  eexists _, _. split; [exact E|].
  exact (C10_sections_is_six _ _ _ _ _ _ _ E).
Defined.

(** The section count of the metadata is not a count of the sections
    written: the report on the meaning of life has eight second-level
    headings and the generic report has five. *)
Example sections_of_the_two_templates :
  option_map section_headings
    (Os.read_text
       (fs (snd (_generate_report watson "What is the meaning of life?"
                   fixed_analysis ["out"] staged_world)))
       (report_file watson ["out"])) = Some 8
  /\ option_map section_headings
       (Os.read_text
          (fs (snd (_generate_report watson
                      "Latest developments in AI research"
                      fixed_analysis ["out"] staged_world)))
          (report_file watson ["out"])) = Some 5.
Proof. split; vm_compute; reflexivity. Qed.

(** ** Paths *)

Lemma string_app_cons (c : ascii) (s t : string) :
  String c s +:+ t = String c (s +:+ t).
Proof. reflexivity. Qed.

Lemma string_app_nil_r (s : string) : s +:+ EmptyString = s.
Proof.
  induction s as [|c s IH]; [reflexivity|].
  now rewrite string_app_cons, IH.
Qed.

Lemma string_app_assoc (s1 s2 s3 : string) :
  (s1 +:+ s2) +:+ s3 = s1 +:+ (s2 +:+ s3).
Proof.
  induction s1 as [|c s1 IH]; [reflexivity|].
  now rewrite !string_app_cons, IH.
Qed.

Lemma rev_app_app (s1 s2 : string) :
  String.rev_app s1 s2 = String.rev s1 +:+ s2.
Proof.
  unfold String.rev. revert s2.
  induction s1 as [|c s1 IH]; intros s2; simpl; [reflexivity|].
  rewrite (IH (String c s2)), (IH (String c EmptyString)).
  now rewrite string_app_assoc.
Qed.

(** The first part [split("/")] yields starts with what was read so
    far. *)
Lemma split_slash_go_head (cur s : string) :
  exists x rest,
    Pathlib.split_slash_go cur s = (String.rev cur +:+ x) :: rest.
Proof.
  revert cur. induction s as [|c s IH]; intros cur; simpl.
  - exists EmptyString, []. now rewrite string_app_nil_r.
  - destruct (Ascii.eqb c Pathlib.slash).
    + exists EmptyString, (Pathlib.split_slash_go EmptyString s).
      now rewrite string_app_nil_r.
    + destruct (IH (String c cur)) as (x & rest & ->).
      exists (String c x), rest. f_equal.
      unfold String.rev at 1. simpl.
      now rewrite rev_app_app, string_app_assoc.
Qed.

(** The report file lies under the output path, in an entry whose name
    starts with [research_report_]. *)
Lemma report_file_shape (self : Orchestrator) (output_path : Path) :
  exists x rest,
    report_file self output_path
    = output_path ++ ("research_report_" +:+ x) :: rest.
Proof.
  unfold report_file, Pathlib.div.
  change (String.prefix "/" ("research_report_" +:+ session_id self +:+ ".md"))
    with false. cbv iota.
  unfold Pathlib.split_slash.
  change (Pathlib.split_slash_go EmptyString
            ("research_report_" +:+ session_id self +:+ ".md"))
    with (Pathlib.split_slash_go "_troper_hcraeser" (session_id self +:+ ".md")).
  destruct (split_slash_go_head "_troper_hcraeser" (session_id self +:+ ".md"))
    as (x & rest & ->).
  exists x, (List.filter Pathlib.keep_part rest). reflexivity.
Qed.

(** The session log lies under [logs] in the output path. *)
Lemma log_file_shape (output_path : Path) (name : string) :
  String.prefix "/" name = false ->
  exists rest,
    Pathlib.div (Pathlib.div output_path "logs") name
    = output_path ++ "logs" :: rest.
Proof.
  intros H. unfold Pathlib.div at 1. rewrite H.
  exists (List.filter Pathlib.keep_part (Pathlib.split_slash name)).
  change (Pathlib.div output_path "logs") with (output_path ++ ["logs"]).
  now rewrite <- app_assoc.
Qed.

Lemma report_file_not_log (self : Orchestrator) (output_path : Path)
    (name : string) :
  String.prefix "/" name = false ->
  report_file self output_path
  <> Pathlib.div (Pathlib.div output_path "logs") name.
Proof.
  intros H.
  destruct (report_file_shape self output_path) as (x & rest & ->).
  destruct (log_file_shape output_path name H) as (rest' & ->).
  intros E. apply app_inv_head in E. discriminate.
Qed.

(** ** The file system *)

Lemma node_at_insert_ne (f : FS) (p q : Path) (n : node) :
  p <> q -> Os.node_at (<[p := n]> f) q = Os.node_at f q.
Proof.
  intros H. unfold Os.node_at. destruct (Pathlib.is_anchor q); [reflexivity|].
  now rewrite lookup_insert_ne.
Qed.

Lemma mkdir_ok_inv (p : Path) (f f' : FS) :
  Os.mkdir p f = Ok f' -> Os.node_at f p = None /\ f' = <[p := Dir]> f.
Proof.
  unfold Os.mkdir. destruct (Os.node_at f p); [discriminate|].
  destruct (Os.parent_error f p); [discriminate|].
  intros H. now inversion H.
Qed.

(** [os.mkdir] makes a directory and leaves the other entries alone. *)
Lemma mkdir_grows (p : Path) (f f' : FS) :
  Os.mkdir p f = Ok f' ->
  Os.is_dir f' p = true
  /\ forall q, Os.node_at f' q = Os.node_at f q
               \/ (Os.node_at f q = None /\ Os.node_at f' q = Some Dir).
Proof.
  intros H. apply mkdir_ok_inv in H as [Hnone ->]. split.
  - unfold Os.is_dir, Os.node_at in *.
    destruct (Pathlib.is_anchor p); [reflexivity|].
    now rewrite lookup_insert_eq.
  - intros q. destruct (decide (p = q)) as [<-|Hne].
    + right. split; [exact Hnone|].
      unfold Os.node_at in *. destruct (Pathlib.is_anchor p); [reflexivity|].
      now rewrite lookup_insert_eq.
    + left. now apply node_at_insert_ne.
Qed.

(** What [Path.mkdir(parents=True, exist_ok=True)] can change: it only
    adds directories where there was nothing, and the path is a
    directory afterwards. *)
Lemma mkdir_parents_rev_grows (rp : list string) (f f' : FS) :
  Os.mkdir_parents_rev rp f = Ok f' ->
  Os.is_dir f' (rev rp) = true
  /\ forall q, Os.node_at f' q = Os.node_at f q
               \/ (Os.node_at f q = None /\ Os.node_at f' q = Some Dir).
Proof.
  revert f f'. induction rp as [|x rparent IH]; intros f f'.
  - simpl. destruct (Os.mkdir [] f) as [f1|e] eqn:E.
    + intros H. inversion H; subst. now apply mkdir_grows.
    + destruct e; (destruct (Os.is_dir f []) eqn:D; [|discriminate]) ||
                  discriminate; intros H; inversion H; subst; auto.
  - cbn [Os.mkdir_parents_rev].
    destruct (Os.mkdir (rev (x :: rparent)) f) as [f1|e] eqn:E.
    + intros H. inversion H; subst. now apply mkdir_grows.
    + assert (Hdefault :
        (if Os.is_dir f (rev (x :: rparent)) then Ok f else Raise e) = Ok f' ->
        Os.is_dir f' (rev (x :: rparent)) = true
        /\ forall q, Os.node_at f' q = Os.node_at f q
               \/ (Os.node_at f q = None /\ Os.node_at f' q = Some Dir)).
      { destruct (Os.is_dir f (rev (x :: rparent))) eqn:D; [|discriminate].
        intros H. inversion H; subst. auto. }
      destruct e; try exact Hdefault. clear Hdefault.
      destruct (Os.mkdir_parents_rev rparent f) as [f1|e1] eqn:E1;
        [|discriminate].
      destruct (IH _ _ E1) as [_ Hgrow1].
      destruct (Os.mkdir (rev (x :: rparent)) f1) as [f2|e2] eqn:E2.
      * intros H. inversion H; subst.
        destruct (mkdir_grows _ _ _ E2) as [Hd Hgrow2]. split; [exact Hd|].
        intros q. destruct (Hgrow2 q) as [H2|[H2 H2']];
          destruct (Hgrow1 q) as [H1|[H1 H1']]; try (left; congruence);
          right; split; congruence.
      * destruct (Os.is_dir f1 (rev (x :: rparent))) eqn:D; [|discriminate].
        intros H. inversion H; subst. auto.
Qed.

Lemma mkdir_parents_grows (p : Path) (f f' : FS) :
  Os.mkdir_parents p f = Ok f' ->
  Os.is_dir f' p = true
  /\ forall q, Os.node_at f' q = Os.node_at f q
               \/ (Os.node_at f q = None /\ Os.node_at f' q = Some Dir).
Proof.
  unfold Os.mkdir_parents. intros H.
  apply mkdir_parents_rev_grows in H. now rewrite rev_involutive in H.
Qed.

(** Creating a directory that is there changes nothing. *)
Lemma mkdir_parents_existing (p : Path) (f : FS) :
  Os.is_dir f p = true -> Os.mkdir_parents p f = Ok f.
Proof.
  unfold Os.mkdir_parents. intros H.
  assert (Hm : Os.mkdir p f = Raise (FileExistsError (Pathlib.str p))).
  { unfold Os.mkdir. unfold Os.is_dir in H.
    now destruct (Os.node_at f p) as [[|]|]. }
  destruct (rev p) as [|x rp] eqn:E; cbn [Os.mkdir_parents_rev];
    rewrite <- E, rev_involutive, Hm, H; reflexivity.
Qed.

Lemma mkdir_parents_idempotent (p : Path) (f f' : FS) :
  Os.mkdir_parents p f = Ok f' -> Os.mkdir_parents p f' = Ok f'.
Proof.
  intros H. apply mkdir_parents_existing. now apply mkdir_parents_grows in H.
Qed.

Lemma only_adds_refl (allowed : Path -> Prop) (f : FS) : only_adds allowed f f.
Proof. intros q. now left. Qed.

Lemma only_adds_trans (allowed : Path -> Prop) (f1 f2 f3 : FS) :
  only_adds allowed f1 f2 -> only_adds allowed f2 f3 -> only_adds allowed f1 f3.
Proof.
  intros H12 H23 q. destruct (H23 q) as [E23|[N2 H3]].
  - rewrite E23. apply H12.
  - destruct (H12 q) as [E12|[N1 H2]].
    + right. split; [congruence | exact H3].
    + destruct H2 as [H2|[H2 _]]; congruence.
Qed.

Lemma only_adds_keeps_dirs (allowed : Path -> Prop) (f f' : FS) :
  only_adds allowed f f' -> keeps_dirs f f'.
Proof.
  intros H q. unfold Os.is_dir. destruct (H q) as [->|[-> _]]; [auto|discriminate].
Qed.

Lemma mkdir_parents_only_adds (allowed : Path -> Prop) (p : Path) (f f' : FS) :
  Os.mkdir_parents p f = Ok f' -> only_adds allowed f f'.
Proof.
  intros H q. apply mkdir_parents_grows in H as [_ H].
  destruct (H q) as [E|[N D]]; [now left | right; auto].
Qed.

Lemma open_append_only_adds (p : Path) (f f' : FS) :
  Os.open_append p f = Ok f' -> only_adds (fun q => q = p) f f'.
Proof.
  unfold Os.open_append. intros H q.
  destruct (Os.node_at f p) as [[|c]|] eqn:E.
  - discriminate.
  - inversion H; subst. now left.
  - destruct (Os.parent_error f p); [discriminate|]. inversion H; subst.
    destruct (decide (p = q)) as [<-|Hne].
    + right. split; [exact E|]. right. split; [|reflexivity].
      unfold Os.node_at in *. destruct (Pathlib.is_anchor p); [discriminate|].
      now rewrite lookup_insert_eq.
    + left. now apply node_at_insert_ne.
Qed.

Lemma only_adds_weaken (allowed allowed' : Path -> Prop) (f f' : FS) :
  (forall q, allowed q -> allowed' q) ->
  only_adds allowed f f' -> only_adds allowed' f f'.
Proof.
  intros Hsub H q. destruct (H q) as [E|[N [D|[F A]]]]; [now left | | ];
    right; split; auto.
Qed.

Lemma write_text_keeps_dirs (p : Path) (content : string) (f f' : FS) :
  Os.write_text p content f = Ok f' -> keeps_dirs f f'.
Proof.
  unfold Os.write_text. intros H q Hq.
  assert (Hins : Os.node_at f p <> Some Dir ->
                 Os.is_dir (<[p := File content]> f) q = true).
  { intros Hp. unfold Os.is_dir. rewrite node_at_insert_ne; [exact Hq|].
    intros <-. unfold Os.is_dir in Hq.
    now destruct (Os.node_at f p) as [[|]|]. }
  destruct (Os.node_at f p) as [[|c]|] eqn:E.
  - discriminate.
  - inversion H; subst. now apply Hins.
  - destruct (Os.parent_error f p); [discriminate|]. inversion H; subst.
    now apply Hins.
Qed.

(** ** Steady computations *)

Lemma stable_refl (w : World) : stable w w.
Proof. split; [reflexivity | now intros q]. Qed.

Lemma stable_same (w w' : World) :
  handlers w' = handlers w -> fs w' = fs w -> stable w w'.
Proof. intros Hh Hf. split; [exact Hh|]. rewrite Hf. now intros q. Qed.

Lemma stable_trans (w1 w2 w3 : World) :
  stable w1 w2 -> stable w2 w3 -> stable w1 w3.
Proof.
  intros [H12 D12] [H23 D23]. split; [congruence|].
  intros q Hq. auto.
Qed.

Lemma steady_ret {A : Type} (a : A) : steady (ret a).
Proof. intros w r w' H. inversion H. apply stable_refl. Qed.

Lemma steady_bind {A B : Type} (m : M A) (k : A -> M B) :
  steady m -> (forall a, steady (k a)) -> steady (bind m k).
Proof.
  intros Hm Hk w r w'. unfold bind.
  destruct (m w) as [[a|e] w1] eqn:E; intros H.
  - eapply stable_trans; [exact (Hm _ _ _ E) | exact (Hk _ _ _ _ H)].
  - inversion H; subst. exact (Hm _ _ _ E).
Qed.

Lemma steady_try_except {A : Type} (body : M A) (handler : exn -> M A) :
  steady body -> (forall e, steady (handler e)) ->
  steady (try_except body handler).
Proof.
  intros Hb Hh w r w'. unfold try_except.
  destruct (body w) as [[a|e] w1] eqn:E; intros H.
  - inversion H; subst. exact (Hb _ _ _ E).
  - eapply stable_trans; [exact (Hb _ _ _ E) | exact (Hh _ _ _ _ H)].
Qed.

Lemma steady_emit (l : level) (msg : string) : steady (emit l msg).
Proof. intros w r w' H. inversion H. now apply stable_same. Qed.

Lemma steady_now : steady now.
Proof. intros w r w' H. inversion H. now apply stable_same. Qed.

Lemma steady_write_text (p : Path) (content : string) :
  steady (on_fs (Os.write_text p content)).
Proof.
  intros w r w'. unfold on_fs.
  destruct (Os.write_text p content (fs w)) as [f|e] eqn:E; intros H;
    inversion H; subst.
  - split; [reflexivity|]. simpl. now apply write_text_keeps_dirs in E.
  - apply stable_refl.
Qed.

(** The file a refused content leaves empty is written all the same. *)
Lemma write_text_emptied (p : Path) (content : string) (f f' : FS) :
  Os.write_text p content f = Ok f' ->
  Os.write_text p EmptyString f = Ok (<[p := File EmptyString]> f).
Proof. intros H. now rewrite (write_text_any p content), H. Qed.

Lemma steady_write_utf8 (p : Path) (content : string) :
  steady (write_utf8 p content).
Proof.
  intros w r w'. rewrite write_utf8_run.
  destruct (Os.write_text p content (fs w)) as [f|e] eqn:E.
  - destruct (Utf8.encode_error content); intros H; inversion H; subst.
    + split; [reflexivity|]. simpl.
      apply write_text_emptied in E. now apply write_text_keeps_dirs in E.
    + split; [reflexivity|]. simpl. now apply write_text_keeps_dirs in E.
  - intros H; inversion H; subst. apply stable_refl.
Qed.

Lemma steady_logger_info (msg : string) : steady (logger_info msg).
Proof. apply steady_emit. Qed.

Lemma steady_logger_error (msg : string) : steady (logger_error msg).
Proof. apply steady_emit. Qed.

Create HintDb steady.
#[local] Hint Resolve steady_ret steady_emit steady_now steady_write_text
  steady_write_utf8
  steady_logger_info steady_logger_error : steady.

(** Closes the steps that are known to be steady and splits the chains
    of binds in between. *)
Ltac steady_steps :=
  repeat first
    [ solve [auto with steady]
    | apply steady_bind; [|intros ?]
    | apply steady_try_except; [|intros ?] ].

Lemma steady_generate_report (self : Orchestrator) (query : string)
    (analysis : Analysis.t) (output_path : Path) :
  steady (_generate_report self query analysis output_path).
Proof.
  unfold _generate_report. steady_steps.
  destruct (PyStr.contains _ _);
    [unfold _generate_meaning_of_life_report
    |unfold _generate_generic_report]; steady_steps.
Qed.

Lemma steady_failed (self : Orchestrator) (query : string) (e : exn) :
  steady (failed self query e).
Proof. unfold failed. steady_steps. Qed.

#[local] Hint Resolve steady_generate_report steady_failed : steady.

(** Past the set-up, the class's own phases leave the logging registry
    and the directories alone. *)
Lemma steady_run (self : Orchestrator) (query : string) (output_path : Path) :
  steady (try_except
            (run_phases ResearchOrchestrator_phases self query output_path)
            (failed self query)).
Proof.
  unfold run_phases, ResearchOrchestrator_phases. simpl.
  unfold _analyze_query, _collect_data, _analyze_data.
  steady_steps.
Qed.

(** ** Session set-up *)

Lemma create_session_logger_ok (sid output_dir name : string) (w w1 : World) :
  create_session_logger sid output_dir w = (Ok name, w1) ->
  name = "baker_street.session." +:+ sid
  /\ name ∈ handlers w1
  /\ records w1 = records w
  /\ only_adds (session_log_of (Pathlib.parse output_dir)) (fs w) (fs w1).
Proof.
  unfold create_session_logger, bind, now, has_handlers. simpl.
  destruct (bool_decide _) eqn:Hcfg; simpl.
  - intros H. inversion H; subst; clear H. simpl.
    apply bool_decide_eq_true in Hcfg.
    repeat split; auto using only_adds_refl.
  - unfold on_fs at 1. simpl.
    destruct (Os.mkdir_parents _ (fs w)) as [f1|e1] eqn:E1; [|discriminate].
    unfold on_fs. simpl.
    destruct (Os.open_append _ f1) as [f2|e2] eqn:E2; [|discriminate].
    unfold add_handler, ret. simpl. intros H. inversion H; subst; clear H. simpl.
    repeat split; [set_solver|].
    eapply only_adds_trans.
    + eapply mkdir_parents_only_adds. exact E1.
    + eapply only_adds_weaken; [|eapply open_append_only_adds; exact E2].
      intros q ->. eexists. split; [|reflexivity]. reflexivity.
Qed.

(** What a successful set-up leaves: the session logger is configured,
    the output path is a directory, and all that was added to the file
    system are directories and empty session logs. *)
Lemma session_setup_ok (self : Orchestrator) (query output_dir : string)
    (output_path : Path) (w w0 : World) :
  session_setup self query output_dir w = (Ok output_path, w0) ->
  output_path = Pathlib.parse output_dir
  /\ session_logger_name self ∈ handlers w0
  /\ Os.is_dir (fs w0) output_path = true
  /\ only_adds (session_log_of output_path) (fs w) (fs w0).
Proof.
  unfold session_setup, logger_info. intros H.
  apply bind_ok_inv in H as ([] & wa & Ha & H).
  apply bind_ok_inv in H as ([] & wb & Hb & H).
  apply bind_ok_inv in H as (name & wc & Hc & H).
  apply bind_ok_inv in H as ([] & wd & Hd & H).
  inversion H; subst; clear H.
  inversion Ha; subst; clear Ha. inversion Hb; subst; clear Hb.
  apply create_session_logger_ok in Hc as (-> & Hin & _ & Hadds).
  apply on_fs_ok_inv in Hd as (f & Hmk & ->). simpl in *.
  repeat split.
  - exact Hin.
  - now apply mkdir_parents_grows in Hmk.
  - eapply only_adds_trans; [exact Hadds|].
    eapply mkdir_parents_only_adds. exact Hmk.
Qed.

(** Opening a session again: with the session logger configured and the
    output directory in place, the set-up succeeds and leaves the file
    system and the logging registry as they are. *)
Lemma session_setup_again (self : Orchestrator) (query output_dir : string)
    (w : World) :
  session_logger_name self ∈ handlers w ->
  Os.is_dir (fs w) (Pathlib.parse output_dir) = true ->
  exists w0,
    session_setup self query output_dir w = (Ok (Pathlib.parse output_dir), w0)
    /\ fs w0 = fs w
    /\ handlers w0 = handlers w.
Proof.
  intros Hin Hdir.
  unfold session_setup, create_session_logger, bind, logger_info, emit, now,
    has_handlers. simpl.
  fold (session_logger_name self).
  rewrite (bool_decide_eq_true_2 _ Hin). simpl.
  unfold on_fs. simpl. rewrite (mkdir_parents_existing _ _ Hdir). simpl.
  eexists. repeat split.
Qed.

(** ** The result of a run *)

Lemma completed_fields (a b c d e f : string) :
  dom (<["session_id" := a]>
       (<["query" := b]>
       (<["timestamp" := c]>
       (<["output_dir" := d]>
       (<["summary" := e]>
       (<["report_path" := f]>
       (<["status" := "completed"]> (∅ : gmap string string))))))))
  = seven_fields.
Proof. unfold seven_fields. rewrite !dom_insert_L, dom_empty_L. set_solver. Qed.

Lemma failed_fields (a b c d : string) :
  dom (<["session_id" := a]>
       (<["query" := b]>
       (<["timestamp" := c]>
       (<["error" := d]>
       (<["status" := "failed"]> (∅ : gmap string string))))))
  = failure_fields.
Proof. unfold failure_fields. rewrite !dom_insert_L, dom_empty_L. set_solver. Qed.

(** What the [except] block returns. *)
Lemma failed_returns (self : Orchestrator) (query : string) (e : exn)
    (w : World) :
  exists d w',
    failed self query e w = (Ok d, w')
    /\ fs w' = fs w
    /\ records w'
       = records w ++ [(ERROR, "Research session " +:+ session_id self
                               +:+ " failed: " +:+ exn_str e)]
    /\ d !! "session_id" = Some (session_id self)
    /\ d !! "query" = Some query
    /\ d !! "status" = Some "failed"
    /\ d !! "error" = Some (exn_str e)
    /\ d !! "report_path" = None
    /\ dom d = failure_fields.
Proof.
  eexists _, _. split; [reflexivity|]. simpl.
  repeat split; try apply failed_fields; by simplify_map_eq.
Qed.

(** What the [try] block returns when no phase raises. *)
Lemma run_phases_returns (cls : Phases) (self : Orchestrator) (query : string)
    (output_path : Path) (w w' : World) (d : gmap string string) :
  run_phases cls self query output_path w = (Ok d, w') ->
  d !! "session_id" = Some (session_id self)
  /\ d !! "query" = Some query
  /\ d !! "status" = Some "completed"
  /\ d !! "output_dir" = Some (Pathlib.str output_path)
  /\ dom d = seven_fields.
Proof.
  unfold run_phases. intros H.
  apply bind_ok_inv in H as ([] & w1 & _ & H).
  apply bind_ok_inv in H as (plan & w2 & _ & H).
  apply bind_ok_inv in H as ([] & w3 & _ & H).
  apply bind_ok_inv in H as (data & w4 & _ & H).
  apply bind_ok_inv in H as ([] & w5 & _ & H).
  apply bind_ok_inv in H as (analysis & w6 & _ & H).
  apply bind_ok_inv in H as ([] & w7 & _ & H).
  apply bind_ok_inv in H as (report & w8 & _ & H).
  apply bind_ok_inv in H as (t & w9 & _ & H).
  apply bind_ok_inv in H as ([] & w10 & _ & H).
  inversion H; subst; clear H.
  repeat split; try apply completed_fields; by simplify_map_eq.
Qed.

(** Past the set-up, [conduct_research] always returns a dictionary. *)
Lemma guarded_run_returns (cls : Phases) (self : Orchestrator) (query : string)
    (output_path : Path) (w : World) :
  exists d w',
    try_except (run_phases cls self query output_path) (failed self query) w
    = (Ok d, w')
    /\ d !! "session_id" = Some (session_id self)
    /\ d !! "query" = Some query
    /\ ((d !! "status" = Some "completed" /\ dom d = seven_fields)
        \/ (d !! "status" = Some "failed" /\ dom d = failure_fields)).
Proof.
  unfold try_except.
  destruct (run_phases cls self query output_path w) as [[d|e] w1] eqn:E.
  - apply run_phases_returns in E as (Hs & Hq & Hst & _ & Hdom).
    exists d, w1. repeat split; auto.
  - destruct (failed_returns self query e w1)
      as (d & w' & -> & _ & _ & Hs & Hq & Hst & _ & _ & Hdom).
    exists d, w'. repeat split; auto.
Qed.
(** ** The run as a whole *)

(** C6, as the code has it: a call of [conduct_research] (of the class
    or a subclass) either raises during the session set-up, which runs
    outside the [try] block, or returns a dictionary with [session_id],
    [query] and [timestamp] that is of one of two shapes: status
    [completed] with exactly the seven fields [session_id], [query],
    [timestamp], [output_dir], [status], [summary] and [report_path]; or
    status [failed] with exactly [session_id], [query], [timestamp],
    [error] and [status]. *)
Theorem C6_result_fields (cls : Phases) (self : Orchestrator)
    (query output_dir : string) (w : World) :
  match conduct_research_of cls self query output_dir w with
  | (Ok d, _) =>
      d !! "session_id" = Some (session_id self)
      /\ d !! "query" = Some query
      /\ ((d !! "status" = Some "completed" /\ dom d = seven_fields)
          \/ (d !! "status" = Some "failed" /\ dom d = failure_fields))
  | (Raise e, w') =>
      session_setup self query output_dir w = (Raise e, w')
  end.
Proof.
  unfold conduct_research_of, bind.
  destruct (session_setup self query output_dir w) as [[output_path|e] w0];
    [|reflexivity].
  destruct (guarded_run_returns cls self query output_path w0)
    as (d & w' & -> & H). exact H.
Qed.

(** C6 fails as stated: when the place of the report is taken by a
    directory, the run returns a dictionary with status [failed] that has
    an [error] but no [output_dir], no [summary] and no [report_path]. *)
Lemma C6_failed_result_lacks_fields :
  returned (conduct_research watson "tech" "out" blocked_world) = true
  /\ entry "status" (conduct_research watson "tech" "out" blocked_world)
     = Some "failed"
  /\ entry "error" (conduct_research watson "tech" "out" blocked_world)
     = Some "[Errno 21] Is a directory: 'out/research_report_abcd1234.md'"
  /\ entry "output_dir" (conduct_research watson "tech" "out" blocked_world)
     = None
  /\ entry "summary" (conduct_research watson "tech" "out" blocked_world)
     = None
  /\ entry "report_path" (conduct_research watson "tech" "out" blocked_world)
     = None.
Proof.
  split; [vm_compute; reflexivity|]. split; [vm_compute; reflexivity|].
  split; [vm_compute; reflexivity|]. split; [vm_compute; reflexivity|].
  split; vm_compute; reflexivity.
Qed.

(** C4: when the data-collection phase raises (the set-up and the
    planning phase having succeeded), [conduct_research] returns a
    dictionary with status [failed] that carries the error and no report
    path; nothing runs after the failure but the [except] block: the
    file system is as the collection phase left it, the only log record
    added is the error, and the result is the same whatever the analysis
    and report methods are; and if the planning and collection phases
    did not write to the file system themselves, a report file found
    after the run was there, with that content, before it. *)
Theorem C4_collection_failure (cls : Phases) (self : Orchestrator)
    (query output_dir : string) (output_path : Path) (plan : Plan.t)
    (e : exn) (w w0 w1 w2 : World) :
  session_setup self query output_dir w = (Ok output_path, w0) ->
  (logger_info "Phase 1: Analyzing query and planning research" ;;
   analyze_query_phase cls self query) w0 = (Ok plan, w1) ->
  (logger_info "Phase 2: Collecting data and sources" ;;
   collect_data_phase cls self plan) w1 = (Raise e, w2) ->
  exists d w',
    conduct_research_of cls self query output_dir w = (Ok d, w')
    /\ d !! "status" = Some "failed"
    /\ d !! "error" = Some (exn_str e)
    /\ d !! "report_path" = None
    /\ fs w' = fs w2
    /\ records w'
       = records w2 ++ [(ERROR, "Research session " +:+ session_id self
                                +:+ " failed: " +:+ exn_str e)]
    /\ (forall analyze_data' generate_report',
          conduct_research_of
            {| analyze_query_phase := analyze_query_phase cls;
               collect_data_phase := collect_data_phase cls;
               analyze_data_phase := analyze_data';
               generate_report_phase := generate_report' |}
            self query output_dir w = (Ok d, w'))
    /\ (fs w1 = fs w0 -> fs w2 = fs w1 ->
        forall content,
          Os.read_text (fs w') (report_file self output_path) = Some content ->
          Os.read_text (fs w) (report_file self output_path) = Some content).
Proof.
  intros H0 H1 H2.
  assert (Hrun : forall analyze_data' generate_report',
    run_phases {| analyze_query_phase := analyze_query_phase cls;
                  collect_data_phase := collect_data_phase cls;
                  analyze_data_phase := analyze_data';
                  generate_report_phase := generate_report' |}
               self query output_path w0 = (Raise e, w2)).
  { intros a' g'. unfold run_phases, bind, logger_info, emit in *.
    simpl in *.
    destruct (analyze_query_phase cls self query _) as [[plan'|e'] w1'];
      [|discriminate].
    inversion H1; subst; clear H1.
    destruct (collect_data_phase cls self plan _) as [[data|e'] w2'];
      [discriminate|].
    now inversion H2. }
  destruct (failed_returns self query e w2)
    as (d & w' & Hf & Hfs & Hrec & _ & _ & Hst & Herr & Hnone & _).
  assert (Hcall : forall analyze_data' generate_report',
    conduct_research_of
      {| analyze_query_phase := analyze_query_phase cls;
         collect_data_phase := collect_data_phase cls;
         analyze_data_phase := analyze_data';
         generate_report_phase := generate_report' |}
      self query output_dir w = (Ok d, w')).
  { intros a' g'. unfold conduct_research_of.
    rewrite (bind_ok _ _ _ _ _ H0). unfold try_except.
    now rewrite Hrun. }
  exists d, w'. repeat split; auto.
  - specialize (Hcall (analyze_data_phase cls) (generate_report_phase cls)).
    now destruct cls.
  - intros E10 E21 content Hread.
    apply session_setup_ok in H0 as (_ & _ & _ & Hadds).
    rewrite Hfs, E21, E10 in Hread. unfold Os.read_text in *.
    destruct (Hadds (report_file self output_path)) as [<-|[_ [Hd|[_ Hlog]]]].
    + exact Hread.
    + now rewrite Hd in Hread.
    + destruct Hlog as (name & Hname & Heq).
      now apply report_file_not_log in Heq.
Qed.
Lemma C4_collection_failure_witness :
  exists d w',
    conduct_research_of unreachable_source watson
      "Latest developments in AI research" "research/output" fresh_world
    = (Ok d, w')
    /\ d !! "status" = Some "failed"
    /\ d !! "error" = Some "connector unavailable"
    /\ d !! "report_path" = None
    /\ Os.read_text (fs w')
         (report_file watson (Pathlib.parse "research/output")) = None.
Proof.
  pose (r0 := session_setup watson "Latest developments in AI research"
                "research/output" fresh_world).
  pose (r1 := (logger_info "Phase 1: Analyzing query and planning research" ;;
               analyze_query_phase unreachable_source watson
                 "Latest developments in AI research") (snd r0)).
  pose (r2 := (logger_info "Phase 2: Collecting data and sources" ;;
               collect_data_phase unreachable_source watson
                 (value_of life_plan r1)) (snd r1)).
  assert (H0 : returned r0 = true) by (vm_compute; reflexivity).
  assert (H1 : returned r1 = true) by (vm_compute; reflexivity).
  assert (H2 : returned r2 = false) by (vm_compute; reflexivity).
  apply (returned_eta (Pathlib.parse "research/output")) in H0.
  apply (returned_eta life_plan) in H1.
  apply (raised_eta (OtherError EmptyString)) in H2.
  destruct (C4_collection_failure unreachable_source watson
              "Latest developments in AI research" "research/output"
              _ _ _ _ _ _ _ H0 H1 H2)
    as (d & w' & Hcall & Hst & Herr & Hpath & _).
  exists d, w'. split; [exact Hcall|]. split; [exact Hst|].
  split; [rewrite Herr; vm_compute; reflexivity|]. split; [exact Hpath|].
  assert (Hr : Os.read_text
                 (fs (snd (conduct_research_of unreachable_source watson
                             "Latest developments in AI research"
                             "research/output" fresh_world)))
                 (report_file watson (Pathlib.parse "research/output"))
               = None)
    by (vm_compute; reflexivity).
  rewrite Hcall in Hr. exact Hr.
Defined.
(** ** Session identifiers *)

Lemma hex_digit_inj (a b : N) :
  (a < 16)%N -> (b < 16)%N -> Uuid.hex_digit a = Uuid.hex_digit b -> a = b.
Proof.
  unfold Uuid.hex_digit. intros Ha Hb H.
  apply (f_equal N_of_ascii) in H.
  destruct (N.ltb_spec a 10), (N.ltb_spec b 10);
    rewrite !N_ascii_embedding in H by lia; lia.
Qed.

(** Equal renderings in [k] hexadecimal digits mean equal numbers up to
    the [4 * k] low bits. *)
Lemma hex_inj (k : nat) (a b : N) :
  Uuid.hex k a = Uuid.hex k b ->
  (a mod 2 ^ (4 * N.of_nat k) = b mod 2 ^ (4 * N.of_nat k))%N.
Proof.
  induction k as [|k IH]; intros H.
  - simpl. now rewrite !N.mod_1_r.
  - cbn [Uuid.hex] in H. inversion H as [[Hd Ht]]. clear H.
    specialize (IH Ht).
    apply hex_digit_inj in Hd.
    2,3: change 15%N with (N.ones 4); rewrite N.land_ones;
         apply N.mod_lt; discriminate.
    change 15%N with (N.ones 4) in Hd.
    rewrite !N.land_ones, !N.shiftr_div_pow2 in Hd.
    replace (4 * N.of_nat (S k))%N with (4 * N.of_nat k + 4)%N by lia.
    rewrite N.pow_add_r, !N.Div0.mod_mul_r. now rewrite IH, Hd.
Qed.

(** The first eight characters of [str(u)] are the eight digits of the
    number above bit 96. *)
Lemma take8_str (u : N) :
  PyStr.take 8 (Uuid.str u) = Uuid.hex 8 (N.shiftr u 96).
Proof.
  cbv [PyStr.take Uuid.str Uuid.hex String.substring String.append].
  rewrite !N.shiftr_shiftr.
  reflexivity.
Qed.

(** The leading 32 of the 128 random bits. *)
Lemma uuid4_int_top (r : N) :
  (N.shiftr (Uuid.uuid4_int r) 96 mod 2 ^ 32
   = N.shiftr r 96 mod 2 ^ 32)%N.
Proof.
  rewrite <- !N.land_ones. apply N.bits_inj. intros i.
  rewrite !N.land_spec, !N.shiftr_spec by lia.
  destruct (N.ltb_spec i 32) as [Hi|Hi].
  - unfold Uuid.uuid4_int.
    rewrite N.lor_spec, N.ldiff_spec, N.lor_spec, N.ldiff_spec, N.land_spec.
    rewrite !N.shiftl_spec_high by lia.
    rewrite (N.bits_above_log2 49152), (N.bits_above_log2 32768),
      (N.bits_above_log2 61440), (N.bits_above_log2 4)
      by (simpl; lia).
    rewrite (N.ones_spec_low 128) by lia. simpl.
    now rewrite !andb_true_r, !orb_false_r.
  - rewrite (N.ones_spec_high 32) by lia. now rewrite !andb_false_r.
Qed.
Lemma init_session_ids (w : World) :
  exists o1 w1 o2 w2,
    ResearchOrchestrator_init w = (Ok o1, w1)
    /\ ResearchOrchestrator_init w1 = (Ok o2, w2)
    /\ (leading32 (urandom w (draws w)) <> leading32 (urandom w (S (draws w)))
        -> session_id o1 <> session_id o2).
Proof.
  eexists _, _, _, _. split; [reflexivity|]. split; [reflexivity|].
  simpl. intros Hne Heq. apply Hne. unfold leading32.
  rewrite !take8_str in Heq. apply hex_inj in Heq.
  change (4 * N.of_nat 8)%N with 32%N in Heq.
  now rewrite !uuid4_int_top in Heq.
Qed.

(** Distinct orchestrators can share a session identifier: the draws 0
    and 1 have the same leading 32 bits. *)
Example two_orchestrators_may_collide :
  session_id (value_of watson newcomer) = "00000000"
  /\ session_id (value_of watson (ResearchOrchestrator_init (snd newcomer)))
     = "00000000".
Proof. split; vm_compute; reflexivity. Qed.

(** C3, as the code has it: once a call of [conduct_research] has
    returned, creating the same output directory again succeeds and
    changes nothing, and a second call on the same orchestrator with the
    same [output_dir] returns too, under the same session identifier,
    the one fixed when the orchestrator was constructed; two
    orchestrators constructed one after the other have distinct session
    identifiers whenever the leading 32 bits of their random draws
    differ. *)
Theorem C3_session_id_per_orchestrator (self : Orchestrator)
    (query1 query2 output_dir : string) (w w1 : World)
    (d1 : gmap string string) :
  conduct_research self query1 output_dir w = (Ok d1, w1) ->
  Os.mkdir_parents (Pathlib.parse output_dir) (fs w1) = Ok (fs w1)
  /\ (exists d2 w2,
        conduct_research self query2 output_dir w1 = (Ok d2, w2)
        /\ d1 !! "session_id" = Some (session_id self)
        /\ d2 !! "session_id" = Some (session_id self))
  /\ (forall v : World,
        exists o1 v1 o2 v2,
          ResearchOrchestrator_init v = (Ok o1, v1)
          /\ ResearchOrchestrator_init v1 = (Ok o2, v2)
          /\ (leading32 (urandom v (draws v))
              <> leading32 (urandom v (S (draws v)))
              -> session_id o1 <> session_id o2)).
Proof.
  intros H. unfold conduct_research, conduct_research_of in *.
  apply bind_ok_inv in H as (output_path & w0 & Hsetup & Hrun).
  apply session_setup_ok in Hsetup as (-> & Hlog & Hdir & _).
  destruct (steady_run _ _ _ _ _ _ Hrun) as [Hh Hd].
  assert (Hdir1 : Os.is_dir (fs w1) (Pathlib.parse output_dir) = true)
    by now apply Hd.
  assert (Hlog1 : session_logger_name self ∈ handlers w1)
    by now rewrite Hh.
  split; [now apply mkdir_parents_existing|].
  split; [|exact init_session_ids].
  destruct (session_setup_again self query2 output_dir w1 Hlog1 Hdir1)
    as (w0' & Hsetup' & _ & _).
  destruct (guarded_run_returns ResearchOrchestrator_phases self query2
              (Pathlib.parse output_dir) w0')
    as (d2 & w2 & Hrun' & Hid2 & _).
  exists d2, w2. split.
  - now rewrite (bind_ok _ _ _ _ _ Hsetup').
  - split; [|exact Hid2].
    destruct (guarded_run_returns ResearchOrchestrator_phases self query1
                (Pathlib.parse output_dir) w0)
      as (d & w' & Hrun1 & Hid1 & _).
    rewrite Hrun in Hrun1. now inversion Hrun1; subst.
Qed.

Lemma C3_session_id_per_orchestrator_witness :
  exists d1 w1 d2 w2,
    conduct_research watson "What is the meaning of life?"
      "research/output" fresh_world = (Ok d1, w1)
    /\ conduct_research watson "Latest developments in AI research"
         "research/output" w1 = (Ok d2, w2)
    /\ d1 !! "session_id" = Some "abcd1234"
    /\ d2 !! "session_id" = Some "abcd1234".
Proof.
  assert (H : returned (conduct_research watson "What is the meaning of life?"
                          "research/output" fresh_world) = true)
    by (vm_compute; reflexivity).
  apply (returned_eta ∅) in H.
  destruct (C3_session_id_per_orchestrator watson
              "What is the meaning of life?"
              "Latest developments in AI research" "research/output"
              _ _ _ H)
    as (_ & (d2 & w2 & Hcall & Hid1 & Hid2) & _).
  eexists _, _, d2, w2. split; [exact H|]. split; [exact Hcall|].
  split; [exact Hid1 | exact Hid2].
Defined.

(** C3 fails as stated: an orchestrator is constructed and
    [conduct_research] is called on it twice with the same output
    directory; both runs complete, and both run under the session
    identifier [00000000] and name the same report file. *)
Lemma C3_two_runs_one_session_id :
  returned newcomer = true
  /\ entry "status" first_run = Some "completed"
  /\ entry "status" second_run = Some "completed"
  /\ entry "session_id" first_run = Some "00000000"
  /\ entry "session_id" second_run = Some "00000000"
  /\ entry "report_path" first_run
     = Some "research/output/research_report_00000000.md"
  /\ entry "report_path" second_run
     = Some "research/output/research_report_00000000.md".
Proof.
  split; [vm_compute; reflexivity|]. split; [vm_compute; reflexivity|].
  split; [vm_compute; reflexivity|]. split; [vm_compute; reflexivity|].
  split; [vm_compute; reflexivity|]. split; vm_compute; reflexivity.
Qed.

(** ** White space and words *)

Lemma string_app_length (s t : string) :
  String.length (s +:+ t) = String.length s + String.length t.
Proof.
  induction s as [|c s IH]; [reflexivity|].
  rewrite string_app_cons. cbn [String.length]. now rewrite IH.
Qed.

Lemma string_rev_cons (c : ascii) (s : string) :
  String.rev (String c s) = String.rev s +:+ String c EmptyString.
Proof. unfold String.rev at 1. cbn. apply rev_app_app. Qed.

Lemma string_snoc_split (x : string) (c : ascii) :
  forall a b,
    x +:+ String c EmptyString = a +:+ b -> b <> EmptyString ->
    exists b0, b = b0 +:+ String c EmptyString /\ x = a +:+ b0.
Proof.
  induction x as [|e x IH]; intros a b H Hb.
  - destruct a as [|d a].
    + exists EmptyString. split; [symmetry; exact H | reflexivity].
    + change (String c EmptyString = String d (a +:+ b)) in H.
      inversion H as [[Hd Hab]].
      destruct a; [|discriminate]. destruct b; [congruence | discriminate].
  - destruct a as [|d a].
    + exists (String e x). split; [symmetry; exact H | reflexivity].
    + rewrite !string_app_cons in H. inversion H as [[Hd Hab]].
      destruct (IH a b Hab Hb) as (b0 & -> & ->).
      exists b0. split; reflexivity.
Qed.

Lemma whitespace_not_empty (ws : string) :
  In ws PyStr.whitespace -> ws <> EmptyString.
Proof.
  intros H ->. revert H. unfold PyStr.whitespace. cbn. intuition discriminate.
Qed.

Lemma space_width_some (s : string) (k : nat) :
  PyStr.space_width s = S k ->
  exists ws rest,
    In ws PyStr.whitespace /\ s = ws +:+ rest /\ String.length ws = S k.
Proof.
  unfold PyStr.space_width.
  destruct (List.find _ _) as [ws|] eqn:E; [|discriminate].
  apply find_some in E as [Hin Hp]. apply prefix_app in Hp as [post ->].
  eauto.
Qed.

Lemma space_width_none (s : string) :
  PyStr.space_width s = 0 ->
  forall ws, In ws PyStr.whitespace -> String.prefix ws s = false.
Proof.
  unfold PyStr.space_width.
  destruct (List.find _ _) as [ws0|] eqn:E.
  - apply find_some in E as [Hin _]. intros Hl.
    apply whitespace_not_empty in Hin. now destruct ws0.
  - intros _ ws Hin. exact (find_none _ _ E ws Hin).
Qed.

(** Nothing that begins with a white-space character has width 0. *)
Lemma space_width_at_space (ws rest : string) :
  In ws PyStr.whitespace -> PyStr.space_width (ws +:+ rest) <> 0.
Proof.
  intros Hin H. pose proof (space_width_none _ H ws Hin) as Hp.
  assert (String.prefix ws (ws +:+ rest) = true)
    by (apply prefix_app; eauto).
  congruence.
Qed.

Lemma split_go_skip (a : string) :
  forall cur b,
    PyStr.split_go (String.length a) cur (a +:+ b) = PyStr.split_go 0 cur b.
Proof.
  induction a as [|c a IH]; intros cur b; [reflexivity|].
  rewrite string_app_cons. cbn [String.length PyStr.split_go]. apply IH.
Qed.

(** At a white-space character the word being read, if any, ends. *)
Lemma split_go_at_space (c : ascii) (t : string) (k : nat) :
  PyStr.space_width (String c t) = S k ->
  exists ws rest,
    In ws PyStr.whitespace /\ String c t = ws +:+ rest
    /\ forall cur,
         PyStr.split_go 0 cur (String c t)
         = match cur with
           | Some w => String.rev w :: PyStr.split_go 0 None rest
           | None => PyStr.split_go 0 None rest
           end.
Proof.
  intros H. destruct (space_width_some _ _ H) as (ws & rest & Hin & Heq & Hl).
  exists ws, rest. split; [exact Hin|]. split; [exact Heq|].
  destruct ws as [|d ws']; [discriminate|].
  intros cur. cbn [PyStr.split_go]. rewrite H.
  rewrite string_app_cons in Heq. injection Heq as _ Ht.
  cbn [String.length] in Hl. injection Hl as Hk.
  subst k t. rewrite !split_go_skip. reflexivity.
Qed.

Lemma string_rev_not_empty (w : string) :
  w <> EmptyString -> String.rev w <> EmptyString.
Proof.
  destruct w as [|c w]; [congruence|]. intros _.
  rewrite string_rev_cons. now destruct (String.rev w).
Qed.

Lemma clean_word (w s : string) :
  w <> EmptyString -> clean w s -> PyStr.word (String.rev w).
Proof.
  intros Hw Hclean. split; [now apply string_rev_not_empty|].
  intros ws Hin (p & q & Heq).
  assert (Hb : ws +:+ q <> EmptyString).
  { apply whitespace_not_empty in Hin. now destruct ws. }
  pose proof (Hclean p (ws +:+ q) Heq Hb) as H0.
  rewrite string_app_assoc in H0.
  now apply (space_width_at_space ws (q +:+ s)) in Hin.
Qed.

Lemma clean_step (w : string) (c : ascii) (t : string) :
  clean w (String c t) -> PyStr.space_width (String c t) = 0 ->
  clean (String c w) t.
Proof.
  intros Hclean H0 a b Heq Hb. rewrite string_rev_cons in Heq.
  destruct (string_snoc_split _ _ _ _ Heq Hb) as (b0 & -> & Hw).
  rewrite string_app_assoc. change (String c EmptyString +:+ t) with (String c t).
  destruct b0 as [|d b0]; [exact H0|].
  now apply (Hclean a (String d b0)).
Qed.

(** The word being read goes on to the next white space or to the
    end. *)
Lemma split_go_word (s : string) :
  forall w,
    w <> EmptyString -> clean w s ->
    exists w' rest,
      s = w' +:+ rest
      /\ (rest = EmptyString
          \/ exists ws t, In ws PyStr.whitespace /\ rest = ws +:+ t)
      /\ PyStr.word (String.rev w +:+ w')
      /\ PyStr.split_go 0 (Some w) s
         = (String.rev w +:+ w') :: PyStr.split_go 0 None rest.
Proof.
  induction s as [|c t IH]; intros w Hw Hclean.
  - exists EmptyString, EmptyString. rewrite !string_app_nil_r.
    split; [reflexivity|]. split; [now left|].
    split; [now apply (clean_word w EmptyString) | reflexivity].
  - destruct (PyStr.space_width (String c t)) as [|k] eqn:E.
    + destruct (IH (String c w)) as (w' & rest & Ht & Hrest & Hword & Hsplit);
        [discriminate | now apply clean_step |].
      exists (String c w'), rest. rewrite string_rev_cons in *.
      rewrite string_app_assoc in *.
      split; [now rewrite string_app_cons, Ht|]. split; [exact Hrest|].
      split; [exact Hword|].
      cbn [PyStr.split_go]. now rewrite E.
    + destruct (split_go_at_space _ _ _ E) as (ws & rest & Hin & Heq & Hsplit).
      exists EmptyString, (String c t). rewrite !string_app_nil_r.
      split; [reflexivity|]. split; [right; eauto|].
      split; [now apply (clean_word w (String c t))|].
      now rewrite (Hsplit (Some w)), (Hsplit None).
Qed.

Lemma split_go_delimited (n : nat) :
  forall s, String.length s <= n ->
            PyStr.delimited s (PyStr.split_go 0 None s).
Proof.
  induction n as [|n IH]; intros s Hn.
  - destruct s; [constructor | cbn in Hn; lia].
  - destruct s as [|c t]; [constructor|].
    destruct (PyStr.space_width (String c t)) as [|k] eqn:E.
    + assert (Hclean : clean (String c EmptyString) t).
      { intros a b Heq Hb.
        destruct (string_snoc_split EmptyString c a b Heq Hb) as (b0 & -> & Ha).
        destruct a; [|discriminate]. destruct b0; [exact E | discriminate]. }
      destruct (split_go_word t (String c EmptyString)) as
        (w' & rest & Ht & Hrest & Hword & Hsplit); [discriminate | exact Hclean |].
      cbn [PyStr.split_go]. rewrite E, Hsplit.
      change (String.rev (String c EmptyString)) with (String c EmptyString) in *.
      change (String c t) with (String c EmptyString +:+ t).
      rewrite Ht, <- string_app_assoc.
      apply PyStr.delimited_word; [exact Hword | exact Hrest |].
      apply IH. cbn in Hn. rewrite Ht, string_app_length in Hn. lia.
    + destruct (split_go_at_space _ _ _ E) as (ws & rest & Hin & Heq & Hsplit).
      rewrite (Hsplit None), Heq.
      apply PyStr.delimited_space; [exact Hin|].
      apply IH. rewrite Heq, string_app_length in Hn.
      apply whitespace_not_empty in Hin. destruct ws; [congruence|].
      cbn in Hn. lia.
Qed.

(** [s.split()] gives the white-space-delimited words of [s]. *)
Lemma split_delimited (s : string) : PyStr.delimited s (PyStr.split s).
Proof. exact (split_go_delimited (String.length s) s (le_n _)). Qed.

(** The words of a text are determined. *)

Lemma string_app_split (a : string) :
  forall b c d,
    a +:+ b = c +:+ d ->
    (exists x, c = a +:+ x /\ b = x +:+ d)
    \/ (exists x, a = c +:+ x /\ d = x +:+ b).
Proof.
  induction a as [|e a IH]; intros b c d H.
  - left. exists c. split; [reflexivity | exact H].
  - destruct c as [|e' c].
    + right. exists (String e a). split; [reflexivity | symmetry; exact H].
    + rewrite !string_app_cons in H. injection H as -> H.
      destruct (IH _ _ _ H) as [(x & -> & ->)|(x & -> & ->)];
        [left | right]; exists x; split; reflexivity.
Qed.

Lemma string_app_inv_head (a b c : string) : a +:+ b = a +:+ c -> b = c.
Proof.
  induction a as [|e a IH]; intros H; [exact H|].
  rewrite !string_app_cons in H. injection H as H. auto.
Qed.

(** A white-space character is a first byte followed by continuation
    bytes, and none is the beginning of another. *)
Lemma whitespace_shape (ws : string) :
  In ws PyStr.whitespace ->
  exists c t, ws = String c t /\ trailing c = false /\ all_trailing t = true.
Proof.
  assert (H : forallb (fun ws => match ws with
                                 | EmptyString => false
                                 | String c t =>
                                     negb (trailing c) && all_trailing t
                                 end) PyStr.whitespace = true)
    by (vm_compute; reflexivity).
  rewrite forallb_forall in H. intros Hin. specialize (H ws Hin).
  destruct ws as [|c t]; [discriminate|].
  apply andb_prop in H as [H1 H2]. apply negb_true_iff in H1. eauto.
Qed.

Lemma whitespace_prefix_free (ws1 ws2 : string) :
  In ws1 PyStr.whitespace -> In ws2 PyStr.whitespace ->
  String.prefix ws1 ws2 = true -> ws1 = ws2.
Proof.
  assert (H : forallb (fun a =>
                forallb (fun b => implb (String.prefix a b) (String.eqb a b))
                        PyStr.whitespace) PyStr.whitespace = true)
    by (vm_compute; reflexivity).
  rewrite forallb_forall in H. intros H1 H2 Hp.
  specialize (H ws1 H1). rewrite forallb_forall in H. specialize (H ws2 H2).
  rewrite Hp in H. now apply String.eqb_eq.
Qed.

Lemma all_trailing_suffix (x y : string) :
  all_trailing (x +:+ y) = true -> y <> EmptyString ->
  starts_trailing y = true.
Proof.
  induction x as [|c x IH]; intros H Hy.
  - destruct y as [|d y]; [congruence|].
    change (all_trailing (String d y) = true) in H.
    cbn in H. now apply andb_prop in H.
  - rewrite string_app_cons in H. cbn in H. apply andb_prop in H as [_ H]. auto.
Qed.

(** The rest of a white-space character, past its first byte or more,
    begins with a continuation byte. *)
Lemma whitespace_rest (ws x y : string) :
  In ws PyStr.whitespace -> ws = x +:+ y ->
  x <> EmptyString -> y <> EmptyString -> starts_trailing y = true.
Proof.
  intros Hin Heq Hx Hy.
  destruct (whitespace_shape ws Hin) as (c & t & -> & _ & Ht).
  destruct x as [|d x]; [congruence|].
  rewrite string_app_cons in Heq. injection Heq as _ ->.
  now apply (all_trailing_suffix x y).
Qed.

Lemma whitespace_start (ws t : string) :
  In ws PyStr.whitespace -> starts_trailing (ws +:+ t) = false.
Proof.
  intros Hin. destruct (whitespace_shape ws Hin) as (c & t' & -> & Hc & _).
  exact Hc.
Qed.

Lemma starts_trailing_app (y t : string) :
  y <> EmptyString -> starts_trailing (y +:+ t) = starts_trailing y.
Proof. destruct y; [congruence | reflexivity]. Qed.

Lemma whitespace_cancel (ws1 ws2 a b : string) :
  In ws1 PyStr.whitespace -> In ws2 PyStr.whitespace ->
  ws1 +:+ a = ws2 +:+ b -> ws1 = ws2 /\ a = b.
Proof.
  intros H1 H2 H.
  assert (ws1 = ws2).
  { destruct (string_app_split _ _ _ _ H) as [(x & Hx & _)|(x & Hx & _)].
    - apply whitespace_prefix_free; auto. apply prefix_app; eauto.
    - symmetry. apply whitespace_prefix_free; auto. apply prefix_app; eauto. }
  subst ws2. split; [reflexivity|]. now apply string_app_inv_head in H.
Qed.

Lemma word_end_start (rest : string) :
  word_end rest -> starts_trailing rest = false.
Proof.
  intros [->|(ws & t & Hin & ->)]; [reflexivity|].
  now apply whitespace_start.
Qed.

(** A word does not begin like white space. *)
Lemma word_not_space (w rest ws s : string) :
  PyStr.word w -> word_end rest -> In ws PyStr.whitespace ->
  w +:+ rest <> ws +:+ s.
Proof.
  intros [Hw Hclean] Hend Hin H.
  destruct (string_app_split _ _ _ _ H) as [(x & Hx & Hr)|(x & Hx & _)].
  - destruct x as [|d x].
    + rewrite string_app_nil_r in Hx. subst ws.
      apply (Hclean w Hin). exists EmptyString, EmptyString.
      now rewrite string_app_nil_r.
    + assert (Hs : starts_trailing (String d x) = true)
        by (apply (whitespace_rest ws w); auto; discriminate).
      apply word_end_start in Hend. rewrite Hr in Hend.
      rewrite starts_trailing_app in Hend by discriminate. congruence.
  - apply (Hclean ws Hin). exists EmptyString, x. exact Hx.
Qed.

Lemma word_longer (w1 w2 r1 r2 x : string) :
  PyStr.word w2 -> word_end r1 -> word_end r2 ->
  w2 = w1 +:+ x -> r1 = x +:+ r2 -> x = EmptyString.
Proof.
  intros [_ Hclean] Hend1 Hend2 Hw Hr.
  destruct x as [|d x]; [reflexivity|]. exfalso.
  destruct Hend1 as [->|(ws & t & Hin & ->)]; [discriminate|].
  destruct (string_app_split _ _ _ _ Hr) as [(y & Hy & _)|(y & Hy & Ht)].
  - apply (Hclean ws Hin). exists w1, y. now rewrite Hw, Hy.
  - destruct y as [|e y].
    + rewrite string_app_nil_r in Hy. apply (Hclean ws Hin).
      exists w1, EmptyString. now rewrite string_app_nil_r, Hw, Hy.
    + assert (Hs : starts_trailing (String e y) = true)
        by (apply (whitespace_rest ws (String d x)); auto; discriminate).
      apply word_end_start in Hend2. rewrite Ht in Hend2.
      rewrite starts_trailing_app in Hend2 by discriminate. congruence.
Qed.

Lemma word_cancel (w1 w2 r1 r2 : string) :
  PyStr.word w1 -> PyStr.word w2 -> word_end r1 -> word_end r2 ->
  w1 +:+ r1 = w2 +:+ r2 -> w1 = w2 /\ r1 = r2.
Proof.
  intros H1 H2 E1 E2 H.
  destruct (string_app_split _ _ _ _ H) as [(x & Hx & Hr)|(x & Hx & Hr)].
  - assert (x = EmptyString) by (eapply (word_longer w1 w2 r1 r2); eauto).
    subst x. rewrite string_app_nil_r in Hx. now subst.
  - assert (x = EmptyString) by (eapply (word_longer w2 w1 r2 r1); eauto).
    subst x. rewrite string_app_nil_r in Hx. now subst.
Qed.

(** A text has one list of words. *)
Lemma delimited_unique (s : string) (l1 : list string) :
  PyStr.delimited s l1 -> forall l2, PyStr.delimited s l2 -> l1 = l2.
Proof.
  induction 1 as [|ws s0 l Hin Hd IH|w rest l Hw Hend Hd IH]; intros l2 H2.
  - inversion H2 as [|ws' s' l' Hin' Hd' Heq|w' rest' l' Hw' Hend' Hd' Heq].
    + reflexivity.
    + exfalso. apply (whitespace_not_empty ws' Hin').
      destruct ws'; [reflexivity | discriminate].
    + exfalso. destruct Hw' as [Hne _]. apply Hne.
      destruct w'; [reflexivity | discriminate].
  - inversion H2 as [Heq|ws' s' l' Hin' Hd' Heq|w' rest' l' Hw' Hend' Hd' Heq].
    + exfalso. apply (whitespace_not_empty ws Hin).
      destruct ws; [reflexivity | discriminate].
    + destruct (whitespace_cancel _ _ _ _ Hin' Hin Heq) as [_ ->]. auto.
    + exfalso. exact (word_not_space _ _ _ _ Hw' Hend' Hin Heq).
  - inversion H2 as [Heq|ws' s' l' Hin' Hd' Heq|w' rest' l' Hw' Hend' Hd' Heq].
    + exfalso. destruct Hw as [Hne _]. apply Hne.
      destruct w; [reflexivity | discriminate].
    + exfalso. symmetry in Heq. exact (word_not_space _ _ _ _ Hw Hend Hin' Heq).
    + destruct (word_cancel _ _ _ _ Hw' Hw Hend' Hend Heq) as [-> ->].
      f_equal. auto.
Qed.

(** The report on a query of two letters with a no-break space between
    them: the query is two words, here and in the interpreter. *)
Example words_around_a_no_break_space :
  PyStr.split ("a" +:+ PyStr.of_bytes [194; 160] +:+ "b") = ["a"; "b"]
  /\ match fst (_generate_report watson
                     ("a" +:+ PyStr.of_bytes [194; 160] +:+ "b")
                     fixed_analysis ["out"] staged_world) with
     | Ok report => Report.word_count report = 90%Z
     | Raise _ => False
     end.
Proof. split; vm_compute; reflexivity. Qed.

(** C7: whenever [_generate_report] succeeds, the report file holds a
    content with one list of white-space-delimited words, and the
    [word_count] of the returned metadata is the length of that list;
    [report_path] names the file.  The words are those of [delimited],
    which is stated on the text and not on [str.split]: the maximal runs
    free of the white space of Unicode. *)
Theorem C7_word_count_round_trip (self : Orchestrator) (query : string)
    (analysis : Analysis.t) (output_path : Path) (w w' : World)
    (report : Report.t) :
  _generate_report self query analysis output_path w = (Ok report, w') ->
  exists content words,
    Os.read_text (fs w') (report_file self output_path) = Some content
    /\ PyStr.delimited content words
    /\ (forall l, PyStr.delimited content l -> l = words)
    /\ Report.word_count report = Z.of_nat (List.length words)
    /\ Report.report_path report
       = Pathlib.str (report_file self output_path).
Proof.
  intros H.
  apply generate_report_ok in H as (content & f' & Hw & -> & ->).
  exists content, (PyStr.split content).
  split; [now apply write_then_read in Hw|].
  split; [apply split_delimited|].
  split; [|split; reflexivity].
  intros l Hl. exact (delimited_unique _ _ Hl _ (split_delimited content)).
Qed.

Lemma C7_word_count_round_trip_witness :
  exists report w' content words,
    _generate_report watson "What is the meaning of life?"
                     fixed_analysis ["out"] staged_world = (Ok report, w')
    /\ Os.read_text (fs w') (report_file watson ["out"]) = Some content
    /\ PyStr.delimited content words
    /\ (forall l, PyStr.delimited content l -> l = words)
    /\ Report.word_count report = Z.of_nat (List.length words)
    /\ Report.report_path report
       = Pathlib.str (report_file watson ["out"]).
Proof.
  assert (E : returned (_generate_report watson
                          "What is the meaning of life?"
                          fixed_analysis ["out"] staged_world) = true)
    by (vm_compute; reflexivity).
  apply (returned_eta (Report.mk EmptyString EmptyString 0 0)) in E.
  destruct (C7_word_count_round_trip _ _ _ _ _ _ _ E)
    as (content & words & H).
  eexists _, _, content, words. split; [exact E | exact H].
Defined.

(** * Further properties *)

(** ** The class's own run, step by step *)

Lemma generate_report_run (self : Orchestrator) (query : string)
    (analysis : Analysis.t) (output_path : Path) (w : World) :
  _generate_report self query analysis output_path w
  = let w1 := mkWorld (fs w) (handlers w)
                (records w ++ [(INFO, "Generating research report...")])
                (clock w) (S (ticks w)) (urandom w) (draws w) in
    let content := render_report self query analysis (clock w (ticks w)) in
    match Os.write_text (report_file self output_path) content (fs w) with
    | Ok f' =>
        match Utf8.encode_error content with
        | None =>
            (Ok {| Report.report_path :=
                     Pathlib.str (report_file self output_path);
                   Report.summary := "Research report generated successfully";
                   Report.word_count :=
                     Z.of_nat (List.length (PyStr.split content));
                   Report.sections := 6 |}, set_fs f' w1)
        | Some e =>
            (Raise e,
             set_fs (<[report_file self output_path := File EmptyString]>
                       (fs w)) w1)
        end
    | Raise e => (Raise e, w1)
    end.
Proof.
  unfold _generate_report, render_report, _generate_meaning_of_life_report,
    _generate_generic_report, bind, logger_info, emit, now, ret.
  cbn [fs handlers records clock ticks urandom draws].
  destruct (PyStr.contains _ _); rewrite write_utf8_run; cbn [fs];
    (destruct (Os.write_text _ _ _); [destruct (Utf8.encode_error _)|]);
    reflexivity.
Qed.

(** The world the set-up leaves, whether it succeeds or not: the two
    opening records and one reading of the clock. *)
Lemma session_setup_world (self : Orchestrator) (query output_dir : string)
    (w w0 : World) (r : Res Path) :
  session_setup self query output_dir w = (r, w0) ->
  records w0 = records w ++ opening_records self query
  /\ ticks w0 = S (ticks w)
  /\ clock w0 = clock w
  /\ urandom w0 = urandom w
  /\ draws w0 = draws w.
Proof.
  unfold session_setup, create_session_logger, bind, logger_info, emit, now,
    has_handlers, add_handler, ret, on_fs, opening_records.
  cbn [fs handlers records clock ticks urandom draws].
  destruct (bool_decide _); cbn [fs handlers records clock ticks urandom draws].
  - destruct (Os.mkdir_parents _ _); intros H; inversion H; subst; clear H;
      cbn; rewrite <- app_assoc; auto.
  - destruct (Os.mkdir_parents _ _); cbn [fs];
      [|intros H; inversion H; subst; clear H; cbn; rewrite <- app_assoc; auto].
    destruct (Os.open_append _ _); cbn [fs];
      [|intros H; inversion H; subst; clear H; cbn; rewrite <- app_assoc; auto].
    destruct (Os.mkdir_parents _ _); intros H; inversion H; subst; clear H;
      cbn; rewrite <- app_assoc; auto.
Qed.

(** The first three phases of the class only log: the run reaches the
    report phase with the fixed analysis. *)
Lemma run_phases_class (self : Orchestrator) (query : string)
    (output_path : Path) (w : World) :
  run_phases ResearchOrchestrator_phases self query output_path w
  = bind (_generate_report self query fixed_analysis output_path)
      (fun report =>
         timestamp <- now ;;
         logger_info ("Research session " +:+ session_id self
                      +:+ " completed successfully") ;;
         ret (<["session_id" := session_id self]>
              (<["query" := query]>
              (<["timestamp" := Datetime.isoformat timestamp]>
              (<["output_dir" := Pathlib.str output_path]>
              (<["summary" := Report.summary report]>
              (<["report_path" := Report.report_path report]>
              (<["status" := "completed"]> ∅))))))))
      (mkWorld (fs w) (handlers w)
         (((((((records w
           ++ [(INFO, "Phase 1: Analyzing query and planning research")])
           ++ [(INFO, "Analyzing research query...")])
           ++ [(INFO, "Phase 2: Collecting data and sources")])
           ++ [(INFO, "Collecting research data...")])
           ++ [(INFO, "Phase 3: Analyzing and synthesizing findings")])
           ++ [(INFO, "Analyzing collected data...")])
           ++ [(INFO, "Phase 4: Generating research report")])
         (clock w) (ticks w) (urandom w) (draws w)).
Proof. reflexivity. Qed.

(** What the guarded part of [conduct_research] does for the class
    itself: the first three phases cannot fail, and the outcome is
    decided by the writing of the report, which fails when the file
    cannot be opened and when the content cannot be encoded. *)
Lemma class_run (self : Orchestrator) (query : string) (output_path : Path)
    (w0 : World) :
  exists d w',
    try_except (run_phases ResearchOrchestrator_phases self query output_path)
               (failed self query) w0 = (Ok d, w')
    /\ handlers w' = handlers w0
    /\ clock w' = clock w0
    /\ ticks w' = S (S (ticks w0))
    /\ d !! "timestamp" = Some (Datetime.isoformat (clock w0 (S (ticks w0))))
    /\ match Os.write_text (report_file self output_path)
               (render_report self query fixed_analysis (clock w0 (ticks w0)))
               (fs w0) with
       | Ok f' =>
           match Utf8.encode_error
                   (render_report self query fixed_analysis
                                  (clock w0 (ticks w0))) with
           | None =>
               fs w' = f'
               /\ records w'
                  = records w0 ++ phase_records
                    ++ [(INFO, "Research session " +:+ session_id self
                               +:+ " completed successfully")]
               /\ d !! "status" = Some "completed"
               /\ d !! "report_path"
                  = Some (Pathlib.str (report_file self output_path))
               /\ d !! "output_dir" = Some (Pathlib.str output_path)
               /\ d !! "summary"
                  = Some "Research report generated successfully"
           | Some e =>
               fs w'
               = <[report_file self output_path := File EmptyString]> (fs w0)
               /\ records w'
                  = records w0 ++ phase_records
                    ++ [(ERROR, "Research session " +:+ session_id self
                                +:+ " failed: " +:+ exn_str e)]
               /\ d !! "status" = Some "failed"
               /\ d !! "error" = Some (exn_str e)
           end
       | Raise e =>
           fs w' = fs w0
           /\ records w'
              = records w0 ++ phase_records
                ++ [(ERROR, "Research session " +:+ session_id self
                            +:+ " failed: " +:+ exn_str e)]
           /\ d !! "status" = Some "failed"
           /\ d !! "error" = Some (exn_str e)
       end.
Proof.
  unfold try_except. rewrite run_phases_class.
  unfold bind at 1. rewrite generate_report_run.
  cbn [fs handlers records clock ticks urandom draws].
  destruct (Os.write_text _ _ (fs w0)) as [f'|e] eqn:E;
    [destruct (Utf8.encode_error _) as [e|] eqn:Ee|].
  - unfold failed, bind, now, logger_error, emit, ret, set_fs.
    cbn [fs handlers records clock ticks urandom draws].
    eexists _, _. split; [reflexivity|].
    cbn [fs handlers records clock ticks urandom draws].
    split; [reflexivity|]. split; [reflexivity|]. split; [reflexivity|].
    split; [by simplify_map_eq|]. split; [reflexivity|].
    split; [unfold phase_records; now rewrite <- !app_assoc|].
    split; by simplify_map_eq.
  - unfold bind, now, logger_info, emit, ret, set_fs.
    cbn [fs handlers records clock ticks urandom draws].
    eexists _, _. split; [reflexivity|].
    cbn [fs handlers records clock ticks urandom draws].
    split; [reflexivity|]. split; [reflexivity|]. split; [reflexivity|].
    split; [by simplify_map_eq|]. split; [reflexivity|].
    split; [unfold phase_records; now rewrite <- !app_assoc|].
    split; [by simplify_map_eq|]. split; [by simplify_map_eq|].
    split; by simplify_map_eq.
  - unfold failed, bind, now, logger_error, emit, ret.
    cbn [fs handlers records clock ticks urandom draws].
    eexists _, _. split; [reflexivity|].
    cbn [fs handlers records clock ticks urandom draws].
    split; [reflexivity|]. split; [reflexivity|]. split; [reflexivity|].
    split; [by simplify_map_eq|]. split; [reflexivity|].
    split; [unfold phase_records; now rewrite <- !app_assoc|].
    split; by simplify_map_eq.
Qed.

(** ** What a run of the class leaves behind *)

(** X1: for the class itself only the writing of the report can fail,
    and in two ways.  For an orchestrator with a session identifier of
    its own making and an output directory down from the working
    directory, once the set-up has succeeded [conduct_research]
    returns: with status [failed], the error of [open] and an untouched
    file system when the report file cannot be opened; with status
    [failed], the [UnicodeEncodeError] and an empty report file when
    the file is opened and the report (the query has a surrogate) is
    not encoded; with status [completed] and the report in place
    otherwise. *)
Theorem conduct_research_outcome (self : Orchestrator)
    (query output_dir : string) (output_path : Path) (w w0 : World) :
  hex_id (session_id self) = true ->
  local (Pathlib.parse output_dir) = true ->
  session_setup self query output_dir w = (Ok output_path, w0) ->
  let report_path := report_file self output_path in
  let content :=
    render_report self query fixed_analysis (clock w (S (ticks w))) in
  exists d w',
    conduct_research self query output_dir w = (Ok d, w')
    /\ match Os.open_write report_path (fs w0) with
       | Raise e =>
           d !! "status" = Some "failed"
           /\ d !! "error" = Some (exn_str e)
           /\ fs w' = fs w0
       | Ok emptied =>
           match Utf8.encode_error content with
           | Some e =>
               d !! "status" = Some "failed"
               /\ d !! "error" = Some (exn_str e)
               /\ fs w' = emptied
           | None =>
               d !! "status" = Some "completed"
               /\ Os.write_text report_path content (fs w0) = Ok (fs w')
           end
       end.
Proof.
  intros _ _ Hsetup report_path content.
  destruct (session_setup_world _ _ _ _ _ _ Hsetup) as (_ & Ht & Hc & _).
  destruct (class_run self query output_path w0)
    as (d & w' & Hrun & _ & _ & _ & _ & Hcase).
  exists d, w'. split.
  - unfold conduct_research, conduct_research_of.
    now rewrite (bind_ok _ _ _ _ _ Hsetup).
  - rewrite Hc, Ht in Hcase. fold report_path content in Hcase.
    unfold Os.open_write.
    rewrite (write_text_any report_path content EmptyString).
    destruct (Os.write_text report_path content (fs w0)) as [f'|e].
    + destruct (Utf8.encode_error content) as [e|].
      * destruct Hcase as (Hfs & _ & Hst & Herr). auto.
      * destruct Hcase as (Hfs & _ & Hst & _). split; [exact Hst|].
        now rewrite Hfs.
    + destruct Hcase as (Hfs & _ & Hst & Herr). auto.
Qed.

Lemma conduct_research_outcome_witness :
  exists d w',
    conduct_research watson "Latest developments in AI research"
      "research/output" fresh_world = (Ok d, w')
    /\ d !! "status" = Some "completed".
Proof.
  pose (r0 := session_setup watson "Latest developments in AI research"
                "research/output" fresh_world).
  assert (H0 : returned r0 = true) by (vm_compute; reflexivity).
  apply (returned_eta (Pathlib.parse "research/output")) in H0.
  destruct (conduct_research_outcome watson _ "research/output" _ _ _
              eq_refl eq_refl H0) as (d & w' & Hcall & Hcase).
  exists d, w'. split; [exact Hcall|].
  assert (Hw : returned
                 (on_fs (Os.open_write
                           (report_file watson
                              (value_of (Pathlib.parse "research/output") r0)))
                        (snd r0)) = true)
    by (vm_compute; reflexivity).
  assert (He : Utf8.encode_error
                 (render_report watson "Latest developments in AI research"
                    fixed_analysis
                    (clock fresh_world (S (ticks fresh_world)))) = None)
    by (vm_compute; reflexivity).
  unfold returned, on_fs in Hw. rewrite He in Hcase.
  destruct (Os.open_write _ (fs (snd r0))) as [f'|e].
  - exact (proj1 Hcase).
  - discriminate Hw.
Defined.

(** A query with a lone surrogate, U+D800: the run fails at [f.write],
    and the report file is there and empty. *)
Example query_with_a_surrogate :
  let r := conduct_research watson ("a" +:+ PyStr.of_bytes [237; 160; 128])
             "out" fresh_world in
  entry "status" r = Some "failed"
  /\ entry "error" r
     = Some "'utf-8' codec can't encode character '\ud800' in position 20: surrogates not allowed"
  /\ Os.read_text (fs (snd r)) ["out"; "research_report_abcd1234.md"]
     = Some EmptyString.
Proof.
  cbv zeta. split; [vm_compute; reflexivity|].
  split; vm_compute; reflexivity.
Qed.

(** X2: when a run of the class completes, the report file, which lies
    at [output_dir / research_report_<session_id>.md], holds exactly the
    report rendered for the query at the second reading of the clock,
    [report_path] is that path and [output_dir] the normalised output
    path. *)
Theorem completed_run_report (self : Orchestrator)
    (query output_dir : string) (w w' : World) (d : gmap string string) :
  conduct_research self query output_dir w = (Ok d, w') ->
  d !! "status" = Some "completed" ->
  Os.read_text (fs w') (report_file self (Pathlib.parse output_dir))
  = Some (render_report self query fixed_analysis (clock w (S (ticks w))))
  /\ d !! "report_path"
     = Some (Pathlib.str (report_file self (Pathlib.parse output_dir)))
  /\ d !! "output_dir" = Some (Pathlib.str (Pathlib.parse output_dir))
  /\ d !! "summary" = Some "Research report generated successfully".
Proof.
  unfold conduct_research, conduct_research_of. intros H Hst.
  apply bind_ok_inv in H as (output_path & w0 & Hsetup & Hrun).
  destruct (session_setup_world _ _ _ _ _ _ Hsetup) as (_ & Ht & Hc & _).
  apply session_setup_ok in Hsetup as (-> & _).
  destruct (class_run self query (Pathlib.parse output_dir) w0)
    as (d1 & w1 & Hrun1 & _ & _ & _ & _ & Hcase).
  rewrite Hrun in Hrun1. inversion Hrun1; subst d1 w1; clear Hrun1.
  rewrite Hc, Ht in Hcase.
  destruct (Os.write_text _ _ (fs w0)) as [f'|e] eqn:E;
    [destruct (Utf8.encode_error _) as [e|]|].
  - destruct Hcase as (_ & _ & Hst' & _). congruence.
  - destruct Hcase as (Hfs & _ & _ & Hp & Ho & Hs).
    rewrite Hfs. split; [now apply write_then_read in E|]. auto.
  - destruct Hcase as (_ & _ & Hst' & _). congruence.
Qed.

Lemma completed_run_report_witness :
  exists d w',
    conduct_research watson "What is the meaning of life?"
      "research/output" fresh_world = (Ok d, w')
    /\ Os.read_text (fs w')
         (report_file watson (Pathlib.parse "research/output"))
       = Some (render_report watson "What is the meaning of life?"
                 fixed_analysis (clock fresh_world 1))
    /\ d !! "report_path"
       = Some "research/output/research_report_abcd1234.md".
Proof.
  pose (r := conduct_research watson "What is the meaning of life?"
               "research/output" fresh_world).
  assert (H : returned r = true) by (vm_compute; reflexivity).
  assert (Hst : entry "status" r = Some "completed")
    by (vm_compute; reflexivity).
  apply (returned_eta ∅) in H.
  unfold entry in Hst. rewrite H in Hst. cbn [fst] in Hst.
  destruct (completed_run_report _ _ _ _ _ _ H Hst) as (Hread & Hpath & _).
  eexists _, _. split; [exact H|]. split; [exact Hread|].
  rewrite Hpath. vm_compute. reflexivity.
Defined.

(** X3: whenever a run of the class returns, all four phases were
    entered, in order: the log holds the two opening records, the eight
    records of the phases and one closing record, which tells a
    completed run from a failed one. *)
Theorem run_log_order (self : Orchestrator) (query output_dir : string)
    (w w' : World) (d : gmap string string) :
  conduct_research self query output_dir w = (Ok d, w') ->
  exists closing,
    records w'
    = records w ++ opening_records self query ++ phase_records ++ [closing]
    /\ (d !! "status" = Some "completed" ->
        closing = (INFO, "Research session " +:+ session_id self
                         +:+ " completed successfully"))
    /\ (d !! "status" = Some "failed" ->
        exists message,
          d !! "error" = Some message
          /\ closing = (ERROR, "Research session " +:+ session_id self
                               +:+ " failed: " +:+ message)).
Proof.
  unfold conduct_research, conduct_research_of. intros H.
  apply bind_ok_inv in H as (output_path & w0 & Hsetup & Hrun).
  destruct (session_setup_world _ _ _ _ _ _ Hsetup) as (Hrec & _).
  destruct (class_run self query output_path w0)
    as (d1 & w1 & Hrun1 & _ & _ & _ & _ & Hcase).
  rewrite Hrun in Hrun1. inversion Hrun1; subst d1 w1; clear Hrun1.
  destruct (Os.write_text _ _ (fs w0)) as [f'|e];
    [destruct (Utf8.encode_error _) as [e|]|].
  - destruct Hcase as (_ & Hr & Hst & Herr). eexists. split.
    + rewrite Hr, Hrec, <- !app_assoc. reflexivity.
    + split; [congruence|]. intros _. exists (exn_str e).
      split; [exact Herr | reflexivity].
  - destruct Hcase as (_ & Hr & Hst & _). eexists. split.
    + rewrite Hr, Hrec, <- !app_assoc. reflexivity.
    + split; [reflexivity | congruence].
  - destruct Hcase as (_ & Hr & Hst & Herr). eexists. split.
    + rewrite Hr, Hrec, <- !app_assoc. reflexivity.
    + split; [congruence|]. intros _. exists (exn_str e).
      split; [exact Herr | reflexivity].
Qed.

Lemma run_log_order_witness :
  exists d w' closing,
    conduct_research watson "tech" "out" blocked_world = (Ok d, w')
    /\ records w'
       = records blocked_world ++ opening_records watson "tech"
         ++ phase_records ++ [closing].
Proof.
  pose (r := conduct_research watson "tech" "out" blocked_world).
  assert (H : returned r = true) by (vm_compute; reflexivity).
  apply (returned_eta ∅) in H.
  destruct (run_log_order _ _ _ _ _ _ H) as (closing & Hrec & _).
  eexists _, _, closing. split; [exact H | exact Hrec].
Defined.

(** ** What a run never touches *)

Lemma only_adds_keeps_files (allowed : Path -> Prop) (spared : Path)
    (f f' : FS) :
  only_adds allowed f f' -> keeps_files spared f f'.
Proof.
  intros H p content _. unfold Os.read_text.
  destruct (H p) as [->|[-> _]]; [auto | discriminate].
Qed.

Lemma keeps_files_refl (spared : Path) (f : FS) : keeps_files spared f f.
Proof. now intros p content _. Qed.

Lemma keeps_files_trans (spared : Path) (f1 f2 f3 : FS) :
  keeps_files spared f1 f2 -> keeps_files spared f2 f3 ->
  keeps_files spared f1 f3.
Proof. intros H12 H23 p content Hp H. auto. Qed.

Lemma keeps_dirs_trans (f1 f2 f3 : FS) :
  keeps_dirs f1 f2 -> keeps_dirs f2 f3 -> keeps_dirs f1 f3.
Proof. intros H12 H23 p H. auto. Qed.

Lemma write_text_keeps_files (p : Path) (content : string) (f f' : FS) :
  Os.write_text p content f = Ok f' -> keeps_files p f f'.
Proof.
  unfold Os.write_text. intros H q c Hq Hread.
  assert (Hins : Os.read_text (<[p := File content]> f) q = Some c).
  { unfold Os.read_text. rewrite node_at_insert_ne; [exact Hread | congruence]. }
  destruct (Os.node_at f p) as [[|c0]|].
  - discriminate.
  - now inversion H; subst.
  - destruct (Os.parent_error f p); [discriminate|]. now inversion H; subst.
Qed.

(** The set-up, whether it succeeds or raises, only adds directories and
    empty session logs. *)
Lemma session_setup_adds (self : Orchestrator) (query output_dir : string)
    (w w0 : World) (r : Res Path) :
  session_setup self query output_dir w = (r, w0) ->
  only_adds (session_log_of (Pathlib.parse output_dir)) (fs w) (fs w0).
Proof.
  unfold session_setup, create_session_logger, bind, logger_info, emit, now,
    has_handlers, add_handler, ret, on_fs.
  cbn [fs handlers records clock ticks urandom draws].
  destruct (bool_decide _); cbn [fs handlers records clock ticks urandom draws].
  - destruct (Os.mkdir_parents _ _) as [f1|e1] eqn:E1;
      intros H; inversion H; subst; clear H; cbn [fs set_fs].
    + eapply mkdir_parents_only_adds. exact E1.
    + apply only_adds_refl.
  - destruct (Os.mkdir_parents _ (fs w)) as [f1|e1] eqn:E1; cbn [fs];
      [|intros H; inversion H; subst; apply only_adds_refl].
    assert (H1 : only_adds (session_log_of (Pathlib.parse output_dir))
                           (fs w) f1)
      by (eapply mkdir_parents_only_adds; exact E1).
    unfold set_fs; cbn [fs handlers records clock ticks urandom draws].
    destruct (Os.open_append _ f1) as [f2|e2] eqn:E2; cbn [fs];
      [|intros H; inversion H; subst; exact H1].
    assert (H2 : only_adds (session_log_of (Pathlib.parse output_dir))
                           (fs w) f2).
    { eapply only_adds_trans; [exact H1|].
      eapply only_adds_weaken; [|eapply open_append_only_adds; exact E2].
      intros q ->. eexists. split; [|reflexivity]. reflexivity. }
    unfold set_fs; cbn [fs handlers records clock ticks urandom draws].
    destruct (Os.mkdir_parents _ f2) as [f3|e3] eqn:E3;
      intros H; inversion H; subst; clear H; cbn [fs set_fs].
    + eapply only_adds_trans; [exact H2|].
      eapply mkdir_parents_only_adds. exact E3.
    + exact H2.
Qed.

(** What a run keeps, on every path of the model. *)
Lemma conduct_research_keeps (self : Orchestrator)
    (query output_dir : string) (w : World) :
  keeps_files (report_file self (Pathlib.parse output_dir)) (fs w)
              (fs (snd (conduct_research self query output_dir w)))
  /\ keeps_dirs (fs w) (fs (snd (conduct_research self query output_dir w))).
Proof.
  unfold conduct_research, conduct_research_of, bind.
  destruct (session_setup self query output_dir w) as [[output_path|e] w0] eqn:E.
  - pose proof (session_setup_adds _ _ _ _ _ _ E) as Hadds.
    apply session_setup_ok in E as (-> & _).
    destruct (class_run self query (Pathlib.parse output_dir) w0)
      as (d & w' & -> & _ & _ & _ & _ & Hcase). cbn [snd].
    destruct (Os.write_text _ _ (fs w0)) as [f'|e] eqn:Ew;
      [destruct (Utf8.encode_error _) as [e|]|].
    + destruct Hcase as (-> & _). apply write_text_emptied in Ew. split.
      * eapply keeps_files_trans;
          [eapply only_adds_keeps_files; exact Hadds
          |eapply write_text_keeps_files; exact Ew].
      * eapply keeps_dirs_trans;
          [eapply only_adds_keeps_dirs; exact Hadds
          |eapply write_text_keeps_dirs; exact Ew].
    + destruct Hcase as (-> & _). split.
      * eapply keeps_files_trans;
          [eapply only_adds_keeps_files; exact Hadds
          |eapply write_text_keeps_files; exact Ew].
      * eapply keeps_dirs_trans;
          [eapply only_adds_keeps_dirs; exact Hadds
          |eapply write_text_keeps_dirs; exact Ew].
    + destruct Hcase as (-> & _). split.
      * eapply only_adds_keeps_files; exact Hadds.
      * eapply only_adds_keeps_dirs; exact Hadds.
  - cbn [snd]. pose proof (session_setup_adds _ _ _ _ _ _ E) as Hadds. split.
    + eapply only_adds_keeps_files; exact Hadds.
    + eapply only_adds_keeps_dirs; exact Hadds.
Qed.

(** X4: whatever the outcome of [conduct_research] on the class
    (completed, failed or raised), for an orchestrator with a session
    identifier of its own making and an output directory down from the
    working directory: every regular file down from the working
    directory other than the report file is still there with its
    content, and every directory there is still a directory.  A run
    overwrites its own report at most. *)
Theorem conduct_research_frame (self : Orchestrator)
    (query output_dir : string) (w : World) :
  hex_id (session_id self) = true ->
  local (Pathlib.parse output_dir) = true ->
  let w' := snd (conduct_research self query output_dir w) in
  (forall p content,
     local p = true ->
     p <> report_file self (Pathlib.parse output_dir) ->
     Os.read_text (fs w) p = Some content ->
     Os.read_text (fs w') p = Some content)
  /\ (forall q,
        local q = true ->
        Os.is_dir (fs w) q = true -> Os.is_dir (fs w') q = true).
Proof.
  intros _ _ w'.
  destruct (conduct_research_keeps self query output_dir w) as [Hf Hd].
  split.
  - intros p content _ Hp Hread. exact (Hf p content Hp Hread).
  - intros q _ Hq. exact (Hd q Hq).
Qed.

(** A run on a file system that holds a note and an old report. *)
Lemma conduct_research_frame_witness :
  let w := set_fs (<[ ["out"; "research_report_abcd1234.md"] := File "old" ]>
                   (<[ ["out"; "notes.txt"] := File "mine" ]>
                    (<[ ["out"] := Dir ]> ∅))) fresh_world in
  Os.read_text (fs (snd (conduct_research watson "tech" "out" w)))
               ["out"; "notes.txt"] = Some "mine"
  /\ Os.is_dir (fs (snd (conduct_research watson "tech" "out" w))) ["out"]
     = true.
Proof.
  intros w.
  destruct (conduct_research_frame watson "tech" "out" w eq_refl eq_refl)
    as [Hf Hd].
  split.
  - apply Hf; [reflexivity | discriminate | reflexivity].
  - apply Hd; reflexivity.
Defined.

(** ** A set-up that fails *)

Lemma parent_of_extension (p : Path) (q : list string) (x : string) :
  p <> [] -> Pathlib.parent (p ++ q ++ [x]) = p ++ q.
Proof.
  intros Hp. rewrite app_assoc. unfold Pathlib.parent.
  destruct (p ++ q) as [|a l] eqn:E.
  - destruct p; [congruence | discriminate].
  - cbn [app]. destruct (l ++ [x]) as [|b l'] eqn:E'.
    + destruct l; discriminate.
    + rewrite <- E'. change (a :: l ++ [x]) with ((a :: l) ++ [x]).
      apply removelast_last.
Qed.

Lemma node_at_below (f : FS) (p q : Path) :
  p <> [] -> q <> [] -> childless f p -> Os.node_at f (p ++ q) = None.
Proof.
  intros Hp Hq Hc. unfold Os.node_at.
  replace (Pathlib.is_anchor (p ++ q)) with false; [now apply Hc|].
  destruct p as [|a p]; [congruence|].
  destruct p, q; try congruence; reflexivity.
Qed.

(** Under a regular file no directory can be made. *)
Lemma mkdir_parents_blocked (f : FS) (p : Path) (content : string)
    (q : list string) :
  Os.node_at f p = Some (File content) -> childless f p ->
  exists e, Os.mkdir_parents (p ++ q) f = Raise e.
Proof.
  intros Hfile Hc.
  assert (Hp : p <> []) by (intros ->; discriminate).
  unfold Os.mkdir_parents.
  induction q as [|x q IH] using rev_ind.
  - rewrite app_nil_r.
    assert (Hm : Os.mkdir p f = Raise (FileExistsError (Pathlib.str p)))
      by (unfold Os.mkdir; now rewrite Hfile).
    assert (Hd : Os.is_dir f p = false)
      by (unfold Os.is_dir; now rewrite Hfile).
    destruct (rev p) as [|y rp] eqn:E; cbn [Os.mkdir_parents_rev];
      rewrite <- E, rev_involutive, Hm, Hd; eauto.
  - rewrite app_assoc, rev_app_distr. cbn [rev app Os.mkdir_parents_rev].
    rewrite rev_involutive, <- app_assoc.
    assert (Hnone : Os.node_at f (p ++ q ++ [x]) = None).
    { apply node_at_below; auto. now destruct q. }
    assert (Hd : Os.is_dir f (p ++ q ++ [x]) = false)
      by (unfold Os.is_dir; now rewrite Hnone).
    unfold Os.mkdir at 1. rewrite Hnone. unfold Os.parent_error.
    rewrite parent_of_extension by exact Hp.
    destruct q as [|y q'] using rev_ind.
    + rewrite app_nil_r, Hfile, Hd. eauto.
    + clear IHq'.
      rewrite (node_at_below f p (q' ++ [y])); auto; [|now destruct q'].
      destruct IH as [e ->]. eauto.
Qed.

Lemma session_setup_blocked (self : Orchestrator) (query output_dir : string)
    (content : string) (w : World) :
  Os.node_at (fs w) (Pathlib.parse output_dir) = Some (File content) ->
  childless (fs w) (Pathlib.parse output_dir) ->
  exists e w0,
    session_setup self query output_dir w = (Raise e, w0) /\ fs w0 = fs w.
Proof.
  intros Hfile Hc.
  assert (Hp : Pathlib.parse output_dir <> []) by (intros E; now rewrite E in Hfile).
  unfold session_setup, create_session_logger, bind, logger_info, emit, now,
    has_handlers, add_handler, ret, on_fs.
  cbn [fs handlers records clock ticks urandom draws].
  destruct (bool_decide _); cbn [fs handlers records clock ticks urandom draws].
  - destruct (mkdir_parents_blocked _ _ _ [] Hfile Hc) as [e He].
    rewrite app_nil_r in He. rewrite He. eauto.
  - destruct (log_file_shape (Pathlib.parse output_dir)
                ("session_" +:+ session_id self +:+ "_"
                 +:+ Datetime.strftime_compact (clock w (ticks w)) +:+ ".log")
                eq_refl) as [rest ->].
    destruct (exists_last (l := "logs" :: rest)) as (q & x & ->);
      [discriminate|].
    rewrite parent_of_extension by exact Hp.
    destruct (mkdir_parents_blocked _ _ _ q Hfile Hc) as [e ->]. eauto.
Qed.

(** X5: when the output path is taken by a regular file,
    [conduct_research] (of the class or a subclass) does not return a
    failure dictionary: the set-up, which runs outside the [try] block,
    raises; no phase is entered and the file system is left as it was. *)
Theorem output_dir_is_a_file (cls : Phases) (self : Orchestrator)
    (query output_dir : string) (content : string) (w : World) :
  Os.node_at (fs w) (Pathlib.parse output_dir) = Some (File content) ->
  childless (fs w) (Pathlib.parse output_dir) ->
  exists e w',
    conduct_research_of cls self query output_dir w = (Raise e, w')
    /\ fs w' = fs w
    /\ records w' = records w ++ opening_records self query.
Proof.
  intros Hfile Hc.
  destruct (session_setup_blocked self query output_dir content w Hfile Hc)
    as (e & w0 & Hsetup & Hfs).
  exists e, w0. split.
  - unfold conduct_research_of. now rewrite (bind_raise _ _ _ _ _ Hsetup).
  - split; [exact Hfs|]. now apply session_setup_world in Hsetup.
Qed.

Lemma cluttered_childless : childless (fs cluttered_world) ["out"].
Proof.
  intros q Hq. cbn. apply lookup_insert_None. split; [apply lookup_empty|].
  destruct q; [congruence | discriminate].
Qed.

Lemma output_dir_is_a_file_witness :
  exists e w',
    conduct_research watson "tech" "out" cluttered_world = (Raise e, w')
    /\ fs w' = fs cluttered_world.
Proof.
  destruct (output_dir_is_a_file ResearchOrchestrator_phases watson "tech"
              "out" "notes" cluttered_world)
    as (e & w' & Hcall & Hfs & _).
  - vm_compute. reflexivity.
  - exact cluttered_childless.
  - exists e, w'. split; [exact Hcall | exact Hfs].
Defined.

(** ** The session logger *)

Lemma create_session_logger_run (sid output_dir : string) (w : World) :
  ("baker_street.session." +:+ sid) ∈ handlers w ->
  create_session_logger sid output_dir w
  = (Ok ("baker_street.session." +:+ sid),
     mkWorld (fs w) (handlers w) (records w) (clock w) (S (ticks w))
             (urandom w) (draws w)).
Proof.
  intros Hin. unfold create_session_logger, bind, now, has_handlers, ret.
  cbn [fs handlers records clock ticks urandom draws].
  now rewrite (bool_decide_eq_true_2 _ Hin).
Qed.

(** X6: a session has one log file: once [create_session_logger] has
    succeeded for a session identifier, every later call for that
    identifier, also with another output directory and at a later time,
    returns the same logger, creates no directory and no file and
    leaves the logging registry as it is. *)
Theorem session_logger_once (sid dir1 dir2 name : string) (w w1 : World) :
  create_session_logger sid dir1 w = (Ok name, w1) ->
  exists w2,
    create_session_logger sid dir2 w1 = (Ok name, w2)
    /\ fs w2 = fs w1
    /\ handlers w2 = handlers w1
    /\ ticks w2 = S (ticks w1).
Proof.
  intros H. apply create_session_logger_ok in H as (-> & Hin & _).
  rewrite (create_session_logger_run _ dir2 _ Hin). eexists. repeat split.
Qed.

Lemma session_logger_once_witness :
  exists name w1 w2,
    create_session_logger "abcd1234" "research/output" fresh_world
    = (Ok name, w1)
    /\ create_session_logger "abcd1234" "elsewhere" w1 = (Ok name, w2)
    /\ fs w2 = fs w1.
Proof.
  pose (r := create_session_logger "abcd1234" "research/output" fresh_world).
  assert (H : returned r = true) by (vm_compute; reflexivity).
  apply (returned_eta EmptyString) in H.
  unfold r in H.
  destruct (session_logger_once _ _ "elsewhere" _ _ _ H) as (w2 & H2 & Hfs & _).
  eexists _, _, w2. split; [exact H|]. split; [exact H2 | exact Hfs].
Defined.

Lemma open_append_is_file (p : Path) (f f' : FS) :
  Os.open_append p f = Ok f' -> exists content, Os.read_text f' p = Some content.
Proof.
  unfold Os.open_append, Os.read_text. intros H.
  destruct (Os.node_at f p) as [[|c]|] eqn:E.
  - discriminate.
  - inversion H; subst. rewrite E. eauto.
  - destruct (Os.parent_error f p); [discriminate|]. inversion H; subst.
    unfold Os.node_at in *. destruct (Pathlib.is_anchor p); [discriminate|].
    rewrite lookup_insert_eq. eauto.
Qed.

(** X7: the first successful [create_session_logger] of a session
    leaves a regular file at
    [output_dir / "logs" / session_<id>_<timestamp>.log], the timestamp
    being the reading of the clock at the call, in a [logs] directory
    that exists, and registers the logger
    [baker_street.session.<id>]. *)
Theorem session_logger_first (sid output_dir name : string) (w w1 : World) :
  create_session_logger sid output_dir w = (Ok name, w1) ->
  ("baker_street.session." +:+ sid) ∉ handlers w ->
  name = "baker_street.session." +:+ sid
  /\ name ∈ handlers w1
  /\ (exists content,
        Os.read_text (fs w1)
          (session_log_file sid output_dir (clock w (ticks w)))
        = Some content)
  /\ exists rest,
       session_log_file sid output_dir (clock w (ticks w))
       = Pathlib.parse output_dir ++ "logs" :: rest.
Proof.
  intros H Hnot.
  destruct (create_session_logger_ok _ _ _ _ _ H) as (Hname & Hin & _).
  split; [exact Hname|]. split; [exact Hin|]. split.
  - revert H.
    unfold create_session_logger, bind, now, has_handlers, add_handler, ret,
      on_fs, session_log_file.
    cbn [fs handlers records clock ticks urandom draws].
    rewrite (bool_decide_eq_false_2 _ Hnot).
    cbn [fs handlers records clock ticks urandom draws].
    destruct (Os.mkdir_parents _ (fs w)) as [f1|e1]; [|discriminate].
    unfold set_fs; cbn [fs handlers records clock ticks urandom draws].
    destruct (Os.open_append _ f1) as [f2|e2] eqn:E2; [|discriminate].
    intros H. inversion H; subst; clear H. cbn [fs].
    now apply open_append_is_file in E2.
  - unfold session_log_file. now apply log_file_shape.
Qed.

Lemma session_logger_first_witness :
  exists name w1 content,
    create_session_logger "abcd1234" "research/output" fresh_world
    = (Ok name, w1)
    /\ Os.read_text (fs w1)
         ["research"; "output"; "logs"; "session_abcd1234_20240115_103000.log"]
       = Some content.
Proof.
  pose (r := create_session_logger "abcd1234" "research/output" fresh_world).
  assert (H : returned r = true) by (vm_compute; reflexivity).
  apply (returned_eta EmptyString) in H.
  unfold r in H.
  destruct (session_logger_first _ _ _ _ _ H) as (_ & _ & (content & Hread) & _).
  - vm_compute. set_solver.
  - eexists _, _, content. split; [exact H|].
    assert (Hp : session_log_file "abcd1234" "research/output"
                   (clock fresh_world (ticks fresh_world))
                 = ["research"; "output"; "logs";
                    "session_abcd1234_20240115_103000.log"])
      by (vm_compute; reflexivity).
    now rewrite Hp in Hread.
Defined.

(** ** Categories and concepts together *)

Lemma substring_of_trans (a b c : string) :
  PyStr.substring_of a b -> PyStr.substring_of b c -> PyStr.substring_of a c.
Proof.
  intros (p1 & s1 & ->) (p2 & s2 & ->).
  exists (p2 +:+ p1), (s1 +:+ s2). now rewrite !string_app_assoc.
Qed.

(** Finds an element in a list that is written out. *)
Ltac in_list :=
  unfold concept_keywords, philosophical_words, technical_words,
    historical_words;
  cbn [In]; repeat first [left; reflexivity | right].

(** A keyword of a concept that occurs in the query brings the concept
    in. *)
Lemma keyword_brings_concept (query word c : string) (kws : list string) :
  In (c, kws) concept_keywords -> In word kws ->
  PyStr.substring_of word (PyStr.lower query) ->
  In c (_extract_key_concepts query).
Proof.
  intros Hin Hw Hsub. apply (in_key_concepts query c kws Hin).
  now exists word.
Qed.

Lemma research_type_cases (query : string) :
  (PyStr.any_in philosophical_words (PyStr.lower query) = true
   /\ _determine_research_type query = "philosophical")
  \/ (PyStr.any_in technical_words (PyStr.lower query) = true
      /\ _determine_research_type query = "technical")
  \/ _determine_research_type query = "historical"
  \/ _determine_research_type query = "general".
Proof.
  unfold _determine_research_type.
  destruct (PyStr.any_in philosophical_words _); [now left|].
  destruct (PyStr.any_in technical_words _); [right; now left|].
  destruct (PyStr.any_in historical_words _); right; right; auto.
Qed.

Lemma philosophical_concepts (query : string) :
  PyStr.any_in philosophical_words (PyStr.lower query) = true ->
  In "meaning" (_extract_key_concepts query)
  \/ In "life" (_extract_key_concepts query)
  \/ In "philosophy" (_extract_key_concepts query).
Proof.
  intros H. apply any_in_spec in H as (word & Hw & Hsub).
  unfold philosophical_words in Hw. cbn [In] in Hw.
  destruct Hw as [<-|[<-|[<-|[<-|[]]]]].
  - left. eapply keyword_brings_concept; [| |exact Hsub]; in_list.
  - left. eapply keyword_brings_concept; [| |exact Hsub]; in_list.
  - right. right. eapply keyword_brings_concept; [| |exact Hsub]; in_list.
  - right. left. eapply keyword_brings_concept; [| |exact Hsub]; in_list.
Qed.

Lemma technical_concepts (query : string) :
  PyStr.any_in technical_words (PyStr.lower query) = true ->
  In "science" (_extract_key_concepts query)
  \/ In "technology" (_extract_key_concepts query).
Proof.
  intros H. apply any_in_spec in H as (word & Hw & Hsub).
  unfold technical_words in Hw. cbn [In] in Hw.
  destruct Hw as [<-|[<-|[<-|[]]]].
  - right. eapply keyword_brings_concept; [| |exact Hsub]; in_list.
  - left. eapply keyword_brings_concept; [| |exact Hsub]; in_list.
  - left. eapply keyword_brings_concept; [| |exact Hsub]; in_list.
Qed.

(** X8: the category and the concepts of a plan agree: a philosophical
    query has one of the concepts meaning, life, philosophy; a technical
    one has science or technology; so the default concept list
    [["general"]] goes with the categories historical and general
    only. *)
Theorem category_and_concepts (query : string) :
  (_determine_research_type query = "philosophical" ->
   In "meaning" (_extract_key_concepts query)
   \/ In "life" (_extract_key_concepts query)
   \/ In "philosophy" (_extract_key_concepts query))
  /\ (_determine_research_type query = "technical" ->
      In "science" (_extract_key_concepts query)
      \/ In "technology" (_extract_key_concepts query))
  /\ (_extract_key_concepts query = ["general"] ->
      _determine_research_type query = "historical"
      \/ _determine_research_type query = "general").
Proof.
  destruct (research_type_cases query) as [[Hp Ht]|[[Hp Ht]|H]].
  - split; [intros _; now apply philosophical_concepts|].
    split; [rewrite Ht; discriminate|].
    intros Hg. apply philosophical_concepts in Hp. rewrite Hg in Hp.
    cbn in Hp. intuition discriminate.
  - split; [rewrite Ht; discriminate|].
    split; [intros _; now apply technical_concepts|].
    intros Hg. apply technical_concepts in Hp. rewrite Hg in Hp.
    cbn in Hp. intuition discriminate.
  - split; [destruct H as [-> | ->]; discriminate|].
    split; [destruct H as [-> | ->]; discriminate|]. auto.
Qed.

(** X9: a query that selects the featured template (it contains
    "meaning of life", in any case) is always planned as philosophical,
    with the concepts meaning and life, and its report is the text of
    the featured template. *)
Theorem featured_query_plan (self : Orchestrator) (query : string)
    (analysis : Analysis.t) (t : datetime) :
  PyStr.contains "meaning of life" (PyStr.lower query) = true ->
  _determine_research_type query = "philosophical"
  /\ In "meaning" (_extract_key_concepts query)
  /\ In "life" (_extract_key_concepts query)
  /\ render_report self query analysis t
     = unlines (meaning_of_life_lines self (Datetime.strftime_human t)
                                      analysis).
Proof.
  intros H. pose proof H as Hsub. apply contains_spec in Hsub.
  assert (Hm : PyStr.substring_of "meaning" (PyStr.lower query))
    by (eapply substring_of_trans; [|exact Hsub];
        now exists EmptyString, " of life").
  assert (Hl : PyStr.substring_of "life" (PyStr.lower query))
    by (eapply substring_of_trans; [|exact Hsub];
        now exists "meaning of ", EmptyString).
  split.
  - unfold _determine_research_type.
    replace (PyStr.any_in philosophical_words (PyStr.lower query)) with true;
      [reflexivity|].
    symmetry. apply any_in_spec. exists "meaning". split; [in_list | exact Hm].
  - split; [eapply keyword_brings_concept; [| |exact Hm]; in_list|].
    split; [eapply keyword_brings_concept; [| |exact Hl]; in_list|].
    unfold render_report. now rewrite H.
Qed.

Lemma featured_query_plan_witness :
  _determine_research_type "On the MEANING of Life" = "philosophical"
  /\ In "meaning" (_extract_key_concepts "On the MEANING of Life")
  /\ In "life" (_extract_key_concepts "On the MEANING of Life").
Proof.
  destruct (featured_query_plan watson "On the MEANING of Life"
              fixed_analysis morning) as (Ht & Hm & Hl & _).
  - vm_compute. reflexivity.
  - split; [exact Ht|]. split; [exact Hm | exact Hl].
Defined.

Lemma filter_map_sublist {A B : Type} (f : A -> B) (p : A -> bool)
    (l : list A) :
  sublist (List.map f (List.filter p l)) (List.map f l).
Proof.
  induction l as [|a l IH]; cbn; [constructor|].
  destruct (p a); cbn; now constructor.
Qed.

(** X10: the key concepts of a query are either the default
    [["general"]] or a selection of the five concepts of the table in
    the order of the table; in both cases no concept occurs twice and
    there are at most five. *)
Theorem key_concepts_in_table_order (query : string) :
  (_extract_key_concepts query = ["general"]
   \/ sublist (_extract_key_concepts query)
        ["meaning"; "life"; "philosophy"; "science"; "technology"])
  /\ NoDup (_extract_key_concepts query)
  /\ (1 <= List.length (_extract_key_concepts query) <= 5)%nat.
Proof.
  rewrite extract_key_concepts_eq.
  pose proof (filter_map_sublist fst (concept_hit (PyStr.lower query))
                concept_keywords) as Hsub.
  change (List.map fst concept_keywords)
    with ["meaning"; "life"; "philosophy"; "science"; "technology"] in Hsub.
  assert (Hnd : NoDup ["meaning"; "life"; "philosophy"; "science"; "technology"])
    by (apply (bool_decide_eq_true_1 _); vm_compute; reflexivity).
  destruct (List.map fst _) as [|c cs].
  - split; [now left|]. split; [apply NoDup_singleton | cbn; lia].
  - split; [now right|]. split; [eapply sublist_NoDup; eauto|].
    apply sublist_length in Hsub. cbn in *. lia.
Qed.

(** ** Session identifiers and report files *)

Lemma hex_length (k : nat) (n : N) : String.length (Uuid.hex k n) = k.
Proof. induction k as [|k IH]; cbn; congruence. Qed.

Lemma hex_digit_lower_hex (d : N) :
  (d < 16)%N -> is_lower_hex (Uuid.hex_digit d) = true.
Proof.
  intros H.
  assert (Hd : In d [0; 1; 2; 3; 4; 5; 6; 7; 8; 9; 10; 11; 12; 13; 14; 15]%N).
  { cbn. lia. }
  cbn in Hd.
  repeat (destruct Hd as [<-|Hd]; [reflexivity|]). contradiction.
Qed.

Lemma hex_lower_hex (k : nat) (n : N) :
  string_forall is_lower_hex (Uuid.hex k n) = true.
Proof.
  induction k as [|k IH]; [reflexivity|]. cbn [Uuid.hex string_forall].
  rewrite IH, andb_true_r. apply hex_digit_lower_hex.
  change 15%N with (N.ones 4). rewrite N.land_ones.
  apply N.mod_lt. discriminate.
Qed.

Lemma lower_hex_no_slash (c : ascii) :
  is_lower_hex c = true -> no_slash c = true.
Proof.
  unfold no_slash. destruct (Ascii.eqb_spec c Pathlib.slash) as [->|]; [|auto].
  vm_compute. auto.
Qed.

Lemma string_forall_impl (p q : ascii -> bool) (s : string) :
  (forall c, p c = true -> q c = true) ->
  string_forall p s = true -> string_forall q s = true.
Proof.
  intros Hpq. induction s as [|c s IH]; [auto|]. cbn.
  rewrite !andb_true_iff. intros [Hc Hs]. auto.
Qed.

Lemma string_forall_app (p : ascii -> bool) (s t : string) :
  string_forall p (s +:+ t) = string_forall p s && string_forall p t.
Proof.
  induction s as [|c s IH]; [reflexivity|].
  rewrite string_app_cons. cbn. now rewrite IH, andb_assoc.
Qed.

(** A string without a slash is a single part. *)
Lemma split_slash_go_single (cur s : string) :
  string_forall no_slash s = true ->
  Pathlib.split_slash_go cur s = [String.rev cur +:+ s].
Proof.
  revert cur. induction s as [|c s IH]; intros cur; cbn.
  - now rewrite string_app_nil_r.
  - rewrite andb_true_iff. intros [Hc Hs]. unfold no_slash in Hc.
    apply negb_true_iff in Hc. rewrite Hc, (IH _ Hs). f_equal.
    unfold String.rev at 1. cbn.
    now rewrite rev_app_app, string_app_assoc.
Qed.

(** With a session identifier that has no slash, the report file is an
    entry of the output directory itself. *)
Lemma report_file_child (self : Orchestrator) (output_path : Path) :
  string_forall no_slash (session_id self) = true ->
  report_file self output_path
  = output_path ++ ["research_report_" +:+ session_id self +:+ ".md"].
Proof.
  intros H. unfold report_file, Pathlib.div.
  change (String.prefix "/" ("research_report_" +:+ session_id self +:+ ".md"))
    with false. cbv iota. f_equal.
  unfold Pathlib.split_slash.
  rewrite split_slash_go_single.
  - reflexivity.
  - rewrite !string_forall_app, H. reflexivity.
Qed.

(** X11: the session identifier of a new orchestrator is made of eight
    lower-case hexadecimal digits, whatever the random draw; so its
    report file is the entry [research_report_<session_id>.md] of the
    output directory itself.  The construction takes one random draw and
    leaves the file system and the log alone. *)
Theorem new_session_id (w : World) :
  exists self w',
    ResearchOrchestrator_init w = (Ok self, w')
    /\ String.length (session_id self) = 8
    /\ string_forall is_lower_hex (session_id self) = true
    /\ (forall output_path : Path,
          report_file self output_path
          = output_path
            ++ ["research_report_" +:+ session_id self +:+ ".md"])
    /\ fs w' = fs w
    /\ records w' = records w
    /\ draws w' = S (draws w).
Proof.
  unfold ResearchOrchestrator_init, bind, random16, ret.
  rewrite take8_str.
  eexists _, _. split; [reflexivity|]. cbn [session_id fs records draws].
  split; [apply hex_length|]. split; [apply hex_lower_hex|].
  split; [|auto].
  intros output_path. rewrite report_file_child; [reflexivity|].
  cbn [session_id].
  eapply string_forall_impl; [apply lower_hex_no_slash | apply hex_lower_hex].
Qed.

(** ** What the templates use *)

Lemma substring_of_refl (s : string) : PyStr.substring_of s s.
Proof. exists EmptyString, EmptyString. now rewrite string_app_nil_r. Qed.

Lemma substring_of_app_l (a s t : string) :
  PyStr.substring_of a s -> PyStr.substring_of a (s +:+ t).
Proof.
  intros (p & q & ->). exists p, (q +:+ t). now rewrite !string_app_assoc.
Qed.

Lemma substring_of_app_r (a s t : string) :
  PyStr.substring_of a t -> PyStr.substring_of a (s +:+ t).
Proof.
  intros (p & q & ->). exists (s +:+ p), q. now rewrite !string_app_assoc.
Qed.

Lemma concat_cons (l : string) (ls : list string) :
  String.concat EmptyString (l :: ls) = l +:+ String.concat EmptyString ls.
Proof. destruct ls as [|l' ls]; [now rewrite string_app_nil_r | reflexivity]. Qed.

(** Every line of a text is part of it. *)
Lemma line_in_unlines (line : string) (lines : list string) :
  In line lines -> PyStr.substring_of line (unlines lines).
Proof.
  unfold unlines. induction lines as [|l ls IH]; [contradiction|].
  intros [->|Hin]; cbn [List.map]; rewrite concat_cons.
  - apply substring_of_app_l, substring_of_app_l, substring_of_refl.
  - apply substring_of_app_r. auto.
Qed.

Lemma part_in_join (sep part : string) (parts : list string) :
  In part parts -> PyStr.substring_of part (PyStr.join sep parts).
Proof.
  induction parts as [|p ps IH]; [contradiction|].
  intros [->|Hin].
  - destruct ps; cbn [PyStr.join];
      [apply substring_of_refl | apply substring_of_app_l, substring_of_refl].
  - destruct ps as [|p' ps']; [contradiction|]. cbn [PyStr.join].
    apply substring_of_app_r, substring_of_app_r. auto.
Qed.

(** X12: what the two templates take from the analysis.  The generic
    report shows the query, the session identifier, every key finding
    (as a list item), the themes, the summary and the confidence score
    of the analysis it is given; the featured report uses nothing of
    the analysis but the confidence score. *)
Theorem templates_and_analysis (self : Orchestrator) (query : string)
    (analysis analysis' : Analysis.t) (w : World) :
  (exists content w',
     _generate_generic_report self query analysis w = (Ok content, w')
     /\ PyStr.substring_of ("# Research Report: " +:+ query) content
     /\ PyStr.substring_of ("**Session ID:** " +:+ session_id self) content
     /\ (forall finding, In finding (Analysis.key_findings analysis) ->
           PyStr.substring_of ("- " +:+ finding) content)
     /\ PyStr.substring_of (PyStr.join ", " (Analysis.themes analysis)) content
     /\ PyStr.substring_of (Analysis.analysis_summary analysis) content
     /\ PyStr.substring_of
          ("Research confidence: "
           +:+ float_str (Analysis.confidence_score analysis) +:+ "/1.0")
          content)
  /\ (Analysis.confidence_score analysis = Analysis.confidence_score analysis'
      -> _generate_meaning_of_life_report self analysis w
         = _generate_meaning_of_life_report self analysis' w).
Proof.
  split.
  - eexists _, _. split; [reflexivity|].
    split; [apply line_in_unlines; cbn [generic_lines In]; auto|].
    split.
    { eapply substring_of_trans; [|apply line_in_unlines].
      2: { cbn [generic_lines In]. right. right. left. reflexivity. }
      exists EmptyString, "  ". now rewrite string_app_assoc. }
    split.
    { intros finding Hin.
      eapply substring_of_trans; [|apply line_in_unlines].
      2: { cbn [generic_lines In]. do 12 right. left. reflexivity. }
      apply part_in_join. apply in_map_iff. now exists finding. }
    split; [apply line_in_unlines; cbn [generic_lines In]; do 20 right; now left|].
    split; [apply line_in_unlines; cbn [generic_lines In]; do 16 right; now left|].
    apply line_in_unlines. cbn [generic_lines In]. do 24 right. now left.
  - intros Hc. unfold _generate_meaning_of_life_report, meaning_of_life_lines.
    now rewrite Hc.
Qed.

(** ** One orchestrator, several runs *)

Lemma read_text_node (f : FS) (p : Path) (content : string) :
  Os.read_text f p = Some content -> Os.node_at f p = Some (File content).
Proof.
  unfold Os.read_text. destruct (Os.node_at f p) as [[|c]|]; congruence.
Qed.

Lemma write_text_over_file (f : FS) (p : Path) (old content : string) :
  Os.node_at f p = Some (File old) ->
  Os.write_text p content f = Ok (<[p := File content]> f).
Proof. unfold Os.write_text. now intros ->. Qed.

(** X13: after a completed run, every further run of the same
    orchestrator into the same output directory returns and overwrites
    the report of the first: with the report of the new query, under
    the same [report_path] and with status [completed], when that
    report is encoded; with nothing, the status being [failed], when
    it is not (the new query has a surrogate).  Of the reports of one
    orchestrator the last one remains at most.  The orchestrator has a
    session identifier of its own making and the output directory lies
    down from the working directory. *)
Theorem next_run_replaces_report (self : Orchestrator)
    (query1 query2 output_dir : string) (w w1 : World)
    (d1 : gmap string string) :
  hex_id (session_id self) = true ->
  local (Pathlib.parse output_dir) = true ->
  conduct_research self query1 output_dir w = (Ok d1, w1) ->
  d1 !! "status" = Some "completed" ->
  let report_path := report_file self (Pathlib.parse output_dir) in
  let content :=
    render_report self query2 fixed_analysis (clock w1 (S (ticks w1))) in
  exists d2 w2,
    conduct_research self query2 output_dir w1 = (Ok d2, w2)
    /\ match Utf8.encode_error content with
       | None =>
           d2 !! "status" = Some "completed"
           /\ d2 !! "report_path" = d1 !! "report_path"
           /\ Os.read_text (fs w2) report_path = Some content
       | Some e =>
           d2 !! "status" = Some "failed"
           /\ d2 !! "error" = Some (exn_str e)
           /\ Os.read_text (fs w2) report_path = Some EmptyString
       end.
Proof.
  intros _ _ H Hst report_path content.
  unfold conduct_research, conduct_research_of in *.
  apply bind_ok_inv in H as (output_path & w0 & Hsetup & Hrun).
  apply session_setup_ok in Hsetup as (-> & Hlog & Hdir & _).
  destruct (class_run self query1 (Pathlib.parse output_dir) w0)
    as (d & w' & Hrun1 & Hh & _ & _ & _ & Hcase).
  rewrite Hrun in Hrun1. inversion Hrun1; subst d w'; clear Hrun1.
  destruct (Os.write_text _ _ (fs w0)) as [f'|e] eqn:E;
    [destruct (Utf8.encode_error _) as [e|]|];
    [destruct Hcase as (_ & _ & Hst' & _); congruence
    |
    |destruct Hcase as (_ & _ & Hst' & _); congruence].
  destruct Hcase as (Hfs & _ & _ & Hpath & _).
  assert (Hdir1 : Os.is_dir (fs w1) (Pathlib.parse output_dir) = true)
    by (rewrite Hfs; eapply write_text_keeps_dirs; eauto).
  assert (Hlog1 : session_logger_name self ∈ handlers w1) by now rewrite Hh.
  assert (Hfile : Os.node_at (fs w1) report_path
                  = Some (File (render_report self query1 fixed_analysis
                                              (clock w0 (ticks w0))))).
  { apply read_text_node. rewrite Hfs. now apply write_then_read in E. }
  destruct (session_setup_again self query2 output_dir w1 Hlog1 Hdir1)
    as (w0' & Hsetup' & Hfs' & _).
  destruct (session_setup_world _ _ _ _ _ _ Hsetup') as (_ & Ht & Hc & _).
  destruct (class_run self query2 (Pathlib.parse output_dir) w0')
    as (d2 & w2 & Hrun2 & _ & _ & _ & _ & Hcase2).
  rewrite Hfs', Hc, Ht in Hcase2. fold report_path content in Hcase2.
  rewrite (write_text_over_file _ _ _ _ Hfile) in Hcase2.
  exists d2, w2. split; [now rewrite (bind_ok _ _ _ _ _ Hsetup')|].
  destruct (Utf8.encode_error content) as [e|].
  - destruct Hcase2 as (Hfs2 & _ & Hst2 & Herr2).
    split; [exact Hst2|]. split; [exact Herr2|].
    rewrite Hfs2. eapply write_then_read.
    apply (write_text_over_file _ _ _ _ Hfile).
  - destruct Hcase2 as (Hfs2 & _ & Hst2 & Hpath2 & _).
    split; [exact Hst2|]. split; [rewrite Hpath2, Hpath; reflexivity|].
    rewrite Hfs2. eapply write_then_read.
    apply (write_text_over_file _ _ _ _ Hfile).
Qed.

Lemma next_run_replaces_report_witness :
  exists d1 w1 d2 w2,
    conduct_research watson "What is the meaning of life?"
      "research/output" fresh_world = (Ok d1, w1)
    /\ conduct_research watson "Latest developments in AI research"
         "research/output" w1 = (Ok d2, w2)
    /\ d2 !! "status" = Some "completed"
    /\ d2 !! "report_path" = d1 !! "report_path".
Proof.
  pose (r := conduct_research watson "What is the meaning of life?"
               "research/output" fresh_world).
  assert (H : returned r = true) by (vm_compute; reflexivity).
  assert (Hst : entry "status" r = Some "completed")
    by (vm_compute; reflexivity).
  assert (He : Utf8.encode_error
                 (render_report watson "Latest developments in AI research"
                    fixed_analysis (clock (snd r) (S (ticks (snd r)))))
               = None)
    by (vm_compute; reflexivity).
  apply (returned_eta ∅) in H.
  unfold entry in Hst. rewrite H in Hst. cbn [fst] in Hst. unfold r in H.
  destruct (next_run_replaces_report watson _
              "Latest developments in AI research" "research/output" _ _ _
              eq_refl eq_refl H Hst)
    as (d2 & w2 & Hcall & Hcase).
  fold r in Hcase. rewrite He in Hcase.
  destruct Hcase as (Hst2 & Hpath & _).
  eexists _, _, d2, w2. split; [exact H|]. split; [exact Hcall|].
  split; [exact Hst2 | exact Hpath].
Defined.

(** * Around the orchestrator: properties *)

(** ** Where a run writes *)

Lemma prefix_of_app_cases (q p l : list string) :
  q `prefix_of` (p ++ l) -> q `prefix_of` p \/ p `prefix_of` q.
Proof.
  intros [k Hk]. symmetry in Hk. apply app_eq_app in Hk as [a [[-> _]|[-> _]]].
  - right. now exists a.
  - left. now exists a.
Qed.

Lemma mkdir_parents_rev_frame (rp : list string) (f f' : FS) :
  Os.mkdir_parents_rev rp f = Ok f' ->
  forall q, ~ q `prefix_of` rev rp -> f' !! q = f !! q.
Proof.
  revert f f'. induction rp as [|x rparent IH]; intros f f' H q Hq.
  - change (Os.mkdir_parents_rev [] f) with (Ok f) in H. now inversion H.
  - cbn [Os.mkdir_parents_rev] in H.
    assert (Hne : q <> rev (x :: rparent)) by (intros ->; now apply Hq).
    destruct (Os.mkdir (rev (x :: rparent)) f) as [f1|e] eqn:E.
    + inversion H; subst. apply mkdir_ok_inv in E as [_ ->].
      now rewrite lookup_insert_ne.
    + assert (Hdefault :
        (if Os.is_dir f (rev (x :: rparent)) then Ok f else Raise e) = Ok f' ->
        f' !! q = f !! q).
      { destruct (Os.is_dir f (rev (x :: rparent))); [|discriminate].
        now intros [= ->]. }
      destruct e; try (now apply Hdefault). clear Hdefault.
      destruct (Os.mkdir_parents_rev rparent f) as [f1|e1] eqn:E1;
        [|discriminate].
      assert (H1 : f1 !! q = f !! q).
      { apply (IH _ _ E1). intros Hp. apply Hq. cbn [rev].
        now apply prefix_app_r. }
      destruct (Os.mkdir (rev (x :: rparent)) f1) as [f2|e2] eqn:E2.
      * inversion H; subst. apply mkdir_ok_inv in E2 as [_ ->].
        now rewrite lookup_insert_ne.
      * destruct (Os.is_dir f1 (rev (x :: rparent))); [|discriminate].
        inversion H; subst. exact H1.
Qed.

Lemma mkdir_parents_frame (p : Path) (f f' : FS) :
  Os.mkdir_parents p f = Ok f' ->
  forall q, ~ q `prefix_of` p -> f' !! q = f !! q.
Proof.
  unfold Os.mkdir_parents. intros H q Hq.
  apply (mkdir_parents_rev_frame _ _ _ H). now rewrite rev_involutive.
Qed.

Lemma open_append_frame (p : Path) (f f' : FS) :
  Os.open_append p f = Ok f' -> forall q, q <> p -> f' !! q = f !! q.
Proof.
  unfold Os.open_append. intros H q Hq.
  destruct (Os.node_at f p) as [[|c]|]; [discriminate|now inversion H|].
  destruct (Os.parent_error f p); [discriminate|]. inversion H; subst.
  now rewrite lookup_insert_ne.
Qed.

Lemma write_text_frame (p : Path) (content : string) (f f' : FS) :
  Os.write_text p content f = Ok f' -> forall q, q <> p -> f' !! q = f !! q.
Proof.
  unfold Os.write_text. intros H q Hq.
  destruct (Os.node_at f p) as [[|c]|]; [discriminate| |].
  - inversion H; subst. now rewrite lookup_insert_ne.
  - destruct (Os.parent_error f p); [discriminate|]. inversion H; subst.
    now rewrite lookup_insert_ne.
Qed.

(** The set-up, whether it succeeds or raises, writes along the output
    path and under it only. *)
Lemma session_setup_frame (self : Orchestrator) (query output_dir : string)
    (w w0 : World) (r : Res Path) :
  session_setup self query output_dir w = (r, w0) ->
  forall q, ~ along_or_under (Pathlib.parse output_dir) q ->
            fs w0 !! q = fs w !! q.
Proof.
  intros H q Hq.
  assert (Hpre : forall l, ~ q `prefix_of` (Pathlib.parse output_dir ++ l)).
  { intros l Hl. apply Hq. now apply prefix_of_app_cases in Hl. }
  assert (Hext : forall l, q <> Pathlib.parse output_dir ++ l).
  { intros l ->. apply Hq. right. now apply prefix_app_r. }
  revert H.
  unfold session_setup, create_session_logger, bind, logger_info, emit, now,
    has_handlers, add_handler, ret, on_fs.
  cbn [fs handlers records clock ticks urandom draws].
  destruct (bool_decide _); cbn [fs handlers records clock ticks urandom draws].
  - destruct (Os.mkdir_parents _ _) as [f1|e1] eqn:E1;
      intros H; inversion H; subst; clear H; cbn [fs set_fs]; [|reflexivity].
    apply (mkdir_parents_frame _ _ _ E1).
    specialize (Hpre []). now rewrite app_nil_r in Hpre.
  - destruct (log_file_shape (Pathlib.parse output_dir)
                ("session_" +:+ session_id self +:+ "_"
                 +:+ Datetime.strftime_compact (clock w (ticks w)) +:+ ".log")
                eq_refl) as [rest Hlog].
    rewrite Hlog.
    assert (Hparent : exists l, Pathlib.parent
                        (Pathlib.parse output_dir ++ "logs" :: rest)
                      = Pathlib.parse output_dir ++ l).
    { destruct (Pathlib.parse output_dir) as [|a p] eqn:Ep.
      - cbn [app]. destruct rest as [|b rest'].
        + exists []. reflexivity.
        + exists (removelast ("logs" :: b :: rest')). reflexivity.
      - destruct (exists_last (l := "logs" :: rest)) as (l & y & ->);
          [discriminate|].
        exists l. now rewrite parent_of_extension. }
    destruct Hparent as [l ->].
    destruct (Os.mkdir_parents _ (fs w)) as [f1|e1] eqn:E1; cbn [fs];
      [|intros H; inversion H; subst; reflexivity].
    assert (H1 : f1 !! q = fs w !! q)
      by (apply (mkdir_parents_frame _ _ _ E1), Hpre).
    unfold set_fs; cbn [fs handlers records clock ticks urandom draws].
    destruct (Os.open_append _ f1) as [f2|e2] eqn:E2; cbn [fs];
      [|intros H; inversion H; subst; exact H1].
    assert (H2 : f2 !! q = fs w !! q)
      by (rewrite <- H1; apply (open_append_frame _ _ _ E2), Hext).
    unfold set_fs; cbn [fs handlers records clock ticks urandom draws].
    destruct (Os.mkdir_parents _ f2) as [f3|e3] eqn:E3;
      intros H; inversion H; subst; clear H; cbn [fs set_fs]; [|exact H2].
    rewrite <- H2. apply (mkdir_parents_frame _ _ _ E3).
    specialize (Hpre []). now rewrite app_nil_r in Hpre.
Qed.

Lemma conduct_research_changes (self : Orchestrator)
    (query output_dir : string) (w : World) (q : Path) :
  ~ along_or_under (Pathlib.parse output_dir) q ->
  fs (snd (conduct_research self query output_dir w)) !! q = fs w !! q.
Proof.
  intros Hq. unfold conduct_research, conduct_research_of, bind.
  destruct (session_setup self query output_dir w) as [[output_path|e] w0] eqn:E.
  - pose proof (session_setup_frame _ _ _ _ _ _ E q Hq) as Hframe.
    apply session_setup_ok in E as (-> & _).
    destruct (class_run self query (Pathlib.parse output_dir) w0)
      as (d & w' & -> & _ & _ & _ & _ & Hcase). cbn [snd].
    assert (Hne : q <> report_file self (Pathlib.parse output_dir)).
    { destruct (report_file_shape self (Pathlib.parse output_dir))
        as (x & rest & ->).
      intros ->. apply Hq. right. now apply prefix_app_r. }
    destruct (Os.write_text _ _ (fs w0)) as [f'|e] eqn:Ew;
      [destruct (Utf8.encode_error _) as [e|]|].
    + destruct Hcase as (-> & _). rewrite <- Hframe.
      apply write_text_emptied in Ew.
      exact (write_text_frame _ _ _ _ Ew q Hne).
    + destruct Hcase as (-> & _). rewrite <- Hframe.
      exact (write_text_frame _ _ _ _ Ew q Hne).
    + destruct Hcase as (-> & _). exact Hframe.
  - cbn [snd]. exact (session_setup_frame _ _ _ _ _ _ E q Hq).
Qed.

(** X14: whatever its outcome, a run of the class changes the file
    system only along its output path (the directories leading to it)
    and under it: every other path has after the run the entry it had
    before.  The paths are those down from the working directory, the
    output directory among them, and the session identifier is of the
    orchestrator's own making. *)
Theorem run_stays_in_output_dir (self : Orchestrator)
    (query output_dir : string) (w : World) (q : Path) :
  hex_id (session_id self) = true ->
  local (Pathlib.parse output_dir) = true ->
  local q = true ->
  ~ along_or_under (Pathlib.parse output_dir) q ->
  fs (snd (conduct_research self query output_dir w)) !! q = fs w !! q.
Proof. intros _ _ _. apply conduct_research_changes. Qed.

Lemma run_stays_in_output_dir_witness :
  fs (snd (conduct_research watson "tech" "out" cluttered_world))
    !! ["elsewhere"; "notes.txt"]
  = fs cluttered_world !! ["elsewhere"; "notes.txt"].
Proof.
  apply run_stays_in_output_dir; [reflexivity | reflexivity | reflexivity|].
  change (Pathlib.parse "out") with ["out"].
  intros [[k Hk]|[k Hk]]; discriminate.
Defined.

(** ** The API handlers *)

(** X15: when [request.get_json()] returns [None] (the body is the
    JSON value [null]) or an object without a [query] member,
    [ConductResearch.post] answers with an internal server error (500)
    that quotes the bad request, not with a bad request (400): the
    [BadRequest] is raised inside the [try] block and caught by its
    [except Exception].  The orchestrator is not run. *)
Theorem post_without_query (orchestrator : Orchestrator)
    (data : option (gmap string string)) (h : Host) :
  requested_query data = None ->
  exists h',
    Api.post orchestrator data h
    = (Api.Aborts
         (Api.InternalServerError
            "Research failed: 400 Bad Request: Query is required"), h')
    /\ world h' = world h
    /\ app_records h'
       = app_records h
         ++ [(ERROR, "Research failed: 400 Bad Request: Query is required")].
Proof.
  unfold requested_query, Api.post, Api.post_try. intros H.
  destruct data as [d|]; [rewrite H|]; eexists; repeat split.
Qed.

Lemma post_without_query_witness :
  exists h',
    Api.post watson (Some (<["output_dir" := "research"]> ∅)) fresh_host
    = (Api.Aborts
         (Api.InternalServerError
            "Research failed: 400 Bad Request: Query is required"), h').
Proof.
  destruct (post_without_query watson
              (Some (<["output_dir" := "research"]> ∅)) fresh_host)
    as (h' & H & _).
  - vm_compute. reflexivity.
  - exists h'. exact H.
Defined.

(** X16: for a request with a query, [ConductResearch.post] answers
    with an error (500) exactly when the session set-up raises; whenever
    the set-up succeeds it replies with the dictionary of the run, also
    when the run has failed: a failed run is an ordinary reply whose
    status is [failed]. *)
Theorem post_with_query (orchestrator : Orchestrator)
    (data : option (gmap string string)) (query : string) (h : Host) :
  requested_query data = Some query ->
  match session_setup orchestrator query (requested_dir data) (world h) with
  | (Ok _, _) =>
      exists results h',
        Api.post orchestrator data h = (Api.Replies results, h')
        /\ results !! "session_id" = Some (session_id orchestrator)
        /\ results !! "query" = Some query
        /\ (results !! "status" = Some "completed"
            \/ results !! "status" = Some "failed")
  | (Raise e, _) =>
      exists h',
        Api.post orchestrator data h
        = (Api.Aborts
             (Api.InternalServerError ("Research failed: " +:+ exn_str e)),
           h')
  end.
Proof.
  unfold requested_query, requested_dir, Api.post, Api.post_try. intros H.
  destruct data as [d|]; [|discriminate]. rewrite H.
  cbn [world app_log].
  unfold conduct_research, conduct_research_of, bind.
  destruct (session_setup orchestrator query _ (world h))
    as [[output_path|e] w0].
  - destruct (guarded_run_returns ResearchOrchestrator_phases orchestrator
                query output_path w0) as (results & w' & -> & Hs & Hq & Hst).
    eexists _, _. split; [reflexivity|]. split; [exact Hs|].
    split; [exact Hq|]. destruct Hst as [[Hst _]|[Hst _]]; auto.
  - eexists. reflexivity.
Qed.

(** A host whose file system has a directory in the place of the report
    of [watson] under [research/api_output]. *)
Lemma post_with_query_witness :
  exists results h',
    Api.post watson (Some (<["query" := "tech"]> ∅)) fresh_host
    = (Api.Replies results, h')
    /\ (results !! "status" = Some "completed"
        \/ results !! "status" = Some "failed").
Proof.
  pose proof (post_with_query watson (Some (<["query" := "tech"]> ∅)) "tech"
                fresh_host eq_refl) as H.
  assert (Hs : returned (session_setup watson "tech"
                           (requested_dir (Some (<["query" := "tech"]> ∅)))
                           (world fresh_host)) = true)
    by (vm_compute; reflexivity).
  unfold returned in Hs.
  destruct (session_setup watson "tech" _ (world fresh_host)) as [[p|e] w0];
    [|discriminate].
  destruct H as (results & h' & Hpost & _ & _ & Hst).
  exists results, h'. split; [exact Hpost | exact Hst].
Defined.

Lemma stored_report_is_report_file (self : Orchestrator) :
  Api.stored_report (session_id self) = report_file self ["research"].
Proof. reflexivity. Qed.

(** X17: a report written by a completed run into the directory
    [research] is what [GetReport.get] returns for the session
    identifier (one of the orchestrator's own making): the reply
    carries the text of the report and the path the run reported.
    The text comes back as text mode reads it: a carriage return of
    the query has become a line feed. *)
Theorem get_report_round_trip (self : Orchestrator) (query : string)
    (w w' : World) (d : gmap string string) (h : Host) :
  hex_id (session_id self) = true ->
  conduct_research self query "research" w = (Ok d, w') ->
  d !! "status" = Some "completed" ->
  world h = w' ->
  exists body h',
    Api.get_report (session_id self) h = (Api.Report body, h')
    /\ Api.content body
       = PyText.universal_newlines
           (render_report self query fixed_analysis (clock w (S (ticks w))))
    /\ d !! "report_path" = Some (Api.path body)
    /\ Api.report_id body = session_id self.
Proof.
  unfold conduct_research, conduct_research_of. intros _ H Hst Hw.
  apply bind_ok_inv in H as (output_path & w0 & Hsetup & Hrun).
  destruct (session_setup_world _ _ _ _ _ _ Hsetup) as (_ & Ht & Hc & _).
  apply session_setup_ok in Hsetup as (-> & _).
  destruct (class_run self query (Pathlib.parse "research") w0)
    as (d1 & w1 & Hrun1 & _ & _ & _ & _ & Hcase).
  rewrite Hrun in Hrun1. inversion Hrun1; subst d1 w1; clear Hrun1.
  rewrite Hc, Ht in Hcase.
  destruct (Os.write_text _ _ (fs w0)) as [f'|e] eqn:E;
    [destruct (Utf8.encode_error _) as [e|] eqn:Ee|];
    [destruct Hcase as (_ & _ & Hst' & _); congruence
    |
    |destruct Hcase as (_ & _ & Hst' & _); congruence].
  destruct Hcase as (Hfs & _ & _ & Hp & _).
  apply write_then_read, read_text_node in E.
  apply encoded_decodes in Ee.
  unfold Api.get_report. rewrite stored_report_is_report_file, Hw, Hfs.
  change (Pathlib.parse "research") with ["research"] in *.
  rewrite E, Ee. unfold now. eexists _, _. split; [reflexivity|].
  cbn [Api.content Api.path Api.report_id]. auto.
Qed.

(** A query of two lines that end in a carriage return and a line
    feed: the report is fetched with line feeds alone. *)
Lemma get_report_round_trip_witness :
  exists d w' body h',
    conduct_research watson
      ("rivers" +:+ PyStr.of_bytes [13; 10] +:+ "and lakes")
      "research" fresh_world = (Ok d, w')
    /\ Api.get_report "abcd1234" (set_world w' fresh_host)
       = (Api.Report body, h')
    /\ Api.content body
       = PyText.universal_newlines
           (render_report watson
              ("rivers" +:+ PyStr.of_bytes [13; 10] +:+ "and lakes")
              fixed_analysis
              (clock fresh_world (S (ticks fresh_world))))
    /\ d !! "report_path" = Some (Api.path body).
Proof.
  pose (r := conduct_research watson
               ("rivers" +:+ PyStr.of_bytes [13; 10] +:+ "and lakes")
               "research" fresh_world).
  assert (H : returned r = true) by (vm_compute; reflexivity).
  assert (Hst : entry "status" r = Some "completed")
    by (vm_compute; reflexivity).
  apply (returned_eta ∅) in H.
  unfold entry in Hst. rewrite H in Hst. cbn [fst] in Hst. unfold r in H.
  destruct (get_report_round_trip watson _ _ _ _ (set_world (snd r) fresh_host)
              eq_refl H Hst eq_refl)
    as (body & h' & Hget & Hcontent & Hpath & _).
  eexists _, _, body, h'. split; [exact H|]. split; [exact Hget|].
  split; [exact Hcontent | exact Hpath].
Defined.

(** A report file that holds a byte which is no text: the report is
    not served. *)
Example report_of_bytes_that_are_no_text :
  fst (Api.get_report "abcd1234"
         (set_world
            (set_fs (<[ ["research"; "research_report_abcd1234.md"]
                        := File (PyStr.of_bytes [35; 255]) ]>
                     (<[ ["research"] := Dir ]> ∅)) fresh_world)
            fresh_host))
  = Api.ReportAborts
      (Api.InternalServerError
         "Failed to get report: 'utf-8' codec can't decode byte 0xff in position 1: invalid start byte").
Proof. vm_compute. reflexivity. Qed.

(** The text a fetched report has lost: the carriage return. *)
Example fetched_report_has_no_carriage_return :
  PyText.universal_newlines
    ("rivers" +:+ PyStr.of_bytes [13; 10] +:+ "and" +:+ PyStr.of_bytes [13]
     +:+ "lakes")
  = "rivers" +:+ PyStr.nl +:+ "and" +:+ PyStr.nl +:+ "lakes".
Proof. vm_compute. reflexivity. Qed.

Lemma stored_report_shape (report_id : string) :
  exists x rest,
    Api.stored_report report_id
    = "research" :: ("research_report_" +:+ x) :: rest.
Proof.
  destruct (report_file_shape {| session_id := report_id |} ["research"])
    as (x & rest & H).
  exists x, rest. exact H.
Qed.

(** X18: a report written through the API with the default output
    directory cannot be fetched through the API: after
    [ConductResearch.post] for a request that names no [output_dir]
    (whatever its outcome), [GetReport.get] for the session identifier
    answers "Report not found", unless such a file was in [research]
    before; the report went to [research/api_output], where
    [GetReport.get] does not look. *)
Theorem default_output_dir_not_served (orchestrator : Orchestrator)
    (d : gmap string string) (h h' : Host)
    (r : Api.reply (gmap string string)) :
  d !! "output_dir" = None ->
  Os.node_at (fs (world h)) (Api.stored_report (session_id orchestrator))
  = None ->
  Api.post orchestrator (Some d) h = (r, h') ->
  Api.get_report (session_id orchestrator) h'
  = (Api.NotFound "Report not found", h').
Proof.
  intros Hdir Hnone Hpost.
  assert (Hfs : fs (world h')
                !! Api.stored_report (session_id orchestrator)
                = fs (world h)
                  !! Api.stored_report (session_id orchestrator)).
  { revert Hpost. unfold Api.post, Api.post_try. rewrite Hdir.
    cbn [default]. destruct (d !! "query") as [query|];
      [|intros [= _ <-]; reflexivity].
    cbn [world app_log].
    pose proof (conduct_research_changes orchestrator query
                  "research/api_output" (world h)
                  (Api.stored_report (session_id orchestrator))) as Hframe.
    destruct (conduct_research orchestrator query "research/api_output"
                (world h)) as [[results|e] w']; cbn [snd] in Hframe;
      intros [= _ <-]; cbn [world app_log set_world]; apply Hframe;
      destruct (stored_report_shape (session_id orchestrator))
        as (x & rest & ->);
      change (Pathlib.parse "research/api_output")
        with ["research"; "api_output"];
      intros [[k Hk]|[k Hk]]; discriminate. }
  destruct (stored_report_shape (session_id orchestrator)) as (x & rest & Hs).
  unfold Api.get_report, Os.node_at in *. rewrite Hs in *.
  cbn [Pathlib.is_anchor] in *. now rewrite Hfs, Hnone.
Qed.

Lemma default_output_dir_not_served_witness :
  exists r h',
    Api.post watson (Some (<["query" := "tech"]> ∅)) fresh_host = (r, h')
    /\ Api.get_report "abcd1234" h' = (Api.NotFound "Report not found", h').
Proof.
  destruct (Api.post watson (Some (<["query" := "tech"]> ∅)) fresh_host)
    as [r h'] eqn:E.
  exists r, h'. split; [reflexivity|].
  apply (default_output_dir_not_served watson (<["query" := "tech"]> ∅)
           fresh_host h' r); [reflexivity | reflexivity | exact E].
Defined.

(** ** The environment check *)

Lemma none_missing {A : Type} (p : A -> bool) (l : list A) :
  (List.length (List.filter (fun x => negb (p x)) l) =? 0)%nat = forallb p l.
Proof.
  induction l as [|a l IH]; [reflexivity|]. cbn.
  destruct (p a); cbn; [exact IH | reflexivity].
Qed.

Lemma list_filter_sublist {A : Type} (p : A -> bool) (l : list A) :
  sublist (List.filter p l) l.
Proof.
  induction l as [|a l IH]; [constructor|]. cbn.
  destruct (p a); now constructor.
Qed.

(** The verdict of [check_environment]: [valid] and [message]. *)
Lemma check_environment_verdict (probe : Probe) (f : FS) :
  let critical :=
    venv_active probe && os_path_exists f "config/agents.yaml"
    && forallb (os_path_exists f) required_dirs in
  let keys :=
    match dotenv probe with
    | Some environ =>
        getenv_set environ "OPENAI_API_KEY"
        || getenv_set environ "ANTHROPIC_API_KEY"
    | None => false
    end in
  check_environment probe f !! "valid" = Some (EBool critical)
  /\ check_environment probe f !! "message"
     = Some (EStr
         (if negb critical then "Critical environment checks failed"
          else if negb (os_path_exists f ".env")
          then "Environment file missing - some features may not work"
          else if negb keys
          then "API keys not configured - AI features will not work"
          else if negb (os_path_exists f "data/metadata.db"
                        && database_readable probe)
          then "Database not initialized - run database setup"
          else "Environment is properly configured")).
Proof.
  unfold check_environment. rewrite none_missing.
  cbn [forallb id]. rewrite andb_true_r.
  destruct (venv_active probe), (os_path_exists f "config/agents.yaml"),
    (forallb (os_path_exists f) required_dirs); cbn [andb negb];
    cbv beta iota zeta;
    try (split; [by rewrite lookup_insert_eq
                |by rewrite lookup_insert_ne, lookup_insert_eq]).
  destruct (os_path_exists f ".env"); cbn [negb]; cbv beta iota zeta;
    [|split; [by rewrite lookup_insert_eq
             |by rewrite lookup_insert_ne, lookup_insert_eq]].
  destruct (match dotenv probe with Some _ => _ | None => _ end);
    cbn [negb]; cbv beta iota zeta;
    [|split; [by rewrite lookup_insert_eq
             |by rewrite lookup_insert_ne, lookup_insert_eq]].
  destruct (os_path_exists f "data/metadata.db"); cbn [negb andb];
    cbv beta iota zeta;
    [|split; [by rewrite lookup_insert_eq
             |by rewrite lookup_insert_ne, lookup_insert_eq]].
  destruct (database_readable probe); cbn [negb]; cbv beta iota zeta;
    (split; [by rewrite lookup_insert_eq
            |by rewrite lookup_insert_ne, lookup_insert_eq]).
Qed.

Lemma check_environment_shape (probe : Probe) (f : FS) :
  exists valid message,
    check_environment probe f
    = <["valid" := EBool valid]>
      (<["message" := EStr message]>
      (<["checks" :=
           EChecks
             {| Checks.python_version := python_version probe;
                Checks.virtual_env := venv_active probe;
                Checks.env_file := os_path_exists f ".env";
                Checks.config_file := os_path_exists f "config/agents.yaml";
                Checks.database_exists := os_path_exists f "data/metadata.db";
                Checks.database_valid :=
                  os_path_exists f "data/metadata.db"
                  && database_readable probe;
                Checks.directories := forallb (os_path_exists f) required_dirs;
                Checks.missing_directories :=
                  List.filter (fun d => negb (os_path_exists f d))
                              required_dirs;
                Checks.api_keys :=
                  os_path_exists f ".env"
                  && match dotenv probe with
                     | Some environ =>
                         getenv_set environ "OPENAI_API_KEY"
                         || getenv_set environ "ANTHROPIC_API_KEY"
                     | None => false
                     end |}]> ∅)).
Proof.
  unfold check_environment. rewrite none_missing.
  match goal with
  | |- context [let '(_, _) := ?X in _] => destruct X as [valid message]
  end.
  exists valid, message. reflexivity.
Qed.

(** X19: [check_environment] declares the environment valid exactly
    when a virtual environment is active, [config/agents.yaml] exists
    and the five required directories exist; a missing [.env] file,
    missing API keys or a missing database never make it invalid.  The
    message "Critical environment checks failed" goes with the invalid
    environments and with no other. *)
Theorem environment_validity (probe : Probe) (f : FS) :
  (check_environment probe f !! "valid" = Some (EBool true)
   <-> venv_active probe = true
       /\ os_path_exists f "config/agents.yaml" = true
       /\ forall d, d ∈ required_dirs -> os_path_exists f d = true)
  /\ (check_environment probe f !! "valid" <> Some (EBool true)
      <-> check_environment probe f !! "valid" = Some (EBool false))
  /\ (check_environment probe f !! "valid" = Some (EBool false)
      <-> check_environment probe f !! "message"
          = Some (EStr "Critical environment checks failed")).
Proof.
  destruct (check_environment_verdict probe f) as [Hv Hm].
  cbv zeta in Hv, Hm. rewrite Hv, Hm. clear Hv Hm.
  assert (Hdirs : forallb (os_path_exists f) required_dirs = true
                  <-> forall d, d ∈ required_dirs -> os_path_exists f d = true).
  { rewrite forallb_forall. split; intros H d Hd; apply H.
    - now apply list_elem_of_In.
    - now apply list_elem_of_In. }
  split; [|split].
  - rewrite <- Hdirs. split.
    + intros [= H]. apply andb_prop in H as [H ?].
      apply andb_prop in H as [? ?]. auto.
    + intros (-> & -> & ->). reflexivity.
  - destruct (_ && _ && _); split; congruence.
  - destruct (_ && _ && _); cbn [negb].
    + split; [discriminate|].
      destruct (negb _); [discriminate|].
      destruct (negb _); [discriminate|].
      destruct (negb _); discriminate.
    + split; reflexivity.
Qed.

(** X20: the message "Environment is properly configured" is given
    exactly when every check passes: the environment is valid, [.env]
    exists, [load_dotenv] works and leaves one of the two API keys set
    and not empty, and the database file exists and can be queried. *)
Theorem environment_properly_configured (probe : Probe) (f : FS) :
  check_environment probe f !! "message"
  = Some (EStr "Environment is properly configured")
  <-> check_environment probe f !! "valid" = Some (EBool true)
      /\ os_path_exists f ".env" = true
      /\ (exists environ,
            dotenv probe = Some environ
            /\ (getenv_set environ "OPENAI_API_KEY" = true
                \/ getenv_set environ "ANTHROPIC_API_KEY" = true))
      /\ os_path_exists f "data/metadata.db" = true
      /\ database_readable probe = true.
Proof.
  destruct (check_environment_verdict probe f) as [Hv Hm].
  cbv zeta in Hv, Hm. rewrite Hv, Hm. clear Hv Hm.
  destruct (_ && _ && _); cbn [negb];
    [|split; [discriminate | intros ([=] & _)]].
  destruct (os_path_exists f ".env"); cbn [negb];
    [|split; [discriminate | intros (_ & [=] & _)]].
  destruct (dotenv probe) as [environ|]; cbn [negb];
    [|split; [discriminate | intros (_ & _ & (? & [=] & _) & _)]].
  destruct (getenv_set environ "OPENAI_API_KEY") eqn:Ho,
    (getenv_set environ "ANTHROPIC_API_KEY") eqn:Ha; cbn [orb negb];
    try (destruct (os_path_exists f "data/metadata.db"); cbn [andb negb];
         [|split; [discriminate | intros (_ & _ & _ & [=] & _)]];
         destruct (database_readable probe); cbn [negb];
         [|split; [discriminate | intros (_ & _ & _ & _ & [=])]];
         split; [intros _|reflexivity];
         repeat split; exists environ; split; [reflexivity|]; auto).
  split; [discriminate|].
  intros (_ & _ & (environ' & [= <-] & [H|H]) & _); congruence.
Qed.

(** X21: the [checks] of [check_environment] hang together: API keys
    are reported only when [.env] exists (keys that are set in the
    process environment alone are not seen), a valid database only when
    its file exists, [directories] says that no directory is missing,
    and the missing directories are those of the five required ones
    that do not exist, in the order of the list.  The result has the
    three keys [valid], [message] and [checks] and no other. *)
Theorem environment_checks_consistent (probe : Probe) (f : FS) :
  exists c,
    check_environment probe f !! "checks" = Some (EChecks c)
    /\ dom (check_environment probe f)
       = ({["valid"; "message"; "checks"]} : gset string)
    /\ (Checks.api_keys c = true -> Checks.env_file c = true)
    /\ (Checks.database_valid c = true -> Checks.database_exists c = true)
    /\ (Checks.directories c = true <-> Checks.missing_directories c = [])
    /\ sublist (Checks.missing_directories c) required_dirs
    /\ (forall d, d ∈ Checks.missing_directories c
                  <-> d ∈ required_dirs /\ os_path_exists f d = false).
Proof.
  destruct (check_environment_shape probe f) as (valid & message & ->).
  eexists. split.
  { rewrite lookup_insert_ne by done. rewrite lookup_insert_ne by done.
    by rewrite lookup_insert_eq. }
  cbn [Checks.api_keys Checks.env_file Checks.database_valid
       Checks.database_exists Checks.directories Checks.missing_directories].
  split; [rewrite !dom_insert_L, dom_empty_L; set_solver|].
  split; [intros H; now apply andb_prop in H|].
  split; [intros H; now apply andb_prop in H|].
  split.
  { rewrite <- none_missing.
    destruct (List.filter _ required_dirs); cbn; split; congruence. }
  split.
  { apply list_filter_sublist. }
  intros d. rewrite list_elem_of_In, filter_In, <- list_elem_of_In.
  rewrite negb_true_iff. reflexivity.
Qed.

(** ** The health endpoint *)

(** X22: [SystemHealth.get] never reports a healthy system.  It reads
    the key [overall_status] of the result of [check_environment],
    which has no such key, so that every call ends in the [except]
    branch: the reply has status [unhealthy], the error text
    ['overall_status'] and no [components], also when the environment
    is properly configured. *)
Theorem health_is_never_healthy (probe : Probe) (orchestrator : Orchestrator)
    (config : Config) (h : Host) :
  exists reply h',
    Api.health probe orchestrator config h = (Ok reply, h')
    /\ reply !! "status" = Some (Api.HStr "unhealthy")
    /\ reply !! "error" = Some (Api.HStr "'overall_status'")
    /\ reply !! "components" = None
    /\ app_records h'
       = app_records h
         ++ [(ERROR, "Health check failed: 'overall_status'")]
    /\ fs (world h') = fs (world h).
Proof.
  unfold Api.health.
  destruct (check_environment_shape probe (fs (world h)))
    as (valid & message & ->).
  rewrite lookup_insert_ne by done. rewrite lookup_insert_ne by done.
  rewrite lookup_insert_ne by done. rewrite lookup_empty.
  unfold Api.health_failed, lift, now. cbn [world app_log set_world].
  eexists _, _. split; [reflexivity|].
  split; [by rewrite lookup_insert_eq|].
  split.
  { rewrite lookup_insert_ne by done. rewrite lookup_insert_ne by done.
    by rewrite lookup_insert_eq. }
  split.
  { rewrite lookup_insert_ne by done. rewrite lookup_insert_ne by done.
    rewrite lookup_insert_ne by done. rewrite lookup_insert_ne by done.
    apply lookup_empty. }
  split; reflexivity.
Qed.

(** ** The configuration *)

Lemma tool_warnings_length (environ : gmap string string)
    (l : list (string * string)) :
  List.length (flat_map (tool_warning environ) l) <= List.length l.
Proof.
  induction l as [|[name key] l IH]; [reflexivity|].
  cbn [flat_map]. rewrite length_app. unfold tool_warning at 1.
  destruct (_ && _); cbn; lia.
Qed.

(** X23: [Config.validate] accepts a configuration exactly when it has
    an agent and one of the two AI API keys is set and not empty.  A
    single missing key and the missing keys of the tools are warnings
    and never invalidate it; there are at most two issues, and at most
    one warning more than there are tools. *)
Theorem validate_verdict (config : Config) (environ : gmap string string) :
  let v := validate config environ in
  (Validation.valid v = true
   <-> agents config <> []
       /\ (getenv_set environ "OPENAI_API_KEY" = true
           \/ getenv_set environ "ANTHROPIC_API_KEY" = true))
  /\ (Validation.valid v = true <-> Validation.issues v = [])
  /\ List.length (Validation.issues v) <= 2
  /\ List.length (Validation.warnings v) <= 1 + List.length (tools config).
Proof.
  pose proof (tool_warnings_length environ (tools config)) as Hw.
  unfold validate, required_keys. cbn [List.filter].
  destruct (agents config) as [|a l],
    (getenv_set environ "OPENAI_API_KEY"),
    (getenv_set environ "ANTHROPIC_API_KEY");
    cbn [negb List.length Nat.eqb app Validation.valid Validation.issues
         Validation.warnings];
    (split; [|split; [|split]]);
    try (cbn; lia);
    try (split; [discriminate|intros [H1 [H2|H2]]; congruence]);
    try (split; [discriminate|discriminate]);
    try (split; reflexivity);
    try (split; [intros _; split; [discriminate|auto]|reflexivity]).
Qed.

(** ** The command line *)

Lemma run_summary (self : Orchestrator) (query : string) (output_path : Path)
    (w0 w' : World) (d : gmap string string) :
  try_except (run_phases ResearchOrchestrator_phases self query output_path)
             (failed self query) w0 = (Ok d, w') ->
  (d !! "status" = Some "completed"
   /\ d !! "summary" = Some "Research report generated successfully")
  \/ (d !! "status" = Some "failed" /\ d !! "summary" = None).
Proof.
  intros H.
  destruct (class_run self query output_path w0)
    as (d1 & w1 & H1 & _ & _ & _ & _ & Hcase).
  rewrite H in H1. inversion H1; subst d1 w1; clear H1.
  destruct (Os.write_text _ _ _); [destruct (Utf8.encode_error _)|].
  2:{ left. destruct Hcase as (_ & _ & Hst & _ & _ & Hsum). auto. }
  all: right; destruct Hcase as (_ & _ & Hst & _); (split; [exact Hst|]).
  all: destruct (guarded_run_returns ResearchOrchestrator_phases self query
                  output_path w0) as (d2 & w2 & H2 & _ & _ & Hdom);
    rewrite H in H2; inversion H2; subst d2 w2; clear H2;
    (destruct Hdom as [[Hc _]|[_ Hdom]]; [congruence|]);
    apply not_elem_of_dom; rewrite Hdom;
    apply (bool_decide_eq_true_1 _); vm_compute; reflexivity.
Qed.

Lemma conduct_research_summary (self : Orchestrator)
    (query output_dir : string) (w w' : World) (d : gmap string string) :
  conduct_research self query output_dir w = (Ok d, w') ->
  (d !! "status" = Some "completed"
   /\ d !! "summary" = Some "Research report generated successfully")
  \/ (d !! "status" = Some "failed" /\ d !! "summary" = None).
Proof.
  unfold conduct_research, conduct_research_of. intros H.
  apply bind_ok_inv in H as (p & w0 & _ & H). eapply run_summary. exact H.
Qed.

Lemma lift_eq {A : Type} (m : M A) (h : Host) :
  lift m h = (fst (m (world h)), set_world (snd (m (world h))) h).
Proof. unfold lift. now destruct (m (world h)). Qed.

Lemma init_eq (w : World) :
  ResearchOrchestrator_init w
  = (Ok {| session_id :=
             PyStr.take 8 (Uuid.str (Uuid.uuid4_int (urandom w (draws w)))) |},
     mkWorld (fs w) (handlers w) (records w) (clock w) (ticks w)
             (urandom w) (S (draws w))).
Proof. reflexivity. Qed.

(** X24: [run_research_mode], for an output directory down from the
    working directory, leaves the process with status 1 exactly when
    [conduct_research] raises, that is when the session set-up fails;
    the failure is printed and logged.  A run that returns with status
    [failed] is announced like a completed one: "Research completed!
    Results saved to: ..." is printed, and only the summary line is
    missing.  Of the success nothing is logged: [logging.info] goes to
    the root logger, whose level is [WARNING]. *)
Theorem research_mode_outcome (query output_dir : string) (h : Host) :
  local (Pathlib.parse output_dir) = true ->
  exists orchestrator w1,
    ResearchOrchestrator_init (world h) = (Ok orchestrator, w1)
    /\ let r := Cli.run_research_mode query output_dir h in
       let announced :=
         PyStr.nl +:+ "✅ Research completed! Results saved to: "
         +:+ output_dir +:+ PyStr.nl in
       match conduct_research orchestrator query output_dir w1 with
       | (Ok results, w') =>
           fst r = Cli.Returns
           /\ world (snd r) = w'
           /\ root_records (snd r) = root_records h
           /\ ((results !! "status" = Some "completed"
                /\ printed (snd r)
                   = printed h
                     ++ [announced;
                         PyStr.nl
                         +:+ "📋 Summary: Research report generated successfully"
                         +:+ PyStr.nl])
               \/ (results !! "status" = Some "failed"
                   /\ printed (snd r) = printed h ++ [announced]))
       | (Raise e, w') =>
           fst r = Cli.Exits 1
           /\ world (snd r) = w'
           /\ root_records (snd r)
              = root_records h
                ++ [(ERROR, "Research failed: " +:+ exn_str e)]
           /\ printed (snd r)
              = printed h
                ++ [PyStr.nl +:+ "❌ Research failed: " +:+ exn_str e
                    +:+ PyStr.nl]
       end.
Proof.
  intros _.
  rewrite init_eq. eexists _, _. split; [reflexivity|]. cbv zeta.
  unfold Cli.run_research_mode. rewrite lift_eq, init_eq.
  cbn [fst snd world root_log]. rewrite lift_eq.
  cbn [fst snd world set_world root_log].
  match goal with
  | |- context [conduct_research ?o query output_dir ?w] =>
      destruct (conduct_research o query output_dir w)
        as [[results|e] w'] eqn:E
  end.
  - cbn [fst snd]. split; [reflexivity|].
    apply conduct_research_summary in E.
    unfold Cli.print_summary.
    destruct E as [[Hst Hsum]|[Hst Hsum]]; rewrite Hsum.
    + cbn [PyText.truthy world print root_log set_world root_records
           app_records printed stdin].
      split; [reflexivity|]. split; [reflexivity|].
      left. split; [exact Hst|]. now rewrite <- app_assoc.
    + cbn [world print root_log set_world root_records
           app_records printed stdin].
      split; [reflexivity|]. split; [reflexivity|].
      right. split; [exact Hst|]. reflexivity.
  - cbn [fst snd world print root_log set_world root_records
         app_records printed stdin].
    split; [reflexivity|]. split; [reflexivity|].
    split; reflexivity.
Qed.

(** A run from the command line that completes: nothing reaches the
    root logger. *)
Lemma research_mode_outcome_witness :
  fst (Cli.run_research_mode "tech" "out" fresh_host) = Cli.Returns
  /\ root_records (snd (Cli.run_research_mode "tech" "out" fresh_host)) = [].
Proof.
  destruct (research_mode_outcome "tech" "out" fresh_host eq_refl)
    as (o & w1 & Hinit & Hcase).
  pose (o' := value_of watson newcomer). pose (w1' := snd newcomer).
  assert (Hn : ResearchOrchestrator_init (world fresh_host) = (Ok o', w1'))
    by reflexivity.
  rewrite Hn in Hinit. injection Hinit as <- <-.
  assert (Hr : returned (conduct_research o' "tech" "out" w1') = true)
    by (vm_compute; reflexivity).
  unfold returned in Hr. cbv zeta in Hcase.
  destruct (conduct_research o' "tech" "out" w1') as [[results|e] w'];
    [|discriminate Hr].
  destruct Hcase as (Hret & _ & Hroot & _).
  split; [exact Hret | exact Hroot].
Defined.

(** ** The interactive session *)

Lemma command_cases (x : string) :
  bool_decide (x ∈ ["quit"; "exit"; "q"; "help"; "status"])
  = bool_decide (x ∈ ["quit"; "exit"; "q"])
    || String.eqb x "help" || String.eqb x "status".
Proof.
  destruct (bool_decide (x ∈ ["quit"; "exit"; "q"])) eqn:E.
  - apply bool_decide_eq_true in E. apply bool_decide_eq_true_2.
    rewrite !elem_of_cons in *. tauto.
  - apply bool_decide_eq_false in E.
    destruct (String.eqb_spec x "help") as [->|Hh];
      [apply bool_decide_eq_true_2; rewrite !elem_of_cons; tauto|].
    destruct (String.eqb_spec x "status") as [->|Hs];
      [apply bool_decide_eq_true_2; rewrite !elem_of_cons; tauto|].
    apply bool_decide_eq_false_2. rewrite !elem_of_cons in *.
    rewrite elem_of_nil in *. tauto.
Qed.

Lemma quits_not_blank (line : string) :
  quits line = true -> PyText.truthy (PyText.strip line) = true.
Proof.
  unfold quits. destruct (PyText.strip line); [|reflexivity].
  intros H. apply bool_decide_eq_true in H. cbn in H.
  rewrite !elem_of_cons, elem_of_nil in H.
  destruct H as [H|[H|[H|[]]]]; discriminate.
Qed.

Lemma quits_not_asks (line : string) : quits line = true -> asks line = false.
Proof.
  unfold quits, asks. intros H. rewrite command_cases, H.
  now rewrite andb_false_r.
Qed.

Lemma show_status_keeps (orchestrator : Orchestrator) (config : Config)
    (h : Host) :
  world (Cli.show_status orchestrator config h) = world h
  /\ stdin (Cli.show_status orchestrator config h) = stdin h.
Proof. split; reflexivity. Qed.

(** An iteration that finds the input exhausted. *)
Lemma interactive_step_eof (orchestrator : Orchestrator) (config : Config)
    (output_dir : string) (h : Host) :
  stdin h = [] ->
  let r := Cli.interactive_step orchestrator config output_dir h in
  fst r = Cli.Continue
  /\ stdin (snd r) = []
  /\ world (snd r) = world h
  /\ printed (snd r)
     = printed h
       ++ ["🔍 Research Query: ";
           PyStr.nl +:+ "❌ Error: EOF when reading a line" +:+ PyStr.nl].
Proof.
  intros H. unfold Cli.interactive_step, input. rewrite H.
  cbn. rewrite <- app_assoc. auto.
Qed.

(** An iteration that reads a line. *)
Lemma interactive_step_line (orchestrator : Orchestrator) (config : Config)
    (output_dir : string) (h : Host) (line : string) (rest : list string) :
  stdin h = line :: rest ->
  let r := Cli.interactive_step orchestrator config output_dir h in
  stdin (snd r) = rest
  /\ world (snd r)
     = (if asks line
        then snd (conduct_research orchestrator (PyText.strip line)
                                   output_dir (world h))
        else world h)
  /\ (if quits line
      then fst r = Cli.Break
           /\ printed (snd r)
              = printed h
                ++ ["🔍 Research Query: ";
                    PyStr.nl +:+ "👋 Goodbye! Happy researching!"
                    +:+ PyStr.nl]
      else fst r = Cli.Continue).
Proof.
  intros H. unfold Cli.interactive_step, input. rewrite H.
  unfold asks, quits. rewrite command_cases.
  destruct (PyText.truthy (PyText.strip line)) eqn:Et; cbn [negb andb].
  2:{ destruct (bool_decide _) eqn:Eq.
      - pose proof (quits_not_blank line Eq). congruence.
      - cbn. auto. }
  destruct (bool_decide _) eqn:Eq; cbn [negb orb].
  { cbn. rewrite <- app_assoc. auto. }
  destruct (String.eqb _ "help"); cbn [negb orb]; [cbn; auto|].
  destruct (String.eqb _ "status"); cbn [negb orb]; [cbn; auto|].
  rewrite lift_eq. cbn [world print]. unfold Cli.interactive_except.
  destruct (conduct_research _ _ _ _) as [[results|e] w']; cbn [fst snd].
  - unfold Cli.print_summary.
    destruct (results !! "summary") as [s|]; [destruct (PyText.truthy s)|];
      cbn; auto.
  - cbn. auto.
Qed.

(** The loop up to the first line that quits. *)
Lemma interactive_loop_run (orchestrator : Orchestrator) (config : Config)
    (output_dir : string) (before : list string) :
  forall (h : Host) (line : string) (after : list string),
    stdin h = before ++ line :: after ->
    Forall (fun l => quits l = false) before ->
    quits line = true ->
    exists h',
      (forall fuel,
         Cli.interactive_loop fuel orchestrator config output_dir h
         = if (fuel <=? List.length before)%nat then None else Some h')
      /\ stdin h' = after
      /\ last (printed h')
         = Some (PyStr.nl +:+ "👋 Goodbye! Happy researching!" +:+ PyStr.nl)
      /\ world h'
         = serve orchestrator output_dir
                 (map PyText.strip (List.filter asks before)) (world h).
Proof.
  induction before as [|l before IH]; intros h line after Hin Hnot Hq.
  - cbn [app] in Hin.
    pose proof (interactive_step_line orchestrator config output_dir h
                  line after Hin) as (Hs & Hw & Hb).
    rewrite Hq in Hb. destruct Hb as [Hb Hp].
    rewrite (quits_not_asks line Hq) in Hw.
    destruct (Cli.interactive_step orchestrator config output_dir h)
      as [fl h1] eqn:E. cbn [fst snd] in *. subst fl.
    exists h1. split; [|split; [exact Hs|split; [|exact Hw]]].
    + intros [|fuel]; [reflexivity|]. cbn [Cli.interactive_loop].
      now rewrite E.
    + rewrite Hp, last_app. reflexivity.
  - cbn [app] in Hin. inversion Hnot as [|? ? Hl Hrest]; subst.
    pose proof (interactive_step_line orchestrator config output_dir h
                  l (before ++ line :: after) Hin) as (Hs & Hw & Hb).
    rewrite Hl in Hb.
    destruct (Cli.interactive_step orchestrator config output_dir h)
      as [fl h1] eqn:E. cbn [fst snd] in *. subst fl.
    destruct (IH h1 line after Hs Hrest Hq) as (h' & Hloop & Hst & Hp & Hw').
    exists h'. split; [|split; [exact Hst|split; [exact Hp|]]].
    + intros [|fuel]; [reflexivity|]. cbn [Cli.interactive_loop].
      rewrite E. rewrite Hloop. reflexivity.
    + rewrite Hw', Hw. cbn [List.filter].
      destruct (asks l); reflexivity.
Qed.

(** What a loop that has ended has read. *)
Lemma interactive_loop_ended (orchestrator : Orchestrator) (config : Config)
    (output_dir : string) (fuel : nat) :
  forall (h h' : Host),
    Cli.interactive_loop fuel orchestrator config output_dir h = Some h' ->
    exists before line,
      stdin h = before ++ line :: stdin h'
      /\ Forall (fun l => quits l = false) before
      /\ quits line = true
      /\ List.length before < fuel
      /\ world h'
         = serve orchestrator output_dir
                 (map PyText.strip (List.filter asks before)) (world h).
Proof.
  induction fuel as [|fuel IH]; intros h h' H; [discriminate|].
  cbn [Cli.interactive_loop] in H.
  destruct (stdin h) as [|l rest] eqn:Hin.
  - pose proof (interactive_step_eof orchestrator config output_dir h Hin)
      as (Hc & Hs & Hw & _).
    destruct (Cli.interactive_step orchestrator config output_dir h)
      as [fl h1]. cbn [fst snd] in *. subst fl.
    apply IH in H as (before & line & Hst & _).
    rewrite Hs in Hst. now destruct before.
  - pose proof (interactive_step_line orchestrator config output_dir h
                  l rest Hin) as (Hs & Hw & Hb).
    destruct (Cli.interactive_step orchestrator config output_dir h)
      as [fl h1]. cbn [fst snd] in *.
    destruct (quits l) eqn:Hq.
    + destruct Hb as [-> _]. inversion H; subst h1; clear H.
      exists [], l. cbn [app List.filter map serve List.length].
      rewrite (quits_not_asks l Hq) in Hw.
      split; [now rewrite Hs|]. split; [constructor|].
      split; [exact Hq|]. split; [lia | exact Hw].
    + subst fl. apply IH in H as (before & line & Hst & Hnot & Hql & Hlen & Hw').
      exists (l :: before), line. cbn [app List.length].
      split; [now rewrite Hs in Hst; rewrite Hst|].
      split; [now constructor|]. split; [exact Hql|]. split; [lia|].
      rewrite Hw', Hw. cbn [List.filter].
      destruct (asks l); reflexivity.
Qed.

Lemma run_interactive_mode_eq (fuel : nat) (config : Config)
    (output_dir : string) (h : Host) :
  exists orchestrator w1,
    ResearchOrchestrator_init (world h) = (Ok orchestrator, w1)
    /\ fs w1 = fs (world h)
    /\ world (at_first_prompt h) = w1
    /\ Cli.run_interactive_mode fuel config output_dir h
       = match Cli.interactive_loop fuel orchestrator config output_dir
                (at_first_prompt h) with
         | Some h' => Some (Cli.Returns, h')
         | None => None
         end.
Proof.
  unfold Cli.run_interactive_mode, at_first_prompt.
  rewrite lift_eq, init_eq. cbn [fst snd].
  eexists _, _. split; [reflexivity|]. split; [reflexivity|].
  split; reflexivity.
Qed.

(** X25: [run_interactive_mode] ends at the first input line that,
    stripped and in lower case, is [quit], [exit] or [q]: with the
    lines [before] read without such a line, its loop takes one
    iteration for each of them and one for the line that quits, says
    goodbye, leaves the rest of the input unread and returns. *)
Theorem interactive_ends_at_first_quit (config : Config)
    (output_dir : string) (h : Host)
    (before : list string) (line : string) (after : list string) :
  stdin h = before ++ line :: after ->
  Forall (fun l => quits l = false) before ->
  quits line = true ->
  exists h',
    (forall fuel,
       Cli.run_interactive_mode fuel config output_dir h
       = if (fuel <=? List.length before)%nat then None
         else Some (Cli.Returns, h'))
    /\ stdin h' = after
    /\ last (printed h')
       = Some (PyStr.nl +:+ "👋 Goodbye! Happy researching!" +:+ PyStr.nl).
Proof.
  intros Hin Hnot Hq.
  destruct (run_interactive_mode_eq 0 config output_dir h)
    as (orchestrator & w1 & Hinit & _ & _ & _).
  destruct (interactive_loop_run orchestrator config output_dir before
              (at_first_prompt h) line after Hin Hnot Hq)
    as (h' & Hloop & Hs & Hp & _).
  exists h'. split; [|auto]. intros fuel.
  destruct (run_interactive_mode_eq fuel config output_dir h)
    as (o' & w1' & Hinit' & _ & _ & ->).
  rewrite Hinit in Hinit'. inversion Hinit'; subst o' w1'.
  rewrite Hloop. now destruct (fuel <=? _)%nat.
Qed.

(** A session whose quit line comes in capitals between two no-break
    spaces. *)
Lemma interactive_ends_at_first_quit_witness :
  exists h',
    Cli.run_interactive_mode 3 baker_config "out"
      (typed ["  "; "help"; nbsp +:+ "QUIT" +:+ nbsp; "more"])
    = Some (Cli.Returns, h')
    /\ stdin h' = ["more"].
Proof.
  assert (H1 : quits "  " = false) by (vm_compute; reflexivity).
  assert (H2 : quits "help" = false) by (vm_compute; reflexivity).
  assert (H3 : quits (nbsp +:+ "QUIT" +:+ nbsp) = true)
    by (vm_compute; reflexivity).
  destruct (interactive_ends_at_first_quit baker_config "out"
              (typed ["  "; "help"; nbsp +:+ "QUIT" +:+ nbsp; "more"])
              ["  "; "help"] (nbsp +:+ "QUIT" +:+ nbsp) ["more"] eq_refl
              (Forall_cons_2 _ _ _ H1 (Forall_cons_2 _ _ _ H2 (Forall_nil_2 _))) H3)
    as (h' & Hloop & Hs & _).
  exists h'. split; [exact (Hloop 3) | exact Hs].
Defined.

(** X26: without such a line [run_interactive_mode] never returns,
    however many iterations its loop is given.  An exhausted input does
    not end it: the [EOFError] of [input] is caught by the
    [except Exception] of the loop body, which prints the error and
    goes on. *)
Theorem interactive_never_ends_without_quit (config : Config)
    (output_dir : string) (h : Host) :
  Forall (fun l => quits l = false) (stdin h) ->
  forall fuel, Cli.run_interactive_mode fuel config output_dir h = None.
Proof.
  intros Hnot fuel.
  destruct (run_interactive_mode_eq fuel config output_dir h)
    as (orchestrator & w1 & _ & _ & _ & ->).
  destruct (Cli.interactive_loop fuel orchestrator config output_dir _)
    as [h'|] eqn:E; [|reflexivity].
  apply interactive_loop_ended in E
    as (before & line & Hin & _ & Hq & _).
  change (stdin (at_first_prompt h)) with (stdin h) in Hin.
  rewrite Hin in Hnot. apply Forall_app in Hnot as [_ Hnot].
  inversion Hnot; congruence.
Qed.

Lemma interactive_never_ends_without_quit_witness :
  Cli.run_interactive_mode 10 baker_config "out"
    (typed ["status"; nbsp +:+ "quite" +:+ nbsp]) = None.
Proof.
  assert (H1 : quits "status" = false) by (vm_compute; reflexivity).
  assert (H2 : quits (nbsp +:+ "quite" +:+ nbsp) = false)
    by (vm_compute; reflexivity).
  apply (interactive_never_ends_without_quit baker_config "out"
           (typed ["status"; nbsp +:+ "quite" +:+ nbsp])
           (Forall_cons_2 _ _ _ H1 (Forall_cons_2 _ _ _ H2 (Forall_nil_2 _)))
           10).
Defined.

(** X27: when [run_interactive_mode] has returned, the world is what
    the one orchestrator of the session leaves after serving, in
    order, the lines read that are neither blank nor a command
    ([quit], [exit], [q], [help], [status] in any case), each stripped
    of the white space around it, that of Unicode included; nothing
    else of the session touches the world.  The output directory lies
    down from the working directory and the lines are text that the
    standard output prints. *)
Theorem interactive_serves_queries (config : Config) (output_dir : string)
    (fuel : nat) (h h' : Host) (out : Cli.outcome) :
  local (Pathlib.parse output_dir) = true ->
  Forall (fun l => printable l = true) (stdin h) ->
  Cli.run_interactive_mode fuel config output_dir h = Some (out, h') ->
  exists orchestrator w1 before line,
    ResearchOrchestrator_init (world h) = (Ok orchestrator, w1)
    /\ out = Cli.Returns
    /\ stdin h = before ++ line :: stdin h'
    /\ Forall (fun l => quits l = false) before
    /\ quits line = true
    /\ world h'
       = serve orchestrator output_dir
               (map PyText.strip (List.filter asks before)) w1.
Proof.
  intros _ _ H.
  destruct (run_interactive_mode_eq fuel config output_dir h)
    as (orchestrator & w1 & Hinit & _ & Hw1 & Heq).
  rewrite Heq in H.
  destruct (Cli.interactive_loop fuel orchestrator config output_dir _)
    as [h1|] eqn:E; [|discriminate].
  inversion H; subst out h1; clear H.
  apply interactive_loop_ended in E
    as (before & line & Hin & Hnot & Hq & _ & Hw).
  exists orchestrator, w1, before, line. rewrite Hw1 in Hw. auto 7.
Qed.

(** A session with a query between no-break spaces, a command and the
    end. *)
Lemma interactive_serves_queries_witness :
  exists h' orchestrator w1 before,
    Cli.run_interactive_mode 4 baker_config "out"
      (typed [nbsp +:+ "tech " +:+ nbsp; "Status"; "exit"])
    = Some (Cli.Returns, h')
    /\ ResearchOrchestrator_init fresh_world = (Ok orchestrator, w1)
    /\ world h'
       = serve orchestrator "out"
               (map PyText.strip (List.filter asks before)) w1.
Proof.
  pose (query := nbsp +:+ "tech " +:+ nbsp).
  assert (H1 : quits query = false) by (vm_compute; reflexivity).
  assert (H2 : quits "Status" = false) by (vm_compute; reflexivity).
  assert (H3 : quits "exit" = true) by (vm_compute; reflexivity).
  assert (P1 : printable query = true) by (vm_compute; reflexivity).
  assert (P2 : printable "Status" = true) by (vm_compute; reflexivity).
  assert (P3 : printable "exit" = true) by (vm_compute; reflexivity).
  destruct (run_interactive_mode_eq 4 baker_config "out"
              (typed [query; "Status"; "exit"]))
    as (o & w0 & _ & _ & _ & Heq).
  destruct (interactive_loop_run o baker_config "out"
              [query; "Status"]
              (at_first_prompt (typed [query; "Status"; "exit"]))
              "exit" [] eq_refl
              (Forall_cons_2 _ _ _ H1 (Forall_cons_2 _ _ _ H2 (Forall_nil_2 _))) H3)
    as (h' & Hloop & _).
  rewrite (Hloop 4) in Heq. cbn [Nat.leb List.length] in Heq.
  destruct (interactive_serves_queries baker_config "out" 4
              (typed [query; "Status"; "exit"]) h' Cli.Returns eq_refl
              (Forall_cons_2 _ _ _ P1
                 (Forall_cons_2 _ _ _ P2
                    (Forall_cons_2 _ _ _ P3 (Forall_nil_2 _)))) Heq)
    as (orchestrator & w1 & before & line & Hinit & _ & _ & _ & _ & Hw).
  exists h', orchestrator, w1, before.
  split; [exact Heq|]. split; [exact Hinit | exact Hw].
Defined.

(** What the orchestrator is asked of such a line. *)
Example query_between_no_break_spaces :
  asks (nbsp +:+ "tech " +:+ nbsp) = true
  /\ PyText.strip (nbsp +:+ "tech " +:+ nbsp) = "tech".
Proof. split; vm_compute; reflexivity. Qed.

Lemma serve_keeps (orchestrator : Orchestrator) (output_dir : string)
    (queries : list string) :
  forall w,
    keeps_files (report_file orchestrator (Pathlib.parse output_dir)) (fs w)
                (fs (serve orchestrator output_dir queries w))
    /\ keeps_dirs (fs w) (fs (serve orchestrator output_dir queries w))
    /\ forall q,
         ~ along_or_under (Pathlib.parse output_dir) q ->
         fs (serve orchestrator output_dir queries w) !! q = fs w !! q.
Proof.
  induction queries as [|query rest IH]; intros w; cbn [serve].
  - split; [apply keeps_files_refl|]. split; [intros q Hq; exact Hq|]. auto.
  - destruct (IH (snd (conduct_research orchestrator query output_dir w)))
      as (Hf & Hd & Hq).
    destruct (conduct_research_keeps orchestrator query output_dir w)
      as (Hf1 & Hd1).
    split; [eapply keeps_files_trans; eassumption|].
    split; [eapply keeps_dirs_trans; eassumption|].
    intros q Hout. rewrite Hq by exact Hout.
    now apply conduct_research_changes.
Qed.

(** X28: an interactive session, however many queries it serves,
    leaves every regular file but one with its content and every
    directory a directory, and changes nothing outside the paths
    leading to the output directory and lying in it: all its reports
    go to the one report file of its orchestrator, each replacing the
    one before.  The paths are those down from the working directory,
    the output directory among them. *)
Theorem interactive_session_frame (config : Config) (output_dir : string)
    (fuel : nat) (h h' : Host) (out : Cli.outcome) :
  local (Pathlib.parse output_dir) = true ->
  Cli.run_interactive_mode fuel config output_dir h = Some (out, h') ->
  exists orchestrator w1,
    ResearchOrchestrator_init (world h) = (Ok orchestrator, w1)
    /\ (forall p content,
          local p = true ->
          p <> report_file orchestrator (Pathlib.parse output_dir) ->
          Os.read_text (fs (world h)) p = Some content ->
          Os.read_text (fs (world h')) p = Some content)
    /\ (forall q,
          local q = true ->
          Os.is_dir (fs (world h)) q = true ->
          Os.is_dir (fs (world h')) q = true)
    /\ forall q,
         local q = true ->
         ~ along_or_under (Pathlib.parse output_dir) q ->
         fs (world h') !! q = fs (world h) !! q.
Proof.
  intros _ H.
  destruct (run_interactive_mode_eq fuel config output_dir h)
    as (orchestrator & w1 & Hinit & Hfs & Hw1 & Heq).
  rewrite Heq in H.
  destruct (Cli.interactive_loop fuel orchestrator config output_dir _)
    as [h1|] eqn:E; [|discriminate].
  inversion H; subst out h1; clear H.
  apply interactive_loop_ended in E as (before & line & _ & _ & _ & _ & ->).
  exists orchestrator, w1. split; [exact Hinit|].
  rewrite Hw1, <- Hfs.
  destruct (serve_keeps orchestrator output_dir
              (map PyText.strip (List.filter asks before)) w1)
    as (Hf & Hd & Hq).
  split; [intros p content _ Hp Hread; exact (Hf p content Hp Hread)|].
  split; [intros q _ Hdir; exact (Hd q Hdir)|].
  intros q _ Hout. exact (Hq q Hout).
Qed.

(** A session in a directory where [out] is a file of notes: the
    notes are still there at the end. *)
Lemma interactive_session_frame_witness :
  exists h',
    Cli.run_interactive_mode 4 baker_config "out"
      (set_world cluttered_world (typed ["tech"; "history of art"; "q"]))
    = Some (Cli.Returns, h')
    /\ Os.read_text (fs (world h')) ["out"] = Some "notes".
Proof.
  pose (h := set_world cluttered_world (typed ["tech"; "history of art"; "q"])).
  assert (H1 : quits "tech" = false) by (vm_compute; reflexivity).
  assert (H2 : quits "history of art" = false) by (vm_compute; reflexivity).
  assert (H3 : quits "q" = true) by (vm_compute; reflexivity).
  destruct (run_interactive_mode_eq 4 baker_config "out" h)
    as (o & w0 & _ & _ & _ & Heq).
  destruct (interactive_loop_run o baker_config "out"
              ["tech"; "history of art"] (at_first_prompt h)
              "q" [] eq_refl
              (Forall_cons_2 _ _ _ H1 (Forall_cons_2 _ _ _ H2 (Forall_nil_2 _))) H3)
    as (h' & Hloop & _).
  rewrite (Hloop 4) in Heq. cbn [Nat.leb List.length] in Heq.
  destruct (interactive_session_frame baker_config "out" 4 h h' Cli.Returns
              eq_refl Heq)
    as (orchestrator & w1 & _ & Hf & _).
  exists h'. split; [exact Heq|].
  apply Hf; [reflexivity | | reflexivity].
  destruct (report_file_shape orchestrator (Pathlib.parse "out"))
    as (x & rest & ->).
  discriminate.
Defined.

